(** * DocTool: the PDF survey-sheet extractor [pdf_extractor/core.py]

    A shallow embedding of [pdf_extractor/core.py] and of the parts of the
    Python runtime, pandas, pypdf and the file system that it touches.

    - Python [str] values are Rocq [string]s whose characters stand for the
      code points 0..255; the [str] methods used by the program ([strip],
      [split], [splitlines], [lower], [endswith], [join], ["," in s]) are
      written out in [Module Py].
    - pandas [DataFrame]s are mutable objects: they live in a store
      ([frames]) and are passed around by reference ([loc]).  A [Series] is
      never mutated by the program and is handled by value.
    - effects (store, file system, standard output, exceptions) are threaded
      through the state-and-exception monad [M].
    - the file system is a map from paths, as the program spells them, to
      regular files, with the set of the directories that are there; what
      the operating system, pandas and xlsxwriter decide for reasons the
      file system does not show is a parameter ([env]). *)

From Stdlib Require Import String Ascii List Arith Lia Bool.
From stdpp Require Import base option list gmap strings pretty.

Local Open Scope string_scope.
Local Open Scope list_scope.
Local Open Scope nat_scope.

(* ===================================================================== *)
(** * Python strings                                                      *)
(* ===================================================================== *)

Module Py.

(** [str.isspace] on the code points below 256: TAB..CR, FS..US, SPACE,
    NEL and NBSP. *)
Definition is_space (c : ascii) : bool :=
  let n := nat_of_ascii c in
  ((9 <=? n) && (n <=? 13)) || ((28 <=? n) && (n <=? 32))
  || (n =? 133) || (n =? 160).

Fixpoint lstrip_chars (s : list ascii) : list ascii :=
  match s with
  | c :: s' => if is_space c then lstrip_chars s' else s
  | [] => []
  end.

Definition rstrip_chars (s : list ascii) : list ascii :=
  rev (lstrip_chars (rev s)).

Definition strip_chars (s : list ascii) : list ascii :=
  rstrip_chars (lstrip_chars s).

(** [s.strip()] *)
Definition strip (s : string) : string :=
  string_of_list_ascii (strip_chars (list_ascii_of_string s)).

(** [sep in s] for a one-character [sep]. *)
Definition contains_char (sep : ascii) (s : string) : bool :=
  existsb (Ascii.eqb sep) (list_ascii_of_string s).

(** [s.split(sep)] for a one-character [sep]: every occurrence of [sep]
    cuts, empty pieces are kept, and the result is never empty. *)
Fixpoint split_chars (sep : ascii) (s : list ascii) : list (list ascii) :=
  match s with
  | [] => [[]]
  | c :: s' =>
      if Ascii.eqb c sep then [] :: split_chars sep s'
      else match split_chars sep s' with
           | piece :: pieces => (c :: piece) :: pieces
           | [] => [[c]]
           end
  end.

Definition split (sep : ascii) (s : string) : list string :=
  map string_of_list_ascii (split_chars sep (list_ascii_of_string s)).

(** [s.split()]: cut at runs of white space, no empty piece. [cur] is
    the token being read, in reverse. *)
Fixpoint split_ws_go (cur : list ascii) (s : list ascii) : list (list ascii) :=
  match s with
  | [] => match cur with [] => [] | _ => [rev cur] end
  | c :: s' =>
      if is_space c
      then match cur with
           | [] => split_ws_go [] s'
           | _ => rev cur :: split_ws_go [] s'
           end
      else split_ws_go (c :: cur) s'
  end.

Definition split_ws (s : string) : list string :=
  map string_of_list_ascii (split_ws_go [] (list_ascii_of_string s)).

(** Line boundaries of [str.splitlines]: LF, VT, FF, CR, FS, GS, RS and
    NEL (CR LF counts once). *)
Definition is_linebreak (c : ascii) : bool :=
  let n := nat_of_ascii c in
  ((10 <=? n) && (n <=? 13)) || ((28 <=? n) && (n <=? 30)) || (n =? 133).

Fixpoint splitlines_go (cur : list ascii) (s : list ascii) : list (list ascii) :=
  match s with
  | [] => match cur with [] => [] | _ => [rev cur] end
  | c :: s' =>
      if is_linebreak c
      then rev cur ::
           match s' with
           | c' :: s'' =>
               if (nat_of_ascii c =? 13) && (nat_of_ascii c' =? 10)
               then splitlines_go [] s''
               else splitlines_go [] s'
           | [] => []
           end
      else splitlines_go (c :: cur) s'
  end.

Definition splitlines (s : string) : list string :=
  map string_of_list_ascii (splitlines_go [] (list_ascii_of_string s)).

(** [sep.join(pieces)] *)
Fixpoint join (sep : string) (pieces : list string) : string :=
  match pieces with
  | [] => ""
  | [p] => p
  | p :: rest => p +:+ sep +:+ join sep rest
  end.

(** [s.lower()] on the code points below 256. *)
Definition lower_char (c : ascii) : ascii :=
  let n := nat_of_ascii c in
  if ((65 <=? n) && (n <=? 90))
     || ((192 <=? n) && (n <=? 222) && negb (n =? 215))
  then ascii_of_nat (n + 32) else c.

Definition lower (s : string) : string :=
  string_of_list_ascii (map lower_char (list_ascii_of_string s)).

(** [s.startswith(prefix)] and [s.endswith(suffix)] *)
Fixpoint prefix_chars (pre s : list ascii) : bool :=
  match pre, s with
  | [], _ => true
  | a :: pre', b :: s' => Ascii.eqb a b && prefix_chars pre' s'
  | _ :: _, [] => false
  end.

Definition startswith (s pre : string) : bool :=
  prefix_chars (list_ascii_of_string pre) (list_ascii_of_string s).

Definition endswith (s suf : string) : bool :=
  prefix_chars (rev (list_ascii_of_string suf)) (rev (list_ascii_of_string s)).

(** Truth value of a [str]: only the empty string is false. *)
Definition truthy (s : string) : bool := negb (String.eqb s "").

(** [str(n)] for a natural number. *)
Definition str_of_nat (n : nat) : string := pretty n.

End Py.

(* ===================================================================== *)
(** * Exceptions, results and the world                                   *)
(* ===================================================================== *)

(** The exceptions that can be raised while the program runs.  All of them
    are subclasses of [Exception], so an [except Exception] clause catches
    each one. *)
Inductive exn : Type :=
  | NameError (name : string)
  | IndexError
  | ValueError (msg : string)
  | FileNotFoundError (path : string)
  | FileExistsError (path : string)
  | NotADirectoryError (path : string)
  | IsADirectoryError (path : string)
  | PdfReadError (msg : string)
  | XlsxError (msg : string)
  | ReferenceError.

(** [str(e)], as interpolated into the messages the program prints. *)
Definition exn_str (e : exn) : string :=
  match e with
  | NameError name => "name '" +:+ name +:+ "' is not defined"
  | IndexError => "index out of bounds"
  | ValueError msg => msg
  | FileNotFoundError path => "[Errno 2] No such file or directory: '" +:+ path +:+ "'"
  | FileExistsError path => "[Errno 17] File exists: '" +:+ path +:+ "'"
  | NotADirectoryError path => "[Errno 20] Not a directory: '" +:+ path +:+ "'"
  | IsADirectoryError path => "[Errno 21] Is a directory: '" +:+ path +:+ "'"
  | PdfReadError msg => msg
  | XlsxError msg => msg
  | ReferenceError => "dangling reference"
  end.

Inductive result (A : Type) : Type :=
  | Ret (a : A)
  | Raise (e : exn).
Arguments Ret {A} a.
Arguments Raise {A} e.

(** ** Tables *)

(** A [DataFrame] with positional rows: the column labels and the row
    values.  Every cell holds a [str]. *)
Record DataFrame : Type := mkDataFrame {
  columns : list string;
  rows : list (list string);
}.

(** Every row has one cell per column. *)
Definition rectangular (df : DataFrame) : Prop :=
  Forall (fun r => length r = length (columns df)) (rows df).

(** ** Workbooks, as xlsxwriter is driven *)

(** The calls made on a worksheet: [ws.write] by the program, with its
    bold format or with none; [ws.write] by pandas for a header cell, with
    the header style of pandas (bold, bordered and centred before pandas
    3.0, plain since); and [ws.set_column]. *)
Inductive xl_op : Type :=
  | XlWrite (r c : nat) (value : string) (bold : bool)
  | XlHeader (r c : nat) (value : string)
  | XlSetColumn (first last : nat) (width : option nat).

Record worksheet : Type := mkWorksheet {
  ws_name : string;
  ws_ops : list xl_op;
}.

Definition Workbook : Type := list worksheet.

(** ** Files *)

(** What pypdf finds in one page: text, or an error on extraction. *)
Inductive page : Type :=
  | PageText (text : string)
  | PageFails (e : exn).

Inductive file : Type :=
  | FilePdf (pages : list page)
  | FileCorrupt (e : exn)
  | FileXlsx (wb : Workbook).

Inductive event : Type :=
  | EvMakedirs (path : string)
  | EvOpenPdf (path : string)
  | EvSaveXlsx (path : string).

Definition loc : Type := nat.

(** The state the program runs in: the pandas objects allocated so far;
    the regular files on disk, by path; the directories that are there,
    beside the working directory and the root; what was printed; and the
    order in which the file system was touched.  A path is a key as the
    program spells it: the world says what stands at each spelling. *)
Record world : Type := mkWorld {
  frames : list DataFrame;
  files : gmap string file;
  dirs : gset string;
  stdout : list string;
  trace : list event;
}.

(** What the program cannot see into: the listing [os.walk] produces for a
    folder, as (root, dirs, files) triples in the order it yields them;
    the refusal of the operating system to create a directory for a reason
    the world does not show (permissions, a read-only file system, a [..]
    in the path); whether pandas and xlsxwriter manage to write a given
    workbook at a given path that the world lets them open; and, when they
    do not, what they leave at that path ([None]: what was there
    before). *)
Record env : Type := mkEnv {
  os_walk : string -> list (string * list string * list string);
  mkdir_error : string -> option exn;
  xlsx_save_error : string -> Workbook -> option exn;
  xlsx_save_leaves : string -> Workbook -> option file;
}.

(* ===================================================================== *)
(** * The monad of effects                                                *)
(* ===================================================================== *)

Definition M (A : Type) : Type := world -> result A * world.

Definition ret {A} (a : A) : M A := fun w => (Ret a, w).

Definition raise {A} (e : exn) : M A := fun w => (Raise e, w).

Definition bind {A B} (m : M A) (k : A -> M B) : M B :=
  fun w =>
    match m w with
    | (Ret a, w') => k a w'
    | (Raise e, w') => (Raise e, w')
    end.

(** [try: m  except Exception as e: h e] *)
Definition try_except {A} (m : M A) (h : exn -> M A) : M A :=
  fun w =>
    match m w with
    | (Ret a, w') => (Ret a, w')
    | (Raise e, w') => h e w'
    end.

Declare Scope py_scope.
Delimit Scope py_scope with py.
Notation "x <- m ;; k" := (bind m (fun x => k))
  (at level 100, m at next level, k at level 200, right associativity) : py_scope.
Notation "m ;; k" := (bind m (fun _ => k))
  (at level 100, k at level 200, right associativity) : py_scope.
Local Open Scope py_scope.

(** ** State accessors *)

Definition set_frames (f : list DataFrame -> list DataFrame) (w : world) : world :=
  mkWorld (f (frames w)) (files w) (dirs w) (stdout w) (trace w).

Definition set_files (f : gmap string file -> gmap string file) (w : world) : world :=
  mkWorld (frames w) (f (files w)) (dirs w) (stdout w) (trace w).

Definition set_dirs (f : gset string -> gset string) (w : world) : world :=
  mkWorld (frames w) (files w) (f (dirs w)) (stdout w) (trace w).

Definition set_stdout (f : list string -> list string) (w : world) : world :=
  mkWorld (frames w) (files w) (dirs w) (f (stdout w)) (trace w).

Definition set_trace (f : list event -> list event) (w : world) : world :=
  mkWorld (frames w) (files w) (dirs w) (stdout w) (f (trace w)).

(** [print(msg)] *)
Definition print (msg : string) : M unit :=
  fun w => (Ret tt, set_stdout (fun out => out ++ [msg]) w).

Definition log_event (ev : event) : M unit :=
  fun w => (Ret tt, set_trace (fun t => t ++ [ev]) w).

(** A new pandas object: it gets the next free reference. *)
Definition alloc (df : DataFrame) : M loc :=
  fun w => (Ret (length (frames w)), set_frames (fun h => h ++ [df]) w).

(** Reading through a reference.  A reference the program holds always
    points to an object; [ReferenceError] is there for totality. *)
Definition load (l : loc) : M DataFrame :=
  fun w =>
    match frames w !! l with
    | Some df => (Ret df, w)
    | None => (Raise ReferenceError, w)
    end.

(** Updating the object behind a reference in place. *)
Definition store (l : loc) (df : DataFrame) : M unit :=
  fun w =>
    match frames w !! l with
    | Some _ => (Ret tt, set_frames (fun h => <[l := df]> h) w)
    | None => (Raise ReferenceError, w)
    end.

(* ===================================================================== *)
(** * pandas, as far as the program uses it                               *)
(* ===================================================================== *)

(** A [Series] is a column of values; the program never updates one in
    place. *)
Definition Series : Type := list string.

(** Python's [l[start:stop]] and [l[start:]] for indices within
    [0 <= start]: a slice clips at the end of the list and never raises. *)
Definition slice {A} (start stop : nat) (l : list A) : list A :=
  take (stop - start) (drop start l).

Definition slice_from {A} (start : nat) (l : list A) : list A :=
  drop start l.

(** [df.shape] and [df.empty] of a table value. *)
Definition shape (df : DataFrame) : nat * nat :=
  (length (rows df), length (columns df)).

Definition is_empty (df : DataFrame) : bool :=
  (length (rows df) =? 0) || (length (columns df) =? 0).

(** [df.shape] *)
Definition df_shape (df : loc) : M (nat * nat) :=
  d <- load df ;; ret (shape d).

(** [df.empty] *)
Definition df_empty (df : loc) : M bool :=
  d <- load df ;; ret (is_empty d).

(** [pd.DataFrame()] *)
Definition pd_DataFrame : M loc := alloc (mkDataFrame [] []).

(** [pd.DataFrame(columns=cols)] *)
Definition pd_DataFrame_columns (cols : list string) : M loc :=
  alloc (mkDataFrame cols []).

(** Row [i] of a table given by its columns. *)
Definition rows_of_columns (n : nat) (cols : list (list string)) : list (list string) :=
  map (fun i => map (fun c => nth i c "") cols) (seq 0 n).

(** [pd.DataFrame(d)] for a dict [d] of lists: the keys become the columns,
    in insertion order; lists of different lengths are refused. *)
Definition pd_DataFrame_dict (d : list (string * list string)) : M loc :=
  match d with
  | [] => alloc (mkDataFrame [] [])
  | (_, v0) :: _ =>
      if forallb (fun kv => length (snd kv) =? length v0) d
      then alloc (mkDataFrame (map fst d) (rows_of_columns (length v0) (map snd d)))
      else raise (ValueError "All arrays must be of the same length")
  end.

(** [df.iloc[r0:r1, c0:c1]]: a new table object. *)
Definition df_iloc_block (df : loc) (r0 r1 c0 c1 : nat) : M loc :=
  d <- load df ;;
  alloc (mkDataFrame (slice c0 c1 (columns d))
                     (map (slice c0 c1) (slice r0 r1 (rows d)))).

(** [df.reset_index(drop=True)]: a new table object with the same rows,
    relabelled 0, 1, ...; rows are positional here, so the values are the
    same. *)
Definition df_reset_index_drop (df : loc) : M loc :=
  d <- load df ;; alloc d.

(** [df.iloc[:, j]] *)
Definition df_iloc_col (df : loc) (j : nat) : M Series :=
  d <- load df ;;
  if j <? length (columns d)
  then match mapM (fun r : list string => r !! j) (rows d) with
       | Some s => ret s
       | None => raise IndexError
       end
  else raise IndexError.

(** [df.iloc[r, c]] *)
Definition df_iloc_cell (df : loc) (r c : nat) : M string :=
  d <- load df ;;
  match rows d !! r with
  | Some row =>
      match row !! c with
      | Some v => ret v
      | None => raise IndexError
      end
  | None => raise IndexError
  end.

(** [df.iloc[r, c0:c1].tolist()], and [df.iloc[r, c0:].tolist()] when
    [c1] is [None]. *)
Definition df_iloc_row (df : loc) (r c0 : nat) (c1 : option nat) : M (list string) :=
  d <- load df ;;
  match rows d !! r with
  | Some row =>
      ret (match c1 with
           | Some c1 => slice c0 c1 row
           | None => slice_from c0 row
           end)
  | None => raise IndexError
  end.

(** [df[name] = s]: updates the table behind [df] in place.  On a table
    without columns and rows the new column brings its rows; otherwise the
    column is appended, or replaces the column of that name.  (The program
    only assigns columns taken from one and the same table, so the lengths
    agree; pandas would align other lengths by row label.) *)
Definition df_setitem (df : loc) (name : string) (s : Series) : M unit :=
  d <- load df ;;
  match columns d, rows d with
  | [], [] => store df (mkDataFrame [name] (map (fun v => [v]) s))
  | _, _ =>
      if length s =? length (rows d)
      then match list_find (fun c => c = name) (columns d) with
           | Some (j, _) =>
               store df (mkDataFrame (columns d)
                           (zip_with (fun r v => <[j := v]> r) (rows d) s))
           | None =>
               store df (mkDataFrame (columns d ++ [name])
                           (zip_with (fun r v => r ++ [v]) (rows d) s))
           end
      else raise (ValueError "Length of values does not match length of index")
  end.

(** [s.fillna(value)]: the cells of a table are [str] values, none is
    missing, so nothing is filled. *)
Definition fillna (value : string) (s : Series) : Series := s.

(** [s.astype(str)] and [str(x)] on a [str] *)
Definition astype_str (s : Series) : Series := s.
Definition str (x : string) : string := x.

(** [pd.notna(x)] on a [str] *)
Definition notna (x : string) : bool := true.

(** [s.str.strip()] *)
Definition str_strip (s : Series) : Series := map Py.strip s.

(** [s + " "] and [s1 + s2] *)
Definition series_add_str (s : Series) (x : string) : Series :=
  map (fun v => v +:+ x) s.

Definition series_add (s1 s2 : Series) : Series :=
  zip_with String.append s1 s2.

(* ===================================================================== *)
(** * The field extractors                                                *)
(* ===================================================================== *)

Definition incoming_columns : list string :=
  ["ID"; "UPSTREAM REFERENCE"; "PIPE SHAPE"; "PIPE SIZE (mm)";
   "BACKDROP DIAM (mm)"; "PIPE MATERIAL"; "LINING";
   "DEPTH FROM COVER (m)"; "INVERT LEVEL (m AD)"].

Definition outgoing_columns : list string :=
  ["ID"; "UPSTREAM REFERENCE"; "PIPE SHAPE"; "PIPE SIZE (mm)";
   "COND"; "CRITY"; "PIPE MATERIAL"; "LINING";
   "DEPTH FROM COVER (m)"; "INVERT LEVEL (m AD)"].

Definition incoming_warning : string :=
  "Warning: Raw DataFrame too small for incoming pipe extraction.".

Definition outgoing_warning : string :=
  "Warning: Raw DataFrame too small for outgoing pipe extraction.".

(** The three size columns, each filled, stringified and stripped, joined
    by single spaces and stripped again (core.py 52-57 and 82-86). *)
Definition pipe_size (c3 c4 c5 : Series) : Series :=
  str_strip
    (series_add
       (series_add_str
          (series_add
             (series_add_str (str_strip (astype_str (fillna "" c3))) " ")
             (str_strip (astype_str (fillna "" c4))))
          " ")
       (str_strip (astype_str (fillna "" c5)))).

Definition extract_incoming_pipes (df_raw : loc) : M loc :=
  e <- df_empty df_raw ;;
  sh <- df_shape df_raw ;;
  if e || (fst sh <? 70) || (snd sh <? 11) then
    print incoming_warning ;;
    pd_DataFrame_columns incoming_columns
  else
    blk <- df_iloc_block df_raw 63 70 0 11 ;;
    pipe_data_in <- df_reset_index_drop blk ;;
    pipe_data_in_final <- pd_DataFrame ;;
    c0 <- df_iloc_col pipe_data_in 0 ;;
    df_setitem pipe_data_in_final "ID" c0 ;;
    c1 <- df_iloc_col pipe_data_in 1 ;;
    df_setitem pipe_data_in_final "UPSTREAM REFERENCE" c1 ;;
    c2 <- df_iloc_col pipe_data_in 2 ;;
    df_setitem pipe_data_in_final "PIPE SHAPE" c2 ;;
    c3 <- df_iloc_col pipe_data_in 3 ;;
    c4 <- df_iloc_col pipe_data_in 4 ;;
    c5 <- df_iloc_col pipe_data_in 5 ;;
    df_setitem pipe_data_in_final "PIPE SIZE (mm)" (pipe_size c3 c4 c5) ;;
    c6 <- df_iloc_col pipe_data_in 6 ;;
    df_setitem pipe_data_in_final "BACKDROP DIAM (mm)" c6 ;;
    c7 <- df_iloc_col pipe_data_in 7 ;;
    df_setitem pipe_data_in_final "PIPE MATERIAL" c7 ;;
    c8 <- df_iloc_col pipe_data_in 8 ;;
    df_setitem pipe_data_in_final "LINING" c8 ;;
    c9 <- df_iloc_col pipe_data_in 9 ;;
    df_setitem pipe_data_in_final "DEPTH FROM COVER (m)" c9 ;;
    c10 <- df_iloc_col pipe_data_in 10 ;;
    df_setitem pipe_data_in_final "INVERT LEVEL (m AD)" c10 ;;
    ret pipe_data_in_final.

Definition extract_outgoing_pipes (df_raw : loc) : M loc :=
  e <- df_empty df_raw ;;
  sh <- df_shape df_raw ;;
  if e || (fst sh <? 85) || (snd sh <? 12) then
    print outgoing_warning ;;
    pd_DataFrame_columns outgoing_columns
  else
    blk <- df_iloc_block df_raw 83 85 0 12 ;;
    pipe_data_out <- df_reset_index_drop blk ;;
    pipe_data_out_final <- pd_DataFrame ;;
    c0 <- df_iloc_col pipe_data_out 0 ;;
    df_setitem pipe_data_out_final "ID" c0 ;;
    c1 <- df_iloc_col pipe_data_out 1 ;;
    df_setitem pipe_data_out_final "UPSTREAM REFERENCE" c1 ;;
    c2 <- df_iloc_col pipe_data_out 2 ;;
    df_setitem pipe_data_out_final "PIPE SHAPE" c2 ;;
    c3 <- df_iloc_col pipe_data_out 3 ;;
    c4 <- df_iloc_col pipe_data_out 4 ;;
    c5 <- df_iloc_col pipe_data_out 5 ;;
    df_setitem pipe_data_out_final "PIPE SIZE (mm)" (pipe_size c3 c4 c5) ;;
    c6 <- df_iloc_col pipe_data_out 6 ;;
    df_setitem pipe_data_out_final "COND" c6 ;;
    c7 <- df_iloc_col pipe_data_out 7 ;;
    df_setitem pipe_data_out_final "CRITY" c7 ;;
    c8 <- df_iloc_col pipe_data_out 8 ;;
    df_setitem pipe_data_out_final "PIPE MATERIAL" c8 ;;
    c9 <- df_iloc_col pipe_data_out 9 ;;
    df_setitem pipe_data_out_final "LINING" c9 ;;
    c10 <- df_iloc_col pipe_data_out 10 ;;
    df_setitem pipe_data_out_final "DEPTH FROM COVER (m)" c10 ;;
    c11 <- df_iloc_col pipe_data_out 11 ;;
    df_setitem pipe_data_out_final "INVERT LEVEL (m AD)" c11 ;;
    ret pipe_data_out_final.

(** The helper [get_val] of [extract_location_data]. *)
Definition get_val (df : loc) (row col : nat) : M string :=
  sh <- df_shape df ;;
  if (row <? fst sh) && (col <? snd sh)
  then v <- df_iloc_cell df row col ;; ret (Py.strip (str v))
  else ret "".

(** The helper [join_row_range] of [extract_location_data]. *)
Definition join_row_range (df : loc) (row start_col : nat) (end_col : option nat) : M string :=
  sh <- df_shape df ;;
  if fst sh <=? row then ret ""
  else
    cols_to_use <- df_iloc_row df row start_col end_col ;;
    ret (Py.join " "
           (map (fun x => Py.strip (str x))
                (List.filter (fun x => notna x && Py.truthy (Py.strip (str x)))
                             cols_to_use))).

(** core.py 115-119: the pair ([x_ref], [y_ref]) read off [coord_text]. *)
Definition coordinates (coord_text : string) : string * string :=
  if Py.contains_char "," coord_text then
    let parts := Py.split "," coord_text in
    if 2 <=? length parts
    then (Py.strip (nth 0 parts ""), Py.strip (nth 1 parts ""))
    else ("", "")
  else ("", "").

Definition location_components : list string :=
  ["Node Reference"; "Coordinates X"; "Coordinates Y"; "Location";
   "Drainage Area Code"; "Survey Date";
   "Year Laid"; "Status"; "Function"; "Node Type";
   "Cover Shape"; "Hinged"; "Lock"; "Duty"; "Cover Size";
   "Side Entry"; "Reg Course"; "Depth"; "Shaft Size";
   "Soffit"; "Steps"; "Ladders"; "Landings"; "Chamber Size";
   "Depth of Flow (mm)"; "Depth of Silt (mm)"; "Surch Height (mm)";
   "Cover Level (m AD)"; "Notes"].

Definition location_columns : list string := ["COMPONENTS"; "VALUE"].

Definition extract_location_data (df_raw : loc) : M loc :=
  node_reference_value <- get_val df_raw 8 2 ;;
  coord_text <- get_val df_raw 9 2 ;;
  let x_ref := fst (coordinates coord_text) in
  let y_ref := snd (coordinates coord_text) in
  location_str <- join_row_range df_raw 10 1 None ;;
  drainage_code <- get_val df_raw 12 1 ;;
  survey_date <- join_row_range df_raw 13 2 None ;;
  Year_Laid <- get_val df_raw 15 2 ;;
  status_pr <- get_val df_raw 15 4 ;;
  Function_pr <- get_val df_raw 15 6 ;;
  Node_type <- get_val df_raw 16 1 ;;
  Cover_shape <- get_val df_raw 19 2 ;;
  Hinged_st <- get_val df_raw 19 4 ;;
  Lock_st <- get_val df_raw 19 6 ;;
  Duty_st <- get_val df_raw 19 8 ;;
  Cover_size <- join_row_range df_raw 19 9 None ;;
  Side_entry <- get_val df_raw 26 1 ;;
  Reg_course <- get_val df_raw 27 1 ;;
  Depth <- get_val df_raw 28 1 ;;
  Shaft_size <- join_row_range df_raw 28 2 (Some 5) ;;
  Soffit <- get_val df_raw 30 2 ;;
  Steps <- get_val df_raw 32 0 ;;
  Ladders <- get_val df_raw 34 1 ;;
  Landings <- get_val df_raw 34 3 ;;
  Chamber_size <- join_row_range df_raw 34 4 (Some 7) ;;
  Flow_depth <- get_val df_raw 38 2 ;;
  Silting <- get_val df_raw 39 2 ;;
  Surch <- get_val df_raw 44 0 ;;
  MH_cover <- get_val df_raw 47 2 ;;
  notes_95 <- get_val df_raw 95 0 ;;
  notes_96 <- join_row_range df_raw 96 0 None ;;
  let Notes := Py.strip (notes_95 +:+ " " +:+ notes_96) in
  pd_DataFrame_dict
    [("COMPONENTS", location_components);
     ("VALUE",
      [node_reference_value; x_ref; y_ref; location_str; drainage_code;
       survey_date;
       Year_Laid; status_pr; Function_pr; Node_type;
       Cover_shape; Hinged_st; Lock_st; Duty_st; Cover_size;
       Side_entry; Reg_course; Depth; Shaft_size;
       Soffit; Steps; Ladders; Landings; Chamber_size;
       Flow_depth; Silting; Surch; MH_cover; Notes])].

(* ===================================================================== *)
(** * pypdf, re, os and pathlib, as far as the program uses them          *)
(* ===================================================================== *)

(** [PdfReader(pdf_path).pages]: the pages of the document at that path,
    or the error pypdf raises when there is no readable PDF there. *)
Definition PdfReader (pdf_path : string) : M (list page) :=
  log_event (EvOpenPdf pdf_path) ;;
  fun w =>
    match files w !! pdf_path with
    | Some (FilePdf pages) => (Ret pages, w)
    | Some (FileCorrupt e) => (Raise e, w)
    | Some (FileXlsx _) => (Raise (PdfReadError "EOF marker not found"), w)
    | None => (Raise (FileNotFoundError pdf_path), w)
    end.

(** [page.extract_text()] *)
Definition extract_text (p : page) : M string :=
  match p with
  | PageText text => ret text
  | PageFails e => raise e
  end.

(** [pages[i]] *)
Definition pages_getitem (pages : list page) (i : nat) : M page :=
  match pages !! i with
  | Some p => ret p
  | None => raise IndexError
  end.

(** The names bound at module level in core.py: its four imports
    ([os], [Path], [PdfReader], [pd]) and its six functions. *)
Definition module_globals : list string :=
  ["os"; "Path"; "PdfReader"; "pd";
   "extract_raw_data"; "extract_incoming_pipes"; "extract_outgoing_pipes";
   "extract_location_data"; "process_pdf"; "run_processing_batch"].

(** The built-in names the module refers to. *)
Definition builtins : list string :=
  ["print"; "str"; "len"; "max"; "range"; "enumerate"; "Exception"].

(** Looking up a global name when a function body runs. *)
Definition load_global (name : string) : M unit :=
  if bool_decide (name ∈ module_globals ++ builtins)
  then ret tt else raise (NameError name).

(** The character classes of the pattern [NODE REFERENCE\s*([A-Z0-9]+)]. *)
Definition is_upper_or_digit (c : ascii) : bool :=
  let n := nat_of_ascii c in
  ((65 <=? n) && (n <=? 90)) || ((48 <=? n) && (n <=? 57)).

Fixpoint take_while (p : ascii -> bool) (s : list ascii) : list ascii :=
  match s with
  | c :: s' => if p c then c :: take_while p s' else []
  | [] => []
  end.

(** The pattern matched at the start of [s]: group 1, if it matches.
    White space and the group's class are disjoint, so the greedy match
    is the only one. *)
Definition match_node_reference_here (s : list ascii) : option (list ascii) :=
  let lit := list_ascii_of_string "NODE REFERENCE" in
  if Py.prefix_chars lit s then
    match take_while is_upper_or_digit (Py.lstrip_chars (drop (length lit) s)) with
    | [] => None
    | g => Some g
    end
  else None.

Fixpoint search_node_reference (s : list ascii) : option (list ascii) :=
  match match_node_reference_here s with
  | Some g => Some g
  | None =>
      match s with
      | [] => None
      | _ :: s' => search_node_reference s'
      end
  end.

(** [re.search(r"NODE REFERENCE\s*([A-Z0-9]+)", text)], giving
    [match.group(1)]. *)
Definition re_search_node_reference (text : string) : option string :=
  string_of_list_ascii <$> search_node_reference (list_ascii_of_string text).

(** [s.rstrip("/")] *)
Fixpoint lstrip_slashes (s : list ascii) : list ascii :=
  match s with
  | c :: s' => if Ascii.eqb c "/" then lstrip_slashes s' else s
  | [] => []
  end.

Definition rstrip_slashes (s : list ascii) : list ascii :=
  rev (lstrip_slashes (rev s)).

(** The paths above [path]: what stands before each of its separators,
    the empty string apart. *)
Fixpoint path_parents_go (pre s : list ascii) : list (list ascii) :=
  match s with
  | [] => []
  | c :: s' =>
      (if Ascii.eqb c "/" then match pre with [] => [] | _ => [pre] end else [])
      ++ path_parents_go (pre ++ [c]) s'
  end.

Definition path_parents (path : string) : list string :=
  map string_of_list_ascii (path_parents_go [] (list_ascii_of_string path)).

(** The entry a path names: the path without the separators at its end,
    the root apart. *)
Definition path_leaf (path : string) : string :=
  let s := list_ascii_of_string path in
  if forallb (Ascii.eqb "/") s then path
  else string_of_list_ascii (rstrip_slashes s).

(** A regular file stands at [path]. *)
Definition is_file (fs : gmap string file) (path : string) : bool :=
  match fs !! path with Some _ => true | None => false end.

(** The error of [os.makedirs(path, exist_ok=True)], if there is one:
    [mkdir] refuses the empty path ([FileNotFoundError]), a path that leads
    through a regular file ([NotADirectoryError]) and a path that names a
    regular file ([FileExistsError]); beyond that, the operating system
    decides. *)
Definition makedirs_error (E : env) (fs : gmap string file) (path : string) : option exn :=
  if String.eqb path "" then Some (FileNotFoundError path)
  else if existsb (is_file fs) (path_parents (path_leaf path))
       then Some (NotADirectoryError path)
  else if is_file fs (path_leaf path) then Some (FileExistsError path)
  else mkdir_error E path.

(** The directories that are there once [os.makedirs(path)] has returned:
    the one it names and everything above it. *)
Definition made_dirs (path : string) : gset string :=
  {[path]} ∪ list_to_set (path_parents path).

(** [os.makedirs(path, exist_ok=True)]: the directory and the missing
    ones above it are created; nothing is done for those that are there. *)
Definition os_makedirs (E : env) (path : string) : M unit :=
  log_event (EvMakedirs path) ;;
  fun w =>
    match makedirs_error E (files w) path with
    | Some e => (Raise e, w)
    | None => (Ret tt, set_dirs (fun d => made_dirs path ∪ d) w)
    end.

(** [os.path.join(a, b)] (posixpath) *)
Definition os_path_join (a b : string) : string :=
  if Py.startswith b "/" then b
  else if String.eqb a "" || Py.endswith a "/" then a +:+ b
  else a +:+ "/" +:+ b.

(** [s.rfind(c)] *)
Fixpoint rfind_char (c : ascii) (s : list ascii) : option nat :=
  match s with
  | [] => None
  | x :: s' =>
      match rfind_char c s' with
      | Some i => Some (S i)
      | None => if Ascii.eqb x c then Some 0 else None
      end
  end.

(** [Path(p).name]: the last component of the path. *)
Definition path_name (p : string) : string :=
  string_of_list_ascii (List.last (Py.split_chars "/" (list_ascii_of_string p)) []).

(** [Path(p).stem]: the name without its last suffix; a dot at either end
    of the name does not start a suffix. *)
Definition path_stem (p : string) : string :=
  let name := list_ascii_of_string (path_name p) in
  match rfind_char "." name with
  | Some i =>
      if (0 <? i) && (i <? length name - 1)
      then string_of_list_ascii (take i name)
      else string_of_list_ascii name
  | None => string_of_list_ascii name
  end.

(** [os.path.dirname(p)] (posixpath): the directory in which [p] is an
    entry; the empty string stands for the working directory. *)
Definition os_path_dirname (p : string) : string :=
  let s := list_ascii_of_string p in
  match rfind_char "/" s with
  | None => ""
  | Some i =>
      let head := take (i + 1) s in
      if forallb (Ascii.eqb "/") head then string_of_list_ascii head
      else string_of_list_ascii (rstrip_slashes head)
  end.

(* ===================================================================== *)
(** * The raw extractor                                                   *)
(* ===================================================================== *)

(** The loop over [reader.pages]: the tokens of every line of every page
    that has text, one row per line. *)
Fixpoint read_pages (pages : list page) (all_rows : list (list string)) : M (list (list string)) :=
  match pages with
  | [] => ret all_rows
  | p :: rest =>
      text <- extract_text p ;;
      if Py.truthy text
      then read_pages rest (all_rows ++ map Py.split_ws (Py.splitlines text))
      else read_pages rest all_rows
  end.

(** [pd.DataFrame(data, columns=cols)] on a list of rows: a row shorter
    than the header is completed with missing values. *)
Definition frame_of_rows (data : list (list string)) (cols : list string) : list (list (option string)) :=
  map (fun r => map Some r ++ replicate (length cols - length r) None) data.

(** [df.fillna(value)] on such a table. *)
Definition fillna_cells (value : string) (cells : list (list (option string))) : list (list string) :=
  map (map (default value)) cells.

Definition extract_raw_data (pdf_path : string) : M loc :=
  r <- try_except
         (reader <- PdfReader pdf_path ;;
          all_rows <- read_pages reader [] ;;
          ret (Some all_rows))
         (fun e =>
            print ("Error reading PDF " +:+ pdf_path +:+ ": " +:+ exn_str e) ;;
            ret None) ;;
  match r with
  | None => pd_DataFrame
  | Some [] => pd_DataFrame
  | Some all_rows =>
      let max_cols := max_list (map length all_rows) in
      let raw_columns :=
        map (fun i => "Col" +:+ Py.str_of_nat (i + 1)) (seq 0 max_cols) in
      alloc (mkDataFrame raw_columns
               (fillna_cells "" (frame_of_rows all_rows raw_columns)))
  end.

(* ===================================================================== *)
(** * The workbook writer                                                 *)
(* ===================================================================== *)

(** [df[name]]: the values of the column with that label. *)
Definition df_column (df : DataFrame) (name : string) : Series :=
  match list_find (fun c => c = name) (columns df) with
  | Some (j, _) => map (fun r => nth j r "") (rows df)
  | None => []
  end.

(** [df.iloc[:, j]]: the values of the column at a position. *)
Definition df_column_at_pos (df : DataFrame) (j : nat) : Series :=
  map (fun r => nth j r "") (rows df).

(** [df.to_excel(writer, sheet_name=..., index=False)]: pandas writes the
    labels in the first row with its header style, then the values below
    them, one column after the other, without a format. *)
Definition to_excel (sheet_name : string) (df : DataFrame) : worksheet :=
  mkWorksheet sheet_name
    (imap (fun j name => XlHeader 0 j name) (columns df)
     ++ concat (imap (fun j _ =>
                        imap (fun i v => XlWrite (i + 1) j v false)
                             (df_column_at_pos df j))
                     (columns df))).

(** [max(series.map(len).max(), len(str(col))) + 2]: the maximum over an
    empty column is NaN, and so is everything computed from it ([None]).
    What xlsxwriter makes of such a width depends on its version; it is
    part of [xlsx_save_error]. *)
Definition column_width (series : Series) (col : string) : option nat :=
  match series with
  | [] => None
  | _ => Some (Nat.max (max_list (map String.length series)) (String.length col) + 2)
  end.

(** One sheet of core.py 208-233: the node reference in A1/B1, the header
    in row 3, the values below, then the column widths. *)
Definition node_sheet (sheet_name : string) (df : DataFrame) (node_reference_value : string) : worksheet :=
  mkWorksheet sheet_name
    ([XlWrite 0 0 "Node Reference" true;
      XlWrite 0 1 node_reference_value false]
     ++ concat (imap (fun col_num col_name =>
                        XlWrite 2 col_num col_name true ::
                        imap (fun row_num value => XlWrite (row_num + 3) col_num value false)
                             (df_column df col_name))
                     (columns df))
     ++ imap (fun i col => XlSetColumn i i (column_width (astype_str (df_column df col)) col))
             (columns df)
     ++ [XlSetColumn 0 0
           (Some (Nat.max (String.length "Node Reference")
                          (String.length node_reference_value) + 2));
         XlSetColumn 1 1 (Some (String.length node_reference_value + 2))]).

Definition workbook_of (df_raw df_location pipe_data_in_final pipe_data_out_final : DataFrame)
    (node_reference_value : string) : Workbook :=
  [to_excel "Raw Data" df_raw;
   node_sheet "Location Details" df_location node_reference_value;
   node_sheet "Incoming Pipes" pipe_data_in_final node_reference_value;
   node_sheet "Outgoing Pipes" pipe_data_out_final node_reference_value].

(** The directory [d] is there: the working directory (the empty string),
    the root, or one of [ds]. *)
Definition is_dir (ds : gset string) (d : string) : bool :=
  forallb (Ascii.eqb "/") (list_ascii_of_string d) || bool_decide (d ∈ ds).

(** Opening [path] for writing, as [pd.ExcelWriter] does on entry: the
    error the world makes of it, if there is one.  The path must not be
    empty ([FileNotFoundError]) or lead through a regular file
    ([NotADirectoryError]); it must name an entry of a directory that is
    there ([FileNotFoundError]), and not a directory
    ([IsADirectoryError]). *)
Definition open_wb_error (fs : gmap string file) (ds : gset string) (path : string) : option exn :=
  if String.eqb path "" then Some (FileNotFoundError path)
  else if existsb (is_file fs) (path_parents (path_leaf path))
       then Some (NotADirectoryError path)
  else if negb (is_dir ds (os_path_dirname (path_leaf path)))
       then Some (FileNotFoundError path)
  else if Py.endswith path "/" || bool_decide (path ∈ ds)
       then Some (IsADirectoryError path)
  else None.

(** What a run of the writer puts at a path: a file, or nothing new. *)
Definition save_to (output_excel : string) (saved : option file) (fs : gmap string file) : gmap string file :=
  match saved with
  | Some f => <[output_excel := f]> fs
  | None => fs
  end.

(** The [with pd.ExcelWriter(path, engine="xlsxwriter")] block as a whole:
    the file is opened on entry, which fails without touching anything
    when the world does not let the path be opened; the sheets are then
    built in memory and written when the block is left.  When that goes
    through, the workbook stands at [path], replacing what was there; when
    pandas, xlsxwriter or the operating system raise on the way, the
    exception leaves the block and the path holds what they left there. *)
Definition xlsx_save (E : env) (path : string) (wb : Workbook) : M unit :=
  log_event (EvSaveXlsx path) ;;
  fun w =>
    match open_wb_error (files w) (dirs w) path with
    | Some e => (Raise e, w)
    | None =>
        match xlsx_save_error E path wb with
        | Some e => (Raise e, set_files (save_to path (xlsx_save_leaves E path wb)) w)
        | None => (Ret tt, set_files (fun fs => <[path := FileXlsx wb]> fs) w)
        end
    end.

(* ===================================================================== *)
(** * The per-file pipeline and the batch runner                          *)
(* ===================================================================== *)

Definition process_pdf (E : env) (pdf_path output_excel : string) : M unit :=
  df_raw <- extract_raw_data pdf_path ;;
  e <- df_empty df_raw ;;
  if e then
    print ("Skipping " +:+ pdf_path +:+ ": No raw data extracted.")
  else
    pipe_data_in_final <- extract_incoming_pipes df_raw ;;
    pipe_data_out_final <- extract_outgoing_pipes df_raw ;;
    df_location <- extract_location_data df_raw ;;
    sh <- df_shape df_raw ;;
    node0 <- (if (8 <? fst sh) && (2 <? snd sh)
              then df_iloc_cell df_raw 8 2 else ret "") ;;
    node_reference_value <-
      (if negb (Py.truthy node0) then
         reader <- PdfReader pdf_path ;;
         page0 <- pages_getitem reader 0 ;;
         text_content <- extract_text page0 ;;
         load_global "re" ;;
         match re_search_node_reference text_content with
         | Some g => ret g
         | None => ret "UNKNOWN_NODE"
         end
       else ret node0) ;;
    raw <- load df_raw ;;
    loc_tbl <- load df_location ;;
    in_tbl <- load pipe_data_in_final ;;
    out_tbl <- load pipe_data_out_final ;;
    xlsx_save E output_excel
      (workbook_of raw loc_tbl in_tbl out_tbl node_reference_value).

(** The body of the inner loop of [run_processing_batch] for one name in
    [files]. *)
Definition batch_file (E : env) (output_folder root file : string)
    (failed_pdfs : list string) : M (list string) :=
  if Py.endswith (Py.lower file) ".pdf" then
    let pdf_path := os_path_join root file in
    let excel_filename := path_stem file +:+ ".xlsx" in
    let output_excel_path := os_path_join output_folder excel_filename in
    print ("Processing " +:+ pdf_path +:+ " -> " +:+ output_excel_path) ;;
    try_except
      (process_pdf E pdf_path output_excel_path ;; ret failed_pdfs)
      (fun e =>
         print ("Error processing " +:+ pdf_path +:+ ": " +:+ exn_str e) ;;
         ret (failed_pdfs ++ [pdf_path]))
  else ret failed_pdfs.

Fixpoint batch_files (E : env) (output_folder root : string) (files : list string)
    (failed_pdfs : list string) : M (list string) :=
  match files with
  | [] => ret failed_pdfs
  | file :: rest =>
      failed_pdfs' <- batch_file E output_folder root file failed_pdfs ;;
      batch_files E output_folder root rest failed_pdfs'
  end.

Fixpoint batch_walk (E : env) (output_folder : string)
    (walk : list (string * list string * list string))
    (failed_pdfs : list string) : M (list string) :=
  match walk with
  | [] => ret failed_pdfs
  | (root, _, files) :: rest =>
      failed_pdfs' <- batch_files E output_folder root files failed_pdfs ;;
      batch_walk E output_folder rest failed_pdfs'
  end.

Definition run_processing_batch (E : env) (input_folder output_folder : string) : M (list string) :=
  os_makedirs E output_folder ;;
  batch_walk E output_folder (os_walk E input_folder) [].

(* ===================================================================== *)
(** * Reference definitions                                               *)
(* ===================================================================== *)

(** The definitions below are not part of the program: they say, as plain
    functions of a table value, what the statements about the program are
    compared with. *)

(** The cell in column [j] of a row. *)
Definition cell_of (r : list string) (j : nat) : string := nth j r "".

(** One cell of the "PIPE SIZE (mm)" column, from the three cells it is
    built from. *)
Definition pipe_size_field (a b c : string) : string :=
  Py.strip ((((Py.strip a +:+ " ") +:+ Py.strip b) +:+ " ") +:+ Py.strip c).

(** The wording of the specification for that cell: the components that
    are not empty after trimming, separated by single spaces. *)
Definition nonempty_components (a b c : string) : list string :=
  List.filter Py.truthy [Py.strip a; Py.strip b; Py.strip c].

Definition spec_pipe_size (a b c : string) : string :=
  Py.join " " (nonempty_components a b c).

Definition incoming_row (r : list string) : list string :=
  [cell_of r 0; cell_of r 1; cell_of r 2;
   pipe_size_field (cell_of r 3) (cell_of r 4) (cell_of r 5);
   cell_of r 6; cell_of r 7; cell_of r 8; cell_of r 9; cell_of r 10].

Definition outgoing_row (r : list string) : list string :=
  [cell_of r 0; cell_of r 1; cell_of r 2;
   pipe_size_field (cell_of r 3) (cell_of r 4) (cell_of r 5);
   cell_of r 6; cell_of r 7; cell_of r 8; cell_of r 9; cell_of r 10;
   cell_of r 11].

(** The grid is too small for the incoming (outgoing) block. *)
Definition incoming_undersized (df : DataFrame) : bool :=
  is_empty df || (length (rows df) <? 70) || (length (columns df) <? 11).

Definition outgoing_undersized (df : DataFrame) : bool :=
  is_empty df || (length (rows df) <? 85) || (length (columns df) <? 12).

Definition incoming_table (df : DataFrame) : DataFrame :=
  if incoming_undersized df then mkDataFrame incoming_columns []
  else mkDataFrame incoming_columns
         (map incoming_row (map (slice 0 11) (slice 63 70 (rows df)))).

Definition outgoing_table (df : DataFrame) : DataFrame :=
  if outgoing_undersized df then mkDataFrame outgoing_columns []
  else mkDataFrame outgoing_columns
         (map outgoing_row (map (slice 0 12) (slice 83 85 (rows df)))).

(** The value [get_val] reads at a position, and the text
    [join_row_range] reads from a position on. *)
Definition val_at (df : DataFrame) (row col : nat) : string :=
  if (row <? length (rows df)) && (col <? length (columns df))
  then Py.strip (cell_of (nth row (rows df) []) col)
  else "".

Definition range_at (df : DataFrame) (row start_col : nat) (end_col : option nat) : string :=
  if length (rows df) <=? row then ""
  else
    let r := nth row (rows df) [] in
    Py.join " "
      (map Py.strip
         (List.filter (fun x => Py.truthy (Py.strip x))
            (match end_col with
             | Some e => slice start_col e r
             | None => slice_from start_col r
             end))).

Definition location_values (df : DataFrame) : list string :=
  [val_at df 8 2;
   fst (coordinates (val_at df 9 2)); snd (coordinates (val_at df 9 2));
   range_at df 10 1 None; val_at df 12 1; range_at df 13 2 None;
   val_at df 15 2; val_at df 15 4; val_at df 15 6; val_at df 16 1;
   val_at df 19 2; val_at df 19 4; val_at df 19 6; val_at df 19 8;
   range_at df 19 9 None;
   val_at df 26 1; val_at df 27 1; val_at df 28 1; range_at df 28 2 (Some 5);
   val_at df 30 2; val_at df 32 0; val_at df 34 1; val_at df 34 3;
   range_at df 34 4 (Some 7);
   val_at df 38 2; val_at df 39 2; val_at df 44 0; val_at df 47 2;
   Py.strip (val_at df 95 0 +:+ " " +:+ range_at df 96 0 None)].

Definition location_table (df : DataFrame) : DataFrame :=
  mkDataFrame location_columns
    (zip_with (fun k v => [k; v]) location_components (location_values df)).

(** The grid positions (row, first column) each of the 29 values is read
    from, in the order of [location_components] (core.py 112-148). *)
Definition location_sources : list (list (nat * nat)) :=
  [[(8, 2)]; [(9, 2)]; [(9, 2)]; [(10, 1)]; [(12, 1)]; [(13, 2)];
   [(15, 2)]; [(15, 4)]; [(15, 6)]; [(16, 1)];
   [(19, 2)]; [(19, 4)]; [(19, 6)]; [(19, 8)]; [(19, 9)];
   [(26, 1)]; [(27, 1)]; [(28, 1)]; [(28, 2)];
   [(30, 2)]; [(32, 0)]; [(34, 1)]; [(34, 3)]; [(34, 4)];
   [(38, 2)]; [(39, 2)]; [(44, 0)]; [(47, 2)]; [(95, 0); (96, 0)]].

(** A position that lies outside the grid. *)
Definition out_of_bounds (df : DataFrame) (pos : nat * nat) : Prop :=
  length (rows df) <= fst pos \/ length (columns df) <= snd pos.

(** The wording of the specification for the coordinate pair: the text is
    cut at its first comma and both halves are trimmed. *)
Definition before_comma (s : list ascii) : list ascii :=
  take_while (fun c => negb (Ascii.eqb c ",")) s.

Definition after_comma (s : list ascii) : list ascii :=
  drop (S (length (before_comma s))) s.

Definition split_first_comma (text : string) : string * string :=
  if Py.contains_char "," text then
    (Py.strip (string_of_list_ascii (before_comma (list_ascii_of_string text))),
     Py.strip (string_of_list_ascii (after_comma (list_ascii_of_string text))))
  else ("", "").

(** What the program computes instead: the second value stops at the
    second comma. *)
Definition first_two_fields (text : string) : string * string :=
  if Py.contains_char "," text then
    (Py.strip (string_of_list_ascii (before_comma (list_ascii_of_string text))),
     Py.strip (string_of_list_ascii
                 (before_comma (after_comma (list_ascii_of_string text)))))
  else ("", "").

(** What opening the file at [path] gives, from what is stored there. *)
Definition open_pdf (path : string) (f : option file) : result (list page) :=
  match f with
  | Some (FilePdf pages) => Ret pages
  | Some (FileCorrupt e) => Raise e
  | Some (FileXlsx _) => Raise (PdfReadError "EOF marker not found")
  | None => Raise (FileNotFoundError path)
  end.

(** The token rows of a list of pages, or the first extraction error. *)
Fixpoint page_rows (pages : list page) (all_rows : list (list string)) : result (list (list string)) :=
  match pages with
  | [] => Ret all_rows
  | PageFails e :: _ => Raise e
  | PageText text :: rest =>
      if Py.truthy text
      then page_rows rest (all_rows ++ map Py.split_ws (Py.splitlines text))
      else page_rows rest all_rows
  end.

Definition raw_rows (path : string) (f : option file) : result (list (list string)) :=
  match open_pdf path f with
  | Ret pages => page_rows pages []
  | Raise e => Raise e
  end.

(** The Raw Grid of the file at [path]. *)
Definition raw_table (path : string) (f : option file) : DataFrame :=
  match raw_rows path f with
  | Ret (r :: rs) =>
      let cols := map (fun i => "Col" +:+ Py.str_of_nat (i + 1))
                      (seq 0 (max_list (map length (r :: rs)))) in
      mkDataFrame cols (fillna_cells "" (frame_of_rows (r :: rs) cols))
  | _ => mkDataFrame [] []
  end.

Definition raw_messages (path : string) (f : option file) : list string :=
  match raw_rows path f with
  | Raise e => ["Error reading PDF " +:+ path +:+ ": " +:+ exn_str e]
  | Ret _ => []
  end.

(** The cell the node reference is read from (core.py 186). *)
Definition node_reference_cell (raw : DataFrame) : string :=
  if (8 <? length (rows raw)) && (2 <? length (columns raw))
  then cell_of (nth 8 (rows raw) []) 2 else "".

(** The exception that ends the look-up over the first page's text. *)
Definition fallback_error (path : string) (f : option file) : exn :=
  match open_pdf path f with
  | Raise e => e
  | Ret pages =>
      match pages !! 0 with
      | None => IndexError
      | Some (PageFails e) => e
      | Some (PageText _) => NameError "re"
      end
  end.

(** What [process_pdf] returns for the file [f] found at [path], and what
    it puts at [output_excel], if anything, [opening] being the error of
    opening that path for writing. *)
Definition pdf_outcome (E : env) (path : string) (f : option file) (opening : option exn)
    (output_excel : string) : result unit * option file :=
  let raw := raw_table path f in
  if is_empty raw then (Ret tt, None)
  else
    let node := node_reference_cell raw in
    if negb (Py.truthy node) then (Raise (fallback_error path f), None)
    else
      let wb := workbook_of raw (location_table raw) (incoming_table raw)
                  (outgoing_table raw) node in
      match opening with
      | Some e => (Raise e, None)
      | None =>
          match xlsx_save_error E output_excel wb with
          | Some e => (Raise e, xlsx_save_leaves E output_excel wb)
          | None => (Ret tt, Some (FileXlsx wb))
          end
      end.

(** Events of the per-file pipeline, as opposed to the creation of the
    output directory. *)
Definition is_file_event (ev : event) : Prop :=
  match ev with
  | EvMakedirs _ => False
  | EvOpenPdf _ | EvSaveXlsx _ => True
  end.

(** ** The batch, file by file *)

(** The (root, file) pairs in the order the two loops of
    [run_processing_batch] visit them. *)
Definition walk_files (walk : list (string * list string * list string)) : list (string * string) :=
  flat_map (fun t => map (pair (fst (fst t))) (snd t)) walk.

Definition is_pdf_name (file : string) : bool :=
  Py.endswith (Py.lower file) ".pdf".

Definition pdf_path_of (root file : string) : string := os_path_join root file.

Definition xlsx_path_of (output_folder file : string) : string :=
  os_path_join output_folder (path_stem file +:+ ".xlsx").

(** The wording of the specification for the batch: the files are taken in
    turn; one whose pipeline returns leaves the failure list as it is, one
    whose pipeline raises is logged and recorded, and in both cases the
    batch goes on with the next file.  [runs_batch E out jobs w failed
    failed' w'] relates the world and failure list before the files
    [jobs] to those after them. *)
Inductive runs_batch (E : env) (output_folder : string) :
    list (string * string) -> world -> list string -> list string -> world -> Prop :=
  | runs_nil w failed :
      runs_batch E output_folder [] w failed failed w
  | runs_other root file rest w failed failed' w' :
      is_pdf_name file = false ->
      runs_batch E output_folder rest w failed failed' w' ->
      runs_batch E output_folder ((root, file) :: rest) w failed failed' w'
  | runs_returned root file rest w w1 failed failed' w' :
      is_pdf_name file = true ->
      process_pdf E (pdf_path_of root file) (xlsx_path_of output_folder file)
        (set_stdout (fun o => o ++ ["Processing " +:+ pdf_path_of root file +:+ " -> "
                                    +:+ xlsx_path_of output_folder file]) w)
      = (Ret tt, w1) ->
      runs_batch E output_folder rest w1 failed failed' w' ->
      runs_batch E output_folder ((root, file) :: rest) w failed failed' w'
  | runs_raised root file rest w e w1 failed failed' w' :
      is_pdf_name file = true ->
      process_pdf E (pdf_path_of root file) (xlsx_path_of output_folder file)
        (set_stdout (fun o => o ++ ["Processing " +:+ pdf_path_of root file +:+ " -> "
                                    +:+ xlsx_path_of output_folder file]) w)
      = (Raise e, w1) ->
      runs_batch E output_folder rest
        (set_stdout (fun o => o ++ ["Error processing " +:+ pdf_path_of root file
                                    +:+ ": " +:+ exn_str e]) w1)
        (failed ++ [pdf_path_of root file]) failed' w' ->
      runs_batch E output_folder ((root, file) :: rest) w failed failed' w'.

(** The failure list and the file system after the files [jobs], as a
    function of the file system before them, the directories being [ds]. *)
Fixpoint batch_outcome (E : env) (ds : gset string) (output_folder : string)
    (jobs : list (string * string))
    (fs : gmap string file) (failed : list string) : list string * gmap string file :=
  match jobs with
  | [] => (failed, fs)
  | (root, file) :: rest =>
      if is_pdf_name file then
        let p := pdf_path_of root file in
        let o := xlsx_path_of output_folder file in
        let oc := pdf_outcome E p (fs !! p) (open_wb_error fs ds o) o in
        batch_outcome E ds output_folder rest (save_to o (snd oc) fs)
          (match fst oc with
           | Ret _ => failed
           | Raise _ => failed ++ [p]
           end)
      else batch_outcome E ds output_folder rest fs failed
  end.

(** The last character of a path. *)
Definition last_char (s : string) : option ascii :=
  last (list_ascii_of_string s).

(** A set of files that are all workbooks written by a batch into
    [output_folder]. *)
Definition xlsx_named (output_folder : string) (S : gmap string file) : Prop :=
  forall k, is_Some (S !! k) -> exists file, k = xlsx_path_of output_folder file.

(** The raw extractor finds nothing to process in the file at [path]. *)
Definition yields_empty_grid (path : string) (w : world) : Prop :=
  exists l w1 d,
    extract_raw_data path w = (Ret l, w1) /\ frames w1 !! l = Some d /\
    is_empty d = true.

(** ** Trimmed strings *)

(** A list of characters that does not begin with white space. *)
Definition no_lead (l : list ascii) : Prop :=
  match l with
  | [] => True
  | c :: _ => Py.is_space c = false
  end.

(** Trimmed: white space at neither end. *)
Definition trimmed (l : list ascii) : Prop := no_lead l /\ no_lead (rev l).

(** What is known of the "PIPE SIZE (mm)" cell [v] built from the cells
    [a], [b], [c]. *)
Definition pipe_size_cell (a b c v : string) : Prop :=
  v = pipe_size_field a b c /\
  Py.strip v = v /\
  (~ (Py.strip a <> "" /\ Py.strip b = "" /\ Py.strip c <> "") ->
   v = spec_pipe_size a b c).

(** ** Stores and sample inputs *)

(** The store has only grown: what was there is unchanged, and [l'] is one
    of the new objects. *)
Definition only_allocates (w w' : world) (l' : loc) : Prop :=
  (exists new, frames w' = frames w ++ new) /\
  length (frames w) <= l' < length (frames w') /\
  files w' = files w /\ dirs w' = dirs w /\ trace w' = trace w.

(** A sample grid of [n] rows and [m] columns, every cell holding [v]. *)
Definition sample_grid (n m : nat) (v : string) : DataFrame :=
  mkDataFrame (map (fun i => "Col" +:+ Py.str_of_nat (i + 1)) (seq 0 m))
              (replicate n (replicate m v)).

Definition sample_world (d : DataFrame) : world := mkWorld [d] ∅ ∅ [] [].

(** The empty grid, a grid too small for every block, and a grid large
    enough for all of them. *)
Definition empty_grid : DataFrame := mkDataFrame [] [].
Definition small_grid : DataFrame := sample_grid 2 3 "a".
Definition full_grid : DataFrame := sample_grid 97 12 " a ".

(** A grid of 70 rows and 11 columns whose row 64 has the size components
    "300", "" and "450". *)
Definition gap_grid : DataFrame :=
  mkDataFrame (columns (sample_grid 70 11 "a"))
    (replicate 63 (replicate 11 "a")
     ++ [["1"; "MH2"; "C"; "300"; ""; "450"; ""; "VC"; ""; "1.2"; "10.5"]]
     ++ replicate 6 (replicate 11 "a")).

(** A grid of 10 rows and 3 columns whose coordinate cell has two
    commas. *)
Definition comma_grid : DataFrame :=
  mkDataFrame (columns (sample_grid 10 3 "a"))
    (replicate 9 (replicate 3 "a") ++ [["a"; "a"; "1,2,3"]]).

(** An input folder with one PDF in it, a page of text that names the
    node, and an operating system and a writer that refuse nothing of
    their own. *)
Definition sample_env : env :=
  mkEnv (fun _ => [("in", [], ["a.pdf"])]) (fun _ => None) (fun _ _ => None)
    (fun _ _ => None).

Definition sample_pdf : file :=
  FilePdf [PageText "MANHOLE SURVEY NODE REFERENCE MH1234"].

Definition pdf_world : world :=
  mkWorld [] {["in/a.pdf" := sample_pdf]} ∅ [] [].

(** The same, with a PDF that has no text. *)
Definition blank_world : world :=
  mkWorld [] {["in/a.pdf" := FilePdf [PageText ""]]} ∅ [] [].


(** ** Tokens and padding *)

(** A cell that holds a token: not empty, and unchanged by trimming. *)
Definition solid (s : string) : Prop := s <> "" /\ Py.strip s = s.

(** A row as the raw extractor builds it: tokens, then empty strings. *)
Definition padded_tokens (r : list string) : Prop :=
  exists toks n, r = toks ++ replicate n "" /\ Forall solid toks.

(* ===================================================================== *)
(** * The example script and further reference definitions               *)
(* ===================================================================== *)

(** The line feed, as it stands at the head of two messages of
    example.py. *)
Definition LF : string := String (ascii_of_nat 10) "".

(** example.py, lines 4-5: the two folders, spaces included. *)
Definition input_pdfs_folder : string := "  path_to_your_pdf_folder".
Definition output_excel_folder : string := "  path_to_excel_folder   ".

(** The loop [for f in failed_files: print(f"- {f}")]. *)
Fixpoint print_failed (failed_files : list string) : M unit :=
  match failed_files with
  | [] => ret tt
  | f :: rest => print ("- " +:+ f) ;; print_failed rest
  end.

(** example.py, lines 7-22, for any two folders. *)
Definition example_script (E : env) (input_folder output_folder : string) : M unit :=
  print ("Starting PDF processing from '" +:+ input_folder +:+ "' to '"
         +:+ output_folder +:+ "'") ;;
  os_makedirs E output_folder ;;
  failed_files <- run_processing_batch E input_folder output_folder ;;
  (match failed_files with
   | [] => print (LF +:+ "All PDFs in the input folder processed successfully!")
   | _ =>
       print (LF +:+ "--- Processing Summary ---") ;;
       print ("Number of PDFs that failed to process: "
              +:+ Py.str_of_nat (length failed_files)) ;;
       print "Failed files:" ;;
       print_failed failed_files
   end) ;;
  print "Processing complete.".

(** example.py as it stands. *)
Definition example_main (E : env) : M unit :=
  example_script E input_pdfs_folder output_excel_folder.

(** The token rows of the pages' texts: one row per line, page after
    page. *)
Definition text_rows (texts : list string) : list (list string) :=
  flat_map (fun text => map Py.split_ws (Py.splitlines text)) texts.

(** The labels [Col1], ..., [Coln]. *)
Definition col_labels (n : nat) : list string :=
  map (fun i => "Col" +:+ Py.str_of_nat (i + 1)) (seq 0 n).

(** Which cell of a source row each cell of a pipe-table row is a copy
    of, as (column of the table, column of the grid) (core.py 47-62 and
    77-93). *)
Definition incoming_copies : list (nat * nat) :=
  [(0, 0); (1, 1); (2, 2); (4, 6); (5, 7); (6, 8); (7, 9); (8, 10)].

Definition outgoing_copies : list (nat * nat) :=
  [(0, 0); (1, 1); (2, 2); (4, 6); (5, 7); (6, 8); (7, 9); (8, 10); (9, 11)].

(** The paths of the PDFs of a listing, in the order the batch takes
    them. *)
Definition listed_pdfs (walk : list (string * list string * list string)) : list string :=
  map (fun rf => pdf_path_of (fst rf) (snd rf))
      (List.filter (fun rf => is_pdf_name (snd rf)) (walk_files walk)).

(** The characters of a file name hold no path separator. *)
Definition plain_name (file : string) : Prop :=
  Forall (fun c => Ascii.eqb c "/" = false) (list_ascii_of_string file).

(** A text of [n] lines of three tokens each. *)
Fixpoint three_token_lines (n : nat) : string :=
  match n with
  | 0 => ""
  | S k => "MH1 512345,181234 ROAD" +:+ LF +:+ three_token_lines k
  end.

(** A folder with one PDF of nine lines, which has a node reference at
    its position. *)
Definition survey_world : world :=
  mkWorld [] {["in/a.pdf" := FilePdf [PageText (three_token_lines 9)]]} ∅ [] [].



(** A text of [n] lines of twelve tokens each. *)
Fixpoint twelve_token_lines (n : nat) : string :=
  match n with
  | 0 => ""
  | S k => "1 MH2 C 300 x 450 225 VC NONE 1.2 10.5 B" +:+ LF +:+ twelve_token_lines k
  end.

(** A PDF of one page of 97 such lines, in a folder "in" beside an output
    folder "out" that is there; and its raw grid, of 97 rows and 12
    columns. *)
Definition sheet_pdf : file := FilePdf [PageText (twelve_token_lines 97)].

Definition sheet_world : world :=
  mkWorld [] {["in/a.pdf" := sheet_pdf]} {["in"; "out"]} [] [].

Definition sheet_grid : DataFrame := raw_table "in/a.pdf" (Some sheet_pdf).

(* ===================================================================== *)
(** * Facts about Python strings                                          *)
(* ===================================================================== *)

Section StringFacts.

Implicit Types (s t : string) (l k : list ascii) (c : ascii).

Lemma chars_app s t :
  list_ascii_of_string (s +:+ t) = list_ascii_of_string s ++ list_ascii_of_string t.
Proof. induction s as [|c s IH]; simpl; [done | by rewrite IH]. Qed.

Lemma of_chars_app l k :
  string_of_list_ascii (l ++ k) = string_of_list_ascii l +:+ string_of_list_ascii k.
Proof. induction l as [|c l IH]; simpl; [done | by rewrite IH]. Qed.

Lemma of_chars_inj l k :
  string_of_list_ascii l = string_of_list_ascii k -> l = k.
Proof.
  intros H. rewrite <- (list_ascii_of_string_of_list_ascii l),
    <- (list_ascii_of_string_of_list_ascii k). by rewrite H.
Qed.

Lemma of_chars_nil l : string_of_list_ascii l = "" <-> l = [].
Proof. destruct l; simpl; split; congruence. Qed.

Lemma truthy_of_chars l :
  Py.truthy (string_of_list_ascii l) = match l with [] => false | _ => true end.
Proof. by destruct l. Qed.

Lemma lstrip_no_lead l : no_lead (Py.lstrip_chars l).
Proof.
  induction l as [|c l IH]; simpl; [done|].
  destruct (Py.is_space c) eqn:Hc; [done | by simpl].
Qed.

Lemma lstrip_id l : no_lead l -> Py.lstrip_chars l = l.
Proof. destruct l as [|c l]; simpl; [done|]. by intros ->. Qed.

Lemma lstrip_spaces l k :
  Forall (fun c => Py.is_space c = true) l ->
  Py.lstrip_chars (l ++ k) = Py.lstrip_chars k.
Proof. induction 1 as [|c l Hc _ IH]; simpl; [done | by rewrite Hc]. Qed.

Lemma lstrip_suffix l : exists ws, l = ws ++ Py.lstrip_chars l /\
  Forall (fun c => Py.is_space c = true) ws.
Proof.
  induction l as [|c l (ws & IH & Hws)]; simpl.
  - by exists [].
  - destruct (Py.is_space c) eqn:Hc.
    + exists (c :: ws). split; [simpl; by f_equal | by constructor].
    + by exists [].
Qed.

Lemma no_lead_app l k : l <> [] -> no_lead l -> no_lead (l ++ k).
Proof. by destruct l. Qed.

Lemma no_lead_rev_app l k : k <> [] -> no_lead (rev k) -> no_lead (rev (l ++ k)).
Proof.
  intros Hk H. rewrite rev_app_distr. apply no_lead_app; [|done].
  intros Hr. apply Hk. by rewrite <- (rev_involutive k), Hr.
Qed.

Lemma rstrip_id l : no_lead (rev l) -> Py.rstrip_chars l = l.
Proof. intros H. unfold Py.rstrip_chars. by rewrite lstrip_id, rev_involutive. Qed.

Lemma rstrip_spaces l k :
  Forall (fun c => Py.is_space c = true) k ->
  Py.rstrip_chars (l ++ k) = Py.rstrip_chars l.
Proof.
  intros H. unfold Py.rstrip_chars. rewrite rev_app_distr, lstrip_spaces; [done|].
  by apply Forall_rev.
Qed.

Lemma strip_chars_id l : trimmed l -> Py.strip_chars l = l.
Proof. intros [H1 H2]. unfold Py.strip_chars. by rewrite lstrip_id, rstrip_id. Qed.

(** Stripping removes the white space around a trimmed core. *)
Lemma strip_chars_pad ws1 l ws2 :
  Forall (fun c => Py.is_space c = true) ws1 ->
  Forall (fun c => Py.is_space c = true) ws2 ->
  trimmed l ->
  Py.strip_chars (ws1 ++ l ++ ws2) = l.
Proof.
  intros H1 H2 [Hl Hr]. unfold Py.strip_chars. rewrite lstrip_spaces by done.
  destruct l as [|c l].
  - simpl. rewrite <- (app_nil_r ws2), lstrip_spaces by done. simpl.
    by unfold Py.rstrip_chars.
  - rewrite lstrip_id by (by apply no_lead_app).
    rewrite rstrip_spaces by done. by apply rstrip_id.
Qed.

Lemma strip_chars_trimmed l : trimmed (Py.strip_chars l).
Proof.
  unfold Py.strip_chars, Py.rstrip_chars.
  set (a := Py.lstrip_chars l).
  assert (Ha : no_lead a) by apply lstrip_no_lead.
  destruct (lstrip_suffix (rev a)) as (ws & Heq & Hws).
  set (b := Py.lstrip_chars (rev a)) in *.
  assert (Hb : no_lead b) by apply lstrip_no_lead.
  split; [|by rewrite rev_involutive].
  assert (Ha' : a = rev b ++ rev ws).
  { by rewrite <- (rev_involutive a), Heq, rev_app_distr. }
  destruct (rev b) as [|c r] eqn:Hrb; [done|].
  rewrite Ha' in Ha. by simpl in *.
Qed.

Lemma trimmed_strip s : trimmed (list_ascii_of_string (Py.strip s)).
Proof.
  unfold Py.strip. rewrite list_ascii_of_string_of_list_ascii.
  apply strip_chars_trimmed.
Qed.

Lemma strip_idemp s : Py.strip (Py.strip s) = Py.strip s.
Proof.
  unfold Py.strip at 1. rewrite strip_chars_id by apply trimmed_strip.
  apply string_of_list_ascii_of_string.
Qed.

Lemma trimmed_app l k :
  l <> [] -> k <> [] -> trimmed l -> trimmed k -> forall m, trimmed (l ++ m ++ k).
Proof.
  intros Hl Hk [Hl1 _] [_ Hk2] m. split.
  - by apply no_lead_app.
  - rewrite app_assoc. by apply no_lead_rev_app.
Qed.

End StringFacts.

Section PipeSize.

Local Abbreviation sp := (" "%char).

Lemma sp_space : Forall (fun c => Py.is_space c = true) [sp].
Proof. by repeat constructor. Qed.

Lemma sp2_space : Forall (fun c => Py.is_space c = true) [sp; sp].
Proof. by repeat constructor. Qed.

(** The cell as a function of the three trimmed components. *)
Lemma pipe_size_field_chars a b c :
  pipe_size_field a b c =
  string_of_list_ascii
    (Py.strip_chars (list_ascii_of_string (Py.strip a) ++ [sp] ++
                     list_ascii_of_string (Py.strip b) ++ [sp] ++
                     list_ascii_of_string (Py.strip c))).
Proof.
  unfold pipe_size_field. unfold Py.strip at 1. f_equal. f_equal.
  rewrite !chars_app. simpl. by rewrite <- !app_assoc.
Qed.

Lemma strip_chars_three A B C :
  trimmed A -> trimmed B -> trimmed C ->
  ~ (A <> [] /\ B = [] /\ C <> []) ->
  string_of_list_ascii (Py.strip_chars (A ++ [sp] ++ B ++ [sp] ++ C)) =
  Py.join " " (List.filter Py.truthy
                 [string_of_list_ascii A; string_of_list_ascii B;
                  string_of_list_ascii C]).
Proof.
  intros HA HB HC Hmid.
  assert (Hnil : trimmed []) by done.
  assert (Hpad : forall ws1 core ws2 l,
             l = ws1 ++ core ++ ws2 ->
             Forall (fun c => Py.is_space c = true) ws1 ->
             Forall (fun c => Py.is_space c = true) ws2 ->
             trimmed core -> Py.strip_chars l = core).
  { intros ws1 core ws2 l ->. apply strip_chars_pad. }
  destruct A as [|a A], B as [|b B], C as [|c C];
    cbn [List.filter]; rewrite ?truthy_of_chars; cbn [Py.join].
  - done.
  - f_equal. apply (Hpad [sp; sp] (c :: C) []); auto using sp2_space.
    simpl. by rewrite app_nil_r.
  - f_equal. apply (Hpad [sp] (b :: B) [sp]); auto using sp_space.
  - erewrite (Hpad [sp] ((b :: B) ++ [sp] ++ c :: C) []); auto using sp_space.
    + by rewrite of_chars_app.
    + simpl. by rewrite app_nil_r.
    + by apply trimmed_app.
  - f_equal. apply (Hpad [] (a :: A) [sp; sp]); auto using sp2_space.
  - exfalso. apply Hmid. by repeat split.
  - erewrite (Hpad [] ((a :: A) ++ [sp] ++ b :: B) [sp]); auto using sp_space.
    + by rewrite of_chars_app.
    + simpl. by rewrite <- !app_assoc.
    + by apply trimmed_app.
  - rewrite strip_chars_id.
    + by rewrite !of_chars_app.
    + replace ((a :: A) ++ [sp] ++ (b :: B) ++ [sp] ++ c :: C)
        with ((a :: A) ++ ([sp] ++ (b :: B) ++ [sp]) ++ c :: C)
        by (simpl; by rewrite <- !app_assoc).
      by apply trimmed_app.
Qed.

Lemma pipe_size_field_spec a b c :
  ~ (Py.strip a <> "" /\ Py.strip b = "" /\ Py.strip c <> "") ->
  pipe_size_field a b c = spec_pipe_size a b c.
Proof.
  intros H. rewrite pipe_size_field_chars.
  rewrite strip_chars_three; try apply trimmed_strip.
  - unfold spec_pipe_size, nonempty_components.
    by rewrite !string_of_list_ascii_of_string.
  - intros (Ha & Hb & Hc). apply H.
    rewrite <- (string_of_list_ascii_of_string (Py.strip a)),
      <- (string_of_list_ascii_of_string (Py.strip b)),
      <- (string_of_list_ascii_of_string (Py.strip c)).
    rewrite !of_chars_nil. done.
Qed.

Lemma pipe_size_field_trimmed a b c :
  Py.strip (pipe_size_field a b c) = pipe_size_field a b c.
Proof. apply strip_idemp. Qed.

End PipeSize.

Section Coordinates.

Local Abbreviation comma := (","%char).

Local Opaque Ascii.eqb.

Lemma before_comma_cons c l :
  before_comma (c :: l) =
  if Ascii.eqb c comma then [] else c :: before_comma l.
Proof. unfold before_comma. simpl. by destruct (Ascii.eqb c _). Qed.

Lemma after_comma_cons c l :
  after_comma (c :: l) = if Ascii.eqb c comma then l else after_comma l.
Proof.
  unfold after_comma. rewrite before_comma_cons.
  by destruct (Ascii.eqb c comma).
Qed.

Lemma split_chars_head l :
  exists rest, Py.split_chars comma l = before_comma l :: rest.
Proof.
  induction l as [|c l (rest & IH)].
  - by exists [].
  - rewrite before_comma_cons. simpl.
    destruct (Ascii.eqb c comma); [by eexists|].
    rewrite IH. by eexists.
Qed.

Lemma split_chars_comma l :
  existsb (Ascii.eqb comma) l = true ->
  Py.split_chars comma l = before_comma l :: Py.split_chars comma (after_comma l).
Proof.
  induction l as [|c l IH]; [done|].
  rewrite before_comma_cons, after_comma_cons. simpl.
  rewrite (Ascii.eqb_sym comma c).
  destruct (Ascii.eqb c comma) eqn:Hc; simpl; [done|].
  intros H. by rewrite (IH H).
Qed.

Lemma no_comma_before l :
  existsb (Ascii.eqb comma) l = false -> before_comma l = l.
Proof.
  induction l as [|c l IH]; [done|].
  rewrite before_comma_cons. simpl. rewrite (Ascii.eqb_sym comma c).
  destruct (Ascii.eqb c comma); simpl; [done|].
  intros H. by rewrite IH.
Qed.

(** The program's pair is the first two comma-separated fields. *)
Lemma coordinates_first_two text :
  coordinates text = first_two_fields text.
Proof.
  unfold coordinates, first_two_fields, Py.contains_char, Py.split.
 
  destruct (existsb (Ascii.eqb comma) (list_ascii_of_string text)) eqn:H; [|done].
  rewrite (split_chars_comma _ H).
  destruct (split_chars_head (after_comma (list_ascii_of_string text))) as (rest & ->).
  done.
Qed.

(** With no comma there are no coordinates. *)
Lemma coordinates_no_comma text :
  Py.contains_char "," text = false -> coordinates text = ("", "").
Proof. unfold coordinates. by intros ->. Qed.

(** With a single comma the two readings agree. *)
Lemma coordinates_one_comma text :
  existsb (Ascii.eqb comma) (after_comma (list_ascii_of_string text)) = false ->
  coordinates text = split_first_comma text.
Proof.
  intros H. rewrite coordinates_first_two.
  unfold first_two_fields, split_first_comma.
  by rewrite (no_comma_before _ H).
Qed.

End Coordinates.

(* ===================================================================== *)
(** * Running the monad                                                   *)
(* ===================================================================== *)

Lemma bind_ret_eq {A B} (m : M A) (k : A -> M B) w a w' :
  m w = (Ret a, w') -> bind m k w = k a w'.
Proof. unfold bind. by intros ->. Qed.

Lemma bind_raise_eq {A B} (m : M A) (k : A -> M B) w e w' :
  m w = (Raise e, w') -> bind m k w = (Raise e, w').
Proof. unfold bind. by intros ->. Qed.

Lemma try_ret_eq {A} (m : M A) (h : exn -> M A) w a w' :
  m w = (Ret a, w') -> try_except m h w = (Ret a, w').
Proof. unfold try_except. by intros ->. Qed.

Lemma try_raise_eq {A} (m : M A) (h : exn -> M A) w e w' :
  m w = (Raise e, w') -> try_except m h w = h e w'.
Proof. unfold try_except. by intros ->. Qed.

Lemma insert_snoc {A} (h : list A) (d d' : A) :
  <[length h := d']> (h ++ [d]) = h ++ [d'].
Proof.
  rewrite insert_app_r_alt by lia. by rewrite Nat.sub_diag.
Qed.

Lemma lookup_snoc {A} (h : list A) (d : A) : (h ++ [d]) !! length h = Some d.
Proof. by apply list_lookup_middle. Qed.

Lemma lookup_app_plus {A} (h k : list A) (i : nat) :
  (h ++ k) !! (length h + i) = k !! i.
Proof. rewrite lookup_app_r by lia. f_equal. lia. Qed.

Lemma zip_with_map_map {A B C D} (f : B -> C -> D) (g : A -> B) (h : A -> C) l :
  zip_with f (map g l) (map h l) = map (fun x => f (g x) (h x)) l.
Proof. induction l as [|x l IH]; simpl; [done | by rewrite IH]. Qed.

Lemma mapM_lookup_cells (j : nat) (rs : list (list string)) :
  Forall (fun r => j < length r) rs ->
  mapM (fun r : list string => r !! j) rs = Some (map (fun r => cell_of r j) rs).
Proof.
  intros H. apply mapM_Some. induction H as [|r rs Hr _ IH]; simpl; constructor; [|done].
  unfold cell_of. destruct (lookup_lt_is_Some_2 r j Hr) as [v Hv].
  rewrite Hv. f_equal. symmetry. apply nth_lookup_Some with (d := ""). done.
Qed.

(** Resolving a reference in a store that has grown. *)
Ltac solve_lookup :=
  repeat first
    [ eassumption
    | apply lookup_snoc
    | apply lookup_app_l_Some ].

Section Pandas.

Variables (fs : gmap string file) (ds : gset string) (out : list string)
          (tr : list event).

Local Abbreviation W h := (mkWorld h fs ds out tr).

Lemma load_spec h l d : h !! l = Some d -> load l (W h) = (Ret d, W h).
Proof. unfold load. simpl. by intros ->. Qed.

Lemma alloc_spec h d : alloc d (W h) = (Ret (length h), W (h ++ [d])).
Proof. done. Qed.

Lemma df_shape_spec h l d :
  h !! l = Some d -> df_shape l (W h) = (Ret (shape d), W h).
Proof. intros H. unfold df_shape. by rewrite (bind_ret_eq _ _ _ _ _ (load_spec _ _ _ H)). Qed.

Lemma df_empty_spec h l d :
  h !! l = Some d -> df_empty l (W h) = (Ret (is_empty d), W h).
Proof. intros H. unfold df_empty. by rewrite (bind_ret_eq _ _ _ _ _ (load_spec _ _ _ H)). Qed.

Lemma df_iloc_block_spec h l d r0 r1 c0 c1 :
  h !! l = Some d ->
  df_iloc_block l r0 r1 c0 c1 (W h) =
  (Ret (length h),
   W (h ++ [mkDataFrame (slice c0 c1 (columns d))
              (map (slice c0 c1) (slice r0 r1 (rows d)))])).
Proof.
  intros H. unfold df_iloc_block.
  by rewrite (bind_ret_eq _ _ _ _ _ (load_spec _ _ _ H)).
Qed.

Lemma df_reset_index_drop_spec h l d :
  h !! l = Some d ->
  df_reset_index_drop l (W h) = (Ret (length h), W (h ++ [d])).
Proof.
  intros H. unfold df_reset_index_drop.
  by rewrite (bind_ret_eq _ _ _ _ _ (load_spec _ _ _ H)).
Qed.

Lemma df_iloc_col_spec h l cols rs j :
  h !! l = Some (mkDataFrame cols rs) ->
  j < length cols ->
  Forall (fun r => j < length r) rs ->
  df_iloc_col l j (W h) = (Ret (map (fun r => cell_of r j) rs), W h).
Proof.
  intros H Hj Hrs. unfold df_iloc_col.
  rewrite (bind_ret_eq _ _ _ _ _ (load_spec _ _ _ H)). simpl.
  destruct (Nat.ltb_spec j (length cols)); [|lia].
  by rewrite mapM_lookup_cells.
Qed.

Lemma store_spec h d d' :
  store (length h) d' (W (h ++ [d])) = (Ret tt, W (h ++ [d'])).
Proof.
  unfold store. simpl. rewrite lookup_snoc. unfold set_frames. simpl.
  by rewrite insert_snoc.
Qed.

(** The first column assigned to a new table brings the rows. *)
Lemma df_setitem_first {A} h name (g : A -> string) (l : list A) :
  df_setitem (length h) name (map g l) (W (h ++ [mkDataFrame [] []])) =
  (Ret tt, W (h ++ [mkDataFrame [name] (map (fun x => [g x]) l)])).
Proof.
  unfold df_setitem.
  rewrite (bind_ret_eq _ _ _ _ _ (load_spec _ _ _ (lookup_snoc _ _))). simpl.
  rewrite store_spec. by rewrite map_map.
Qed.

(** A further column is appended to every row. *)
Lemma df_setitem_append {A} h cols name (f : A -> list string) (g : A -> string) (l : list A) :
  cols <> [] ->
  list_find (fun c => c = name) cols = None ->
  df_setitem (length h) name (map g l) (W (h ++ [mkDataFrame cols (map f l)])) =
  (Ret tt, W (h ++ [mkDataFrame (cols ++ [name]) (map (fun x => f x ++ [g x]) l)])).
Proof.
  intros Hc Hf. unfold df_setitem.
  rewrite (bind_ret_eq _ _ _ _ _ (load_spec _ _ _ (lookup_snoc _ _))).
  destruct cols as [|c0 cols]; [done|].
  cbn [columns rows]. rewrite !length_map, Nat.eqb_refl, Hf.
  by rewrite store_spec, zip_with_map_map.
Qed.

Lemma print_spec h msg : print msg (W h) = (Ret tt, mkWorld h fs ds (out ++ [msg]) tr).
Proof. done. Qed.

Lemma pd_DataFrame_spec h : pd_DataFrame (W h) = (Ret (length h), W (h ++ [mkDataFrame [] []])).
Proof. done. Qed.

End Pandas.

Lemma pipe_size_map {A} (f3 f4 f5 : A -> string) (l : list A) :
  pipe_size (map f3 l) (map f4 l) (map f5 l) =
  map (fun x => pipe_size_field (f3 x) (f4 x) (f5 x)) l.
Proof.
  unfold pipe_size, str_strip, series_add, series_add_str, astype_str, fillna.
  rewrite !map_map, !zip_with_map_map, !map_map.
  rewrite zip_with_map_map, map_map. done.
Qed.

(* ===================================================================== *)
(** * What the pipe extractors return                                     *)
(* ===================================================================== *)

Lemma length_slice {A} (a b : nat) (l : list A) :
  b <= length l -> length (slice a b l) = b - a.
Proof. intros H. unfold slice. rewrite length_take, length_drop. lia. Qed.

Lemma block_rows_width (d : DataFrame) (r0 r1 n : nat) :
  rectangular d -> n <= length (columns d) ->
  Forall (fun r => length r = n) (map (slice 0 n) (slice r0 r1 (rows d))).
Proof.
  intros Hd Hn. apply Forall_map. unfold slice at 2.
  apply Forall_take, Forall_drop. eapply Forall_impl; [exact Hd|].
  intros r Hr. simpl in *. rewrite length_slice by lia. lia.
Qed.

Lemma Forall_width_lt (rs : list (list string)) (n j : nat) :
  Forall (fun r => length r = n) rs -> j < n -> Forall (fun r => j < length r) rs.
Proof. intros H Hj. eapply Forall_impl; [exact H|]. simpl. intros; lia. Qed.

(** One step of a computation: the first action returns, the rest runs
    on. *)
Ltac mstep tac := erewrite bind_ret_eq; [ | tac ].

Ltac find_none := vm_compute; reflexivity.

Section Extractors.

Variables (fs : gmap string file) (ds : gset string) (tr : list event).

Local Abbreviation W h out := (mkWorld h fs ds out tr).

Lemma extract_incoming_small h out l d :
  h !! l = Some d -> incoming_undersized d = true ->
  extract_incoming_pipes l (W h out) =
  (Ret (length h),
   W (h ++ [mkDataFrame incoming_columns []]) (out ++ [incoming_warning])).
Proof.
  intros Hl Hs. unfold extract_incoming_pipes.
  mstep ltac:(by apply df_empty_spec).
  mstep ltac:(by apply df_shape_spec).
  unfold incoming_undersized in Hs. cbn [shape fst snd]. rewrite Hs.
  mstep ltac:(apply print_spec). done.
Qed.

Lemma extract_incoming_big h out l d :
  h !! l = Some d -> rectangular d -> incoming_undersized d = false ->
  let blk := mkDataFrame (slice 0 11 (columns d))
               (map (slice 0 11) (slice 63 70 (rows d))) in
  extract_incoming_pipes l (W h out) =
  (Ret (length h + 2), W (h ++ [blk; blk; incoming_table d]) out).
Proof.
  intros Hl Hd Hs blk. unfold extract_incoming_pipes.
  mstep ltac:(by apply df_empty_spec).
  mstep ltac:(by apply df_shape_spec).
  pose proof Hs as Hs'. unfold incoming_undersized in Hs'.
  cbn [shape fst snd]. rewrite Hs'.
  apply orb_false_iff in Hs' as [Hs' Hc]. apply orb_false_iff in Hs' as [_ Hr].
  apply Nat.ltb_ge in Hc, Hr.
  assert (Hw : Forall (fun r => length r = 11) (rows blk))
    by (by apply block_rows_width).
  assert (Hcols : length (columns blk) = 11)
    by (simpl; rewrite length_slice; lia).
  mstep ltac:(by apply df_iloc_block_spec).
  mstep ltac:(apply df_reset_index_drop_spec; solve_lookup).
  mstep ltac:(apply pd_DataFrame_spec).
  fold blk.
  set (h2 := (h ++ [blk]) ++ [blk]).
  assert (Hb : forall x, (h2 ++ [x]) !! length (h ++ [blk]) = Some blk)
    by (intros x; unfold h2; solve_lookup).
  assert (Hcol : forall j x, j < 11 ->
            df_iloc_col (length (h ++ [blk])) j (W (h2 ++ [x]) out) =
            (Ret (map (fun r => cell_of r j) (rows blk)), W (h2 ++ [x]) out)).
  { intros j x Hj. eapply df_iloc_col_spec; [apply Hb | simpl in *; lia |].
    eapply Forall_width_lt; [exact Hw | done]. }
  mstep ltac:(apply Hcol; lia).
  mstep ltac:(apply df_setitem_first).
  mstep ltac:(apply Hcol; lia).
  mstep ltac:(apply df_setitem_append; [done | find_none]).
  mstep ltac:(apply Hcol; lia).
  mstep ltac:(apply df_setitem_append; [done | find_none]).
  mstep ltac:(apply Hcol; lia).
  mstep ltac:(apply Hcol; lia).
  mstep ltac:(apply Hcol; lia).
  rewrite pipe_size_map.
  mstep ltac:(apply df_setitem_append; [done | find_none]).
  mstep ltac:(apply Hcol; lia).
  mstep ltac:(apply df_setitem_append; [done | find_none]).
  mstep ltac:(apply Hcol; lia).
  mstep ltac:(apply df_setitem_append; [done | find_none]).
  mstep ltac:(apply Hcol; lia).
  mstep ltac:(apply df_setitem_append; [done | find_none]).
  mstep ltac:(apply Hcol; lia).
  mstep ltac:(apply df_setitem_append; [done | find_none]).
  mstep ltac:(apply Hcol; lia).
  mstep ltac:(apply df_setitem_append; [done | find_none]).
  unfold ret, h2. rewrite !length_app. simpl.
  unfold incoming_table. rewrite Hs. rewrite <- !app_assoc. simpl.
  do 2 f_equal. lia.
Qed.

Lemma extract_outgoing_small h out l d :
  h !! l = Some d -> outgoing_undersized d = true ->
  extract_outgoing_pipes l (W h out) =
  (Ret (length h),
   W (h ++ [mkDataFrame outgoing_columns []]) (out ++ [outgoing_warning])).
Proof.
  intros Hl Hs. unfold extract_outgoing_pipes.
  mstep ltac:(by apply df_empty_spec).
  mstep ltac:(by apply df_shape_spec).
  unfold outgoing_undersized in Hs. cbn [shape fst snd]. rewrite Hs.
  mstep ltac:(apply print_spec). done.
Qed.

Lemma extract_outgoing_big h out l d :
  h !! l = Some d -> rectangular d -> outgoing_undersized d = false ->
  let blk := mkDataFrame (slice 0 12 (columns d))
               (map (slice 0 12) (slice 83 85 (rows d))) in
  extract_outgoing_pipes l (W h out) =
  (Ret (length h + 2), W (h ++ [blk; blk; outgoing_table d]) out).
Proof.
  intros Hl Hd Hs blk. unfold extract_outgoing_pipes.
  mstep ltac:(by apply df_empty_spec).
  mstep ltac:(by apply df_shape_spec).
  pose proof Hs as Hs'. unfold outgoing_undersized in Hs'.
  cbn [shape fst snd]. rewrite Hs'.
  apply orb_false_iff in Hs' as [Hs' Hc]. apply orb_false_iff in Hs' as [_ Hr].
  apply Nat.ltb_ge in Hc, Hr.
  assert (Hw : Forall (fun r => length r = 12) (rows blk))
    by (by apply block_rows_width).
  assert (Hcols : length (columns blk) = 12)
    by (simpl; rewrite length_slice; lia).
  mstep ltac:(by apply df_iloc_block_spec).
  mstep ltac:(apply df_reset_index_drop_spec; solve_lookup).
  mstep ltac:(apply pd_DataFrame_spec).
  fold blk.
  set (h2 := (h ++ [blk]) ++ [blk]).
  assert (Hb : forall x, (h2 ++ [x]) !! length (h ++ [blk]) = Some blk)
    by (intros x; unfold h2; solve_lookup).
  assert (Hcol : forall j x, j < 12 ->
            df_iloc_col (length (h ++ [blk])) j (W (h2 ++ [x]) out) =
            (Ret (map (fun r => cell_of r j) (rows blk)), W (h2 ++ [x]) out)).
  { intros j x Hj. eapply df_iloc_col_spec; [apply Hb | simpl in *; lia |].
    eapply Forall_width_lt; [exact Hw | done]. }
  mstep ltac:(apply Hcol; lia).
  mstep ltac:(apply df_setitem_first).
  mstep ltac:(apply Hcol; lia).
  mstep ltac:(apply df_setitem_append; [done | find_none]).
  mstep ltac:(apply Hcol; lia).
  mstep ltac:(apply df_setitem_append; [done | find_none]).
  mstep ltac:(apply Hcol; lia).
  mstep ltac:(apply Hcol; lia).
  mstep ltac:(apply Hcol; lia).
  rewrite pipe_size_map.
  mstep ltac:(apply df_setitem_append; [done | find_none]).
  mstep ltac:(apply Hcol; lia).
  mstep ltac:(apply df_setitem_append; [done | find_none]).
  mstep ltac:(apply Hcol; lia).
  mstep ltac:(apply df_setitem_append; [done | find_none]).
  mstep ltac:(apply Hcol; lia).
  mstep ltac:(apply df_setitem_append; [done | find_none]).
  mstep ltac:(apply Hcol; lia).
  mstep ltac:(apply df_setitem_append; [done | find_none]).
  mstep ltac:(apply Hcol; lia).
  mstep ltac:(apply df_setitem_append; [done | find_none]).
  mstep ltac:(apply Hcol; lia).
  mstep ltac:(apply df_setitem_append; [done | find_none]).
  unfold ret, h2. rewrite !length_app. simpl.
  unfold outgoing_table. rewrite Hs. rewrite <- !app_assoc. simpl.
  do 2 f_equal. lia.
Qed.

(** ** The location extractor *)

Lemma row_cell_lookup d row col :
  rectangular d -> row < length (rows d) -> col < length (columns d) ->
  exists r, rows d !! row = Some r /\
            r !! col = Some (cell_of (nth row (rows d) []) col).
Proof.
  intros Hd Hr Hc.
  destruct (lookup_lt_is_Some_2 _ _ Hr) as [r Hrow]. exists r. split; [done|].
  assert (Hlen : length r = length (columns d)).
  { exact (Forall_lookup_1 _ _ _ _ Hd Hrow). }
  assert (Hcr : col < length r) by lia.
  destruct (lookup_lt_is_Some_2 _ _ Hcr) as [v Hv]. rewrite Hv.
  unfold cell_of.
  by rewrite (nth_lookup_Some _ _ [] _ Hrow), (nth_lookup_Some _ _ "" _ Hv).
Qed.

Lemma df_iloc_cell_spec h out l d row col :
  h !! l = Some d -> rectangular d ->
  row < length (rows d) -> col < length (columns d) ->
  df_iloc_cell l row col (W h out) =
  (Ret (cell_of (nth row (rows d) []) col), W h out).
Proof.
  intros Hl Hd Hr Hc. unfold df_iloc_cell.
  mstep ltac:(by apply load_spec).
  destruct (row_cell_lookup d row col Hd Hr Hc) as (r & -> & ->). done.
Qed.

Lemma get_val_spec h out l d row col :
  h !! l = Some d -> rectangular d ->
  get_val l row col (W h out) = (Ret (val_at d row col), W h out).
Proof.
  intros Hl Hd. unfold get_val, val_at.
  mstep ltac:(by apply df_shape_spec). cbn [shape fst snd].
  destruct (Nat.ltb_spec row (length (rows d))) as [Hr|Hr]; [|done].
  destruct (Nat.ltb_spec col (length (columns d))) as [Hc|Hc]; [|done].
  cbn [andb].
  mstep ltac:(by apply df_iloc_cell_spec). done.
Qed.

Lemma df_iloc_row_spec h out l d row c0 c1 :
  h !! l = Some d -> row < length (rows d) ->
  df_iloc_row l row c0 c1 (W h out) =
  (Ret (match c1 with
        | Some c1 => slice c0 c1 (nth row (rows d) [])
        | None => slice_from c0 (nth row (rows d) [])
        end), W h out).
Proof.
  intros Hl Hr. unfold df_iloc_row.
  mstep ltac:(by apply load_spec).
  destruct (lookup_lt_is_Some_2 _ _ Hr) as [r Hrow]. rewrite Hrow.
  by rewrite (nth_lookup_Some _ _ [] _ Hrow).
Qed.

Lemma join_row_range_spec h out l d row start_col end_col :
  h !! l = Some d ->
  join_row_range l row start_col end_col (W h out) =
  (Ret (range_at d row start_col end_col), W h out).
Proof.
  intros Hl. unfold join_row_range, range_at.
  mstep ltac:(by apply df_shape_spec). cbn [shape fst snd].
  destruct (Nat.leb_spec (length (rows d)) row) as [Hr|Hr]; [done|].
  mstep ltac:(by apply df_iloc_row_spec). done.
Qed.

Lemma extract_location_data_spec h out l d :
  h !! l = Some d -> rectangular d ->
  extract_location_data l (W h out) =
  (Ret (length h), W (h ++ [location_table d]) out).
Proof.
  intros Hl Hd. unfold extract_location_data.
  repeat first
    [ mstep ltac:(by apply get_val_spec)
    | mstep ltac:(by apply join_row_range_spec) ].
  done.
Qed.

End Extractors.

(* ===================================================================== *)
(** * What the raw extractor and the per-file pipeline do                 *)
(* ===================================================================== *)

Lemma read_pages_spec pages all_rows w :
  read_pages pages all_rows w = (page_rows pages all_rows, w).
Proof.
  revert all_rows. induction pages as [|p pages IH]; intros all_rows; [done|].
  destruct p as [text|e]; simpl; unfold bind; simpl; [|done].
  destruct (Py.truthy text); apply IH.
Qed.

Lemma PdfReader_spec path h fs ds out tr :
  PdfReader path (mkWorld h fs ds out tr) =
  (open_pdf path (fs !! path), mkWorld h fs ds out (tr ++ [EvOpenPdf path])).
Proof.
  unfold PdfReader, bind, log_event, open_pdf. simpl.
  destruct (fs !! path) as [[ps|e|wb]|]; done.
Qed.

Lemma extract_raw_data_spec path h fs ds out tr :
  extract_raw_data path (mkWorld h fs ds out tr) =
  (Ret (length h),
   mkWorld (h ++ [raw_table path (fs !! path)]) fs ds
     (out ++ raw_messages path (fs !! path)) (tr ++ [EvOpenPdf path])).
Proof.
  unfold extract_raw_data, raw_table, raw_messages, raw_rows.
  unfold bind at 1. unfold try_except, bind at 1. rewrite PdfReader_spec.
  destruct (open_pdf path (fs !! path)) as [pages|e]; simpl.
  - unfold bind at 1. rewrite read_pages_spec.
    destruct (page_rows pages []) as [[|r rs]|e]; simpl;
      rewrite ?app_nil_r; done.
  - done.
Qed.

Lemma raw_table_rectangular path f : rectangular (raw_table path f).
Proof.
  unfold raw_table. destruct (raw_rows path f) as [[|r rs]|e]; try by constructor.
  unfold rectangular. cbn [columns rows].
  set (data := r :: rs). clearbody data.
  unfold fillna_cells, frame_of_rows. rewrite map_map.
  apply Forall_map, Forall_forall. intros x Hx. simpl.
  rewrite length_map, length_app, !length_map, length_replicate, length_seq.
  assert (length x <= max_list (map length data)); [|lia].
  apply max_list_elem_of_le, list_elem_of_In, in_map, list_elem_of_In, Hx.
Qed.

Section Pipeline.

Variables (E : env).

(** The pipe extractors on any rectangular grid: some temporary tables,
    then the result, at the end of the store. *)
Lemma extract_incoming_pipes_spec h fs ds out tr l d :
  h !! l = Some d -> rectangular d ->
  exists pre,
    extract_incoming_pipes l (mkWorld h fs ds out tr) =
    (Ret (length (h ++ pre)),
     mkWorld ((h ++ pre) ++ [incoming_table d]) fs ds
       (out ++ if incoming_undersized d then [incoming_warning] else []) tr).
Proof.
  intros Hl Hd. destruct (incoming_undersized d) eqn:Hs.
  - exists []. rewrite (extract_incoming_small _ _ _ _ _ _ _ Hl Hs).
    unfold incoming_table. by rewrite Hs, !app_nil_r.
  - eexists [_; _]. rewrite (extract_incoming_big _ _ _ _ _ _ _ Hl Hd Hs).
    rewrite !app_nil_r, <- !app_assoc, length_app. simpl. done.
Qed.

Lemma extract_outgoing_pipes_spec h fs ds out tr l d :
  h !! l = Some d -> rectangular d ->
  exists pre,
    extract_outgoing_pipes l (mkWorld h fs ds out tr) =
    (Ret (length (h ++ pre)),
     mkWorld ((h ++ pre) ++ [outgoing_table d]) fs ds
       (out ++ if outgoing_undersized d then [outgoing_warning] else []) tr).
Proof.
  intros Hl Hd. destruct (outgoing_undersized d) eqn:Hs.
  - exists []. rewrite (extract_outgoing_small _ _ _ _ _ _ _ Hl Hs).
    unfold outgoing_table. by rewrite Hs, !app_nil_r.
  - eexists [_; _]. rewrite (extract_outgoing_big _ _ _ _ _ _ _ Hl Hd Hs).
    rewrite !app_nil_r, <- !app_assoc, length_app. simpl. done.
Qed.

Lemma xlsx_save_spec path wb h fs ds out tr :
  xlsx_save E path wb (mkWorld h fs ds out tr) =
  (match open_wb_error fs ds path with
   | Some e => Raise e
   | None => match xlsx_save_error E path wb with Some e => Raise e | None => Ret tt end
   end,
   mkWorld h
     (save_to path
        (match open_wb_error fs ds path with
         | Some _ => None
         | None => match xlsx_save_error E path wb with
                   | Some _ => xlsx_save_leaves E path wb
                   | None => Some (FileXlsx wb)
                   end
         end) fs)
     ds out (tr ++ [EvSaveXlsx path])).
Proof.
  unfold xlsx_save, bind, log_event. simpl.
  destruct (open_wb_error fs ds path); [done|].
  destruct (xlsx_save_error E path wb); done.
Qed.

(** The module never imports [re]. *)
Lemma re_unbound : load_global "re" = raise (NameError "re").
Proof. vm_compute. reflexivity. Qed.

(** The look-up over the first page's text (core.py 189-194) always ends
    in an exception. *)
Lemma fallback_lookup_spec path h fs ds out tr :
  (reader <- PdfReader path ;;
   page0 <- pages_getitem reader 0 ;;
   text_content <- extract_text page0 ;;
   load_global "re" ;;
   match re_search_node_reference text_content with
   | Some g => ret g
   | None => ret "UNKNOWN_NODE"
   end) (mkWorld h fs ds out tr) =
  (Raise (fallback_error path (fs !! path)),
   mkWorld h fs ds out (tr ++ [EvOpenPdf path])).
Proof.
  unfold bind at 1. rewrite PdfReader_spec. unfold fallback_error.
  destruct (open_pdf path (fs !! path)) as [pages|e]; [|done].
  unfold pages_getitem.
  destruct (pages !! 0) as [[text|e]|]; [|done..].
  unfold bind, extract_text, ret. by rewrite re_unbound.
Qed.

(** The per-file pipeline, as a function of the file it reads. *)
Lemma process_pdf_spec path output_excel h fs ds out tr :
  exists new msgs evs,
    process_pdf E path output_excel (mkWorld h fs ds out tr) =
    (fst (pdf_outcome E path (fs !! path) (open_wb_error fs ds output_excel) output_excel),
     mkWorld (h ++ new)
       (save_to output_excel
          (snd (pdf_outcome E path (fs !! path) (open_wb_error fs ds output_excel)
                  output_excel)) fs)
       ds (out ++ msgs) (tr ++ evs))
    /\ Forall is_file_event evs.
Proof.
  unfold process_pdf, pdf_outcome.
  mstep ltac:(apply extract_raw_data_spec).
  set (raw := raw_table path (fs !! path)).
  assert (Hraw : rectangular raw) by apply raw_table_rectangular.
  mstep ltac:(apply df_empty_spec, lookup_snoc).
  destruct (is_empty raw) eqn:Hemp.
  { eexists [_], _, [_]. split; [rewrite print_spec, <- app_assoc; reflexivity|].
    by repeat constructor. }
  destruct (extract_incoming_pipes_spec (h ++ [raw]) fs ds
              (out ++ raw_messages path (fs !! path)) (tr ++ [EvOpenPdf path])
              (length h) raw (lookup_snoc _ _) Hraw) as (pre_i & Hin).
  mstep ltac:(apply Hin). clear Hin.
  set (out1 := (out ++ _) ++ _).
  set (h1 := ((h ++ [raw]) ++ pre_i) ++ [incoming_table raw]).
  assert (Hl1 : h1 !! length h = Some raw) by (unfold h1; solve_lookup).
  destruct (extract_outgoing_pipes_spec h1 fs ds out1 (tr ++ [EvOpenPdf path])
              (length h) raw Hl1 Hraw) as (pre_o & Hout).
  mstep ltac:(apply Hout). clear Hout.
  set (out2 := out1 ++ _).
  set (h2 := (h1 ++ pre_o) ++ [outgoing_table raw]).
  assert (Hl2 : h2 !! length h = Some raw) by (unfold h2; solve_lookup).
  mstep ltac:(by apply extract_location_data_spec).
  set (h3 := h2 ++ [location_table raw]).
  assert (Hl3 : h3 !! length h = Some raw) by (unfold h3; solve_lookup).
  mstep ltac:(by apply df_shape_spec). cbn [shape fst snd].
  assert (Hgrow : exists new, h3 = h ++ new).
  { unfold h3, h2, h1. rewrite <- !app_assoc. by eexists. }
  destruct Hgrow as (new & Hnew).
  assert (Hmsgs : exists msgs, out2 = out ++ msgs).
  { unfold out2, out1. rewrite <- !app_assoc. by eexists. }
  destruct Hmsgs as (msgs & Hmsgs).
  assert (Hnode : (if (8 <? length (rows raw)) && (2 <? length (columns raw))
                   then df_iloc_cell (length h) 8 2 else ret "")
                    (mkWorld h3 fs ds out2 (tr ++ [EvOpenPdf path])) =
                  (Ret (node_reference_cell raw),
                   mkWorld h3 fs ds out2 (tr ++ [EvOpenPdf path]))).
  { unfold node_reference_cell.
    destruct (Nat.ltb_spec 8 (length (rows raw))); [|done].
    destruct (Nat.ltb_spec 2 (length (columns raw))); [|done].
    cbn [andb]. by apply df_iloc_cell_spec. }
  mstep ltac:(apply Hnode). clear Hnode.
  destruct (Py.truthy (node_reference_cell raw)) eqn:Hnode; cbn [negb fst snd save_to].
  - unfold ret at 1. erewrite bind_ret_eq by reflexivity.
    mstep ltac:(by apply load_spec).
    mstep ltac:(apply load_spec; unfold h3; solve_lookup).
    mstep ltac:(apply load_spec; unfold h3, h2, h1; solve_lookup).
    mstep ltac:(apply load_spec; unfold h3, h2; solve_lookup).
    rewrite xlsx_save_spec, Hnew, Hmsgs, <- app_assoc.
    exists new, msgs, [EvOpenPdf path; EvSaveXlsx output_excel].
    split; [|by repeat constructor].
    destruct (open_wb_error fs ds output_excel); [done|].
    destruct (xlsx_save_error E output_excel _); done.
  - (* the positional look-up gave nothing *)
    exists new, msgs, [EvOpenPdf path; EvOpenPdf path].
    erewrite bind_raise_eq by apply fallback_lookup_spec.
    rewrite Hnew, Hmsgs, <- app_assoc. split; [done | by repeat constructor].
Qed.

End Pipeline.

(* ===================================================================== *)
(** * The batch runner                                                    *)
(* ===================================================================== *)

Lemma runs_batch_app E out j1 j2 w f w1 f1 w2 f2 :
  runs_batch E out j1 w f f1 w1 ->
  runs_batch E out j2 w1 f1 f2 w2 ->
  runs_batch E out (j1 ++ j2) w f f2 w2.
Proof.
  induction 1; intros H2; simpl; eauto using runs_batch.
Qed.

Lemma batch_outcome_app E ds out j1 j2 fs failed :
  batch_outcome E ds out (j1 ++ j2) fs failed =
  batch_outcome E ds out j2 (snd (batch_outcome E ds out j1 fs failed))
    (fst (batch_outcome E ds out j1 fs failed)).
Proof.
  revert fs failed. induction j1 as [|[root file] j1 IH]; intros fs failed; simpl; [done|].
  destruct (is_pdf_name file); apply IH.
Qed.

Section Batch.

Variables (E : env) (output_folder : string).

(** One file of the inner loop. *)
Lemma batch_file_spec root file failed h fs ds out tr :
  let w := mkWorld h fs ds out tr in
  let bo := batch_outcome E ds output_folder [(root, file)] fs failed in
  exists new msgs evs,
    let w' := mkWorld (h ++ new) (snd bo) ds (out ++ msgs) (tr ++ evs) in
    batch_file E output_folder root file failed w = (Ret (fst bo), w')
    /\ Forall is_file_event evs
    /\ runs_batch E output_folder [(root, file)] w failed (fst bo) w'.
Proof.
  intros w bo. unfold batch_file. subst bo. cbn [batch_outcome].
  fold (is_pdf_name file). destruct (is_pdf_name file) eqn:Hpdf.
  - fold (pdf_path_of root file) (xlsx_path_of output_folder file).
    set (p := pdf_path_of root file). set (o := xlsx_path_of output_folder file).
    set (msg := "Processing " +:+ p +:+ " -> " +:+ o).
    destruct (process_pdf_spec E p o h fs ds (out ++ [msg]) tr)
      as (new & msgs & evs & Hp & Hevs).
    destruct (pdf_outcome E p (fs !! p) (open_wb_error fs ds o) o) as [[[]|e] saved] eqn:Hoc;
      cbn [fst snd] in *.
    + exists new, (msg :: msgs), evs. cbn zeta.
      replace (out ++ msg :: msgs) with ((out ++ [msg]) ++ msgs)
        by (by rewrite <- app_assoc).
      split; [|split; [done|]].
      * subst w. erewrite bind_ret_eq by apply print_spec.
        erewrite try_ret_eq; [reflexivity|].
        erewrite bind_ret_eq by apply Hp. done.
      * eapply runs_returned; [done | exact Hp | constructor].
    + exists new, (msg :: msgs ++ ["Error processing " +:+ p +:+ ": " +:+ exn_str e]), evs.
      cbn zeta.
      replace (out ++ msg :: msgs ++ ["Error processing " +:+ p +:+ ": " +:+ exn_str e])
        with (((out ++ [msg]) ++ msgs) ++ ["Error processing " +:+ p +:+ ": " +:+ exn_str e])
        by (by rewrite <- !app_assoc).
      split; [|split; [done|]].
      * subst w. erewrite bind_ret_eq by apply print_spec.
        erewrite try_raise_eq; cycle 1.
        { erewrite bind_raise_eq by apply Hp. reflexivity. }
        erewrite bind_ret_eq by apply print_spec. done.
      * eapply runs_raised; [done | exact Hp | constructor].
  - exists [], [], []. cbn zeta. rewrite !app_nil_r.
    split; [done|]. split; [done|].
    apply runs_other; [done | constructor].
Qed.

(** The inner loop. *)
Lemma batch_files_spec root files failed h fs ds out tr :
  let w := mkWorld h fs ds out tr in
  let bo := batch_outcome E ds output_folder (map (pair root) files) fs failed in
  exists new msgs evs,
    let w' := mkWorld (h ++ new) (snd bo) ds (out ++ msgs) (tr ++ evs) in
    batch_files E output_folder root files failed w = (Ret (fst bo), w')
    /\ Forall is_file_event evs
    /\ runs_batch E output_folder (map (pair root) files) w failed (fst bo) w'.
Proof.
  revert failed h fs out tr.
  induction files as [|file files IH]; intros failed h fs out tr; cbn zeta.
  - exists [], [], []. rewrite !app_nil_r. repeat split; try done. constructor.
  - destruct (batch_file_spec root file failed h fs ds out tr)
      as (new1 & msgs1 & evs1 & H1 & Hev1 & Hr1).
    set (bo1 := batch_outcome E ds output_folder [(root, file)] fs failed) in *.
    destruct (IH (fst bo1) (h ++ new1) (snd bo1) (out ++ msgs1) (tr ++ evs1))
      as (new2 & msgs2 & evs2 & H2 & Hev2 & Hr2).
    exists (new1 ++ new2), (msgs1 ++ msgs2), (evs1 ++ evs2).
    change (map (pair root) (file :: files))
      with ([(root, file)] ++ map (pair root) files).
    rewrite batch_outcome_app. fold bo1. rewrite !app_assoc.
    split; [|split].
    + cbn [batch_files]. erewrite bind_ret_eq by apply H1. apply H2.
    + by apply Forall_app.
    + eapply runs_batch_app; [apply Hr1 | apply Hr2].
Qed.

(** The outer loop. *)
Lemma batch_walk_spec walk failed h fs ds out tr :
  let w := mkWorld h fs ds out tr in
  let bo := batch_outcome E ds output_folder (walk_files walk) fs failed in
  exists new msgs evs,
    let w' := mkWorld (h ++ new) (snd bo) ds (out ++ msgs) (tr ++ evs) in
    batch_walk E output_folder walk failed w = (Ret (fst bo), w')
    /\ Forall is_file_event evs
    /\ runs_batch E output_folder (walk_files walk) w failed (fst bo) w'.
Proof.
  revert failed h fs out tr.
  induction walk as [|[[root dirs] files] walk IH]; intros failed h fs out tr; cbn zeta.
  - exists [], [], []. rewrite !app_nil_r. repeat split; try done. constructor.
  - destruct (batch_files_spec root files failed h fs ds out tr)
      as (new1 & msgs1 & evs1 & H1 & Hev1 & Hr1).
    set (bo1 := batch_outcome E ds output_folder (map (pair root) files) fs failed) in *.
    destruct (IH (fst bo1) (h ++ new1) (snd bo1) (out ++ msgs1) (tr ++ evs1))
      as (new2 & msgs2 & evs2 & H2 & Hev2 & Hr2).
    exists (new1 ++ new2), (msgs1 ++ msgs2), (evs1 ++ evs2).
    change (walk_files ((root, dirs, files) :: walk))
      with (map (pair root) files ++ walk_files walk).
    rewrite batch_outcome_app. fold bo1. rewrite !app_assoc.
    split; [|split].
    + cbn [batch_walk]. erewrite bind_ret_eq by apply H1. apply H2.
    + by apply Forall_app.
    + eapply runs_batch_app; [apply Hr1 | apply Hr2].
Qed.

End Batch.

(* ===================================================================== *)
(** * Paths: inputs end in .pdf, outputs in .xlsx                         *)
(* ===================================================================== *)

Lemma chars_lower s :
  list_ascii_of_string (Py.lower s) = map Py.lower_char (list_ascii_of_string s).
Proof. unfold Py.lower. apply list_ascii_of_string_of_list_ascii. Qed.

Lemma os_path_join_suffix a b :
  exists pre, list_ascii_of_string (os_path_join a b) = pre ++ list_ascii_of_string b.
Proof.
  unfold os_path_join. destruct (Py.startswith b "/").
  - by exists [].
  - destruct (_ || _); rewrite !chars_app; [by eexists|].
    rewrite app_assoc. by eexists.
Qed.

Lemma last_char_join a b :
  list_ascii_of_string b <> [] -> last_char (os_path_join a b) = last_char b.
Proof.
  intros Hb. unfold last_char. destruct (os_path_join_suffix a b) as (pre & ->).
  rewrite last_app. destruct (last (list_ascii_of_string b)) eqn:Hl; [done|].
  by apply last_None in Hl.
Qed.

Lemma is_pdf_name_last file :
  is_pdf_name file = true ->
  list_ascii_of_string file <> [] /\
  Py.lower_char <$> last_char file = Some "f"%char.
Proof.
  unfold is_pdf_name, Py.endswith, last_char. rewrite chars_lower.
  set (l := list_ascii_of_string file).
  change (rev (list_ascii_of_string ".pdf")) with ["f"; "d"; "p"; "."]%char.
  intros H. rewrite <- fmap_last.
  change (Py.lower_char <$> l) with (map Py.lower_char l).
  destruct (rev (map Py.lower_char l)) as [|c r] eqn:Hr; [done|].
  cbn [Py.prefix_chars] in H. apply andb_true_iff in H as [Hc _].
  apply Ascii.eqb_eq in Hc. subst c.
  apply (f_equal (@rev _)) in Hr. rewrite rev_involutive in Hr. simpl in Hr.
  split.
  - intros Hl. rewrite Hl in Hr. simpl in Hr. by destruct (rev r).
  - rewrite Hr. apply last_snoc.
Qed.

Lemma pdf_path_last root file :
  is_pdf_name file = true ->
  Py.lower_char <$> last_char (pdf_path_of root file) = Some "f"%char.
Proof.
  intros H. apply is_pdf_name_last in H as [Hne Hl].
  unfold pdf_path_of. by rewrite last_char_join.
Qed.

Lemma xlsx_path_last output_folder file :
  last_char (xlsx_path_of output_folder file) = Some "x"%char.
Proof.
  unfold xlsx_path_of. rewrite last_char_join.
  - unfold last_char. rewrite chars_app.
    change (list_ascii_of_string ".xlsx") with ([]  ++ ["."; "x"; "l"; "s"]%char ++ ["x"%char]).
    rewrite !app_assoc. apply last_snoc.
  - rewrite chars_app. by destruct (list_ascii_of_string (path_stem file)).
Qed.

(** An input of the batch is never one of its outputs. *)
Lemma pdf_path_not_xlsx root file output_folder file' :
  is_pdf_name file = true ->
  pdf_path_of root file <> xlsx_path_of output_folder file'.
Proof.
  intros H Heq. apply (pdf_path_last root) in H.
  rewrite Heq, xlsx_path_last in H. by vm_compute in H.
Qed.

Lemma split_chars_no_sep sep l :
  Forall (Forall (fun c => Ascii.eqb c sep = false)) (Py.split_chars sep l).
Proof.
  induction l as [|c l IH]; simpl; [by repeat constructor|].
  destruct (Ascii.eqb c sep) eqn:Hc; [by constructor|].
  destruct (Py.split_chars sep l) as [|piece pieces]; [by repeat constructor|].
  inversion IH; subst. by repeat constructor.
Qed.

Lemma last_Forall {A} (P : A -> Prop) (l : list A) (d : A) :
  Forall P l -> P d -> P (List.last l d).
Proof.
  induction 1 as [|x l Hx Hl IH]; intros Hd; [done|].
  destruct l; [done|]. by apply IH.
Qed.

Lemma path_stem_no_slash file :
  Forall (fun c => Ascii.eqb c "/" = false) (list_ascii_of_string (path_stem file)).
Proof.
  assert (Hname : Forall (fun c => Ascii.eqb c "/" = false)
                    (list_ascii_of_string (path_name file))).
  { unfold path_name. rewrite list_ascii_of_string_of_list_ascii.
    apply (last_Forall (Forall _)); [apply split_chars_no_sep | constructor]. }
  unfold path_stem. destruct (rfind_char _ _) as [i|];
    [destruct (_ && _)|]; rewrite list_ascii_of_string_of_list_ascii;
    try done. by apply Forall_take.
Qed.

(** A workbook is written inside the output folder, not over it. *)
Lemma xlsx_path_not_folder output_folder file :
  xlsx_path_of output_folder file <> output_folder.
Proof.
  unfold xlsx_path_of, os_path_join.
  set (b := path_stem file +:+ ".xlsx").
  assert (Hb : Py.startswith b "/" = false).
  { unfold Py.startswith, b. rewrite chars_app.
    pose proof (path_stem_no_slash file) as Hs.
    destruct (list_ascii_of_string (path_stem file)) as [|c l]; [done|].
    inversion Hs as [|? ? Hc _]; subst.
    change (Py.prefix_chars ["/"%char] (c :: l ++ list_ascii_of_string ".xlsx") = false).
    cbn [Py.prefix_chars]. by rewrite Ascii.eqb_sym, Hc. }
  rewrite Hb. intros Heq.
  apply (f_equal list_ascii_of_string), (f_equal (@length _)) in Heq.
  destruct (_ || _); rewrite !chars_app, !length_app in Heq;
    unfold b in Heq; rewrite chars_app, length_app in Heq; simpl in Heq; lia.
Qed.

(** ** The paths above a path *)

Lemma length_list_ascii_of_string s :
  length (list_ascii_of_string s) = String.length s.
Proof. induction s as [|c s IH]; simpl; congruence. Qed.

Lemma path_parents_go_spec pre s a :
  a ∈ path_parents_go pre s ->
  exists s1 rest, s = s1 ++ "/"%char :: rest /\ a = pre ++ s1.
Proof.
  revert pre. induction s as [|c s IH]; intros pre Ha; simpl in Ha.
  { by apply elem_of_nil in Ha. }
  apply elem_of_app in Ha as [Ha|Ha].
  - destruct (Ascii.eqb c "/") eqn:Hc; [|by apply elem_of_nil in Ha].
    apply Ascii.eqb_eq in Hc as ->.
    destruct pre as [|x pre]; [by apply elem_of_nil in Ha|].
    apply list_elem_of_singleton in Ha as ->.
    exists [], s. by rewrite app_nil_r.
  - destruct (IH _ Ha) as (s1 & rest & -> & ->).
    exists (c :: s1), rest. by rewrite <- app_assoc.
Qed.

(** A path above [p] is followed by a separator in [p]. *)
Lemma path_parents_spec p a :
  a ∈ path_parents p ->
  exists rest, list_ascii_of_string p = list_ascii_of_string a ++ "/"%char :: rest.
Proof.
  unfold path_parents. intros Ha. apply list_elem_of_fmap in Ha as (l & -> & Hl).
  apply path_parents_go_spec in Hl as (s1 & rest & Hp & ->).
  exists rest. by rewrite list_ascii_of_string_of_list_ascii.
Qed.

Lemma before_sep_shorter (c : ascii) (l1 r l2 b : list ascii) :
  l1 ++ c :: r = l2 ++ b -> Forall (fun x => Ascii.eqb x c = false) b ->
  length l1 < length l2.
Proof.
  revert l2. induction l1 as [|x l1 IH]; intros [|y l2] Heq Hb; simpl in *.
  - subst b. inversion Hb as [|? ? Hc _]; subst. by rewrite Ascii.eqb_refl in Hc.
  - lia.
  - subst b. inversion Hb as [|? ? _ Hb']; subst.
    apply Forall_app in Hb' as [_ Hb']. inversion Hb' as [|? ? Hc _]; subst.
    by rewrite Ascii.eqb_refl in Hc.
  - injection Heq as -> Heq. specialize (IH _ Heq Hb). lia.
Qed.

Lemma path_parents_go_app pre s1 s2 :
  path_parents_go pre (s1 ++ s2)
  = path_parents_go pre s1 ++ path_parents_go (pre ++ s1) s2.
Proof.
  revert pre. induction s1 as [|c s1 IH]; intros pre; simpl.
  - by rewrite app_nil_r.
  - by rewrite IH, <- !app_assoc.
Qed.

Lemma lstrip_slashes_suffix s : exists u, s = u ++ lstrip_slashes s.
Proof.
  induction s as [|c s [u IH]]; simpl; [by exists []|].
  destruct (Ascii.eqb c "/"); [|by exists []].
  exists (c :: u). simpl. by f_equal.
Qed.

(** The entry a path names is the path without something at its end. *)
Lemma path_leaf_prefix p :
  exists t, list_ascii_of_string p = list_ascii_of_string (path_leaf p) ++ t.
Proof.
  unfold path_leaf. destruct (forallb _ _); [exists []; by rewrite app_nil_r|].
  rewrite list_ascii_of_string_of_list_ascii. unfold rstrip_slashes.
  destruct (lstrip_slashes_suffix (rev (list_ascii_of_string p))) as (u & Hu).
  exists (rev u). rewrite <- rev_app_distr, <- Hu. by rewrite rev_involutive.
Qed.

Lemma path_leaf_length p : String.length (path_leaf p) <= String.length p.
Proof.
  destruct (path_leaf_prefix p) as (t & Ht).
  rewrite <- !length_list_ascii_of_string, Ht, length_app. lia.
Qed.

Lemma path_parents_leaf p a :
  a ∈ path_parents (path_leaf p) -> a ∈ path_parents p.
Proof.
  destruct (path_leaf_prefix p) as (t & Ht). unfold path_parents.
  rewrite Ht, path_parents_go_app, fmap_app. intros Ha.
  apply elem_of_app. by left.
Qed.

Lemma path_parents_shorter p a :
  a ∈ path_parents p -> String.length a < String.length p.
Proof.
  intros Ha. apply path_parents_spec in Ha as (rest & Hp).
  rewrite <- !length_list_ascii_of_string.
  rewrite Hp, length_app. simpl. lia.
Qed.

(** The workbook of a file stands at the folder's path followed by at
    most one separator and a name without separator. *)
Lemma xlsx_path_chars output_folder file :
  exists pre b,
    list_ascii_of_string (xlsx_path_of output_folder file) = pre ++ b /\
    Forall (fun x => Ascii.eqb x "/" = false) b /\
    length pre <= String.length output_folder + 1 /\
    String.length output_folder < length (pre ++ b).
Proof.
  unfold xlsx_path_of, os_path_join.
  set (b := path_stem file +:+ ".xlsx").
  assert (Hfree : Forall (fun x => Ascii.eqb x "/" = false) (list_ascii_of_string b)).
  { unfold b. rewrite chars_app. apply Forall_app. split; [apply path_stem_no_slash|].
    by repeat constructor. }
  assert (Hb : Py.startswith b "/" = false).
  { unfold Py.startswith. destruct (list_ascii_of_string b) as [|c l] eqn:Hl; [done|].
    inversion Hfree as [|? ? Hc _]; subst.
    change (Py.prefix_chars ["/"%char] (c :: l) = false).
    cbn [Py.prefix_chars]. by rewrite Ascii.eqb_sym, Hc. }
  assert (Hlen : 0 < length (list_ascii_of_string b)).
  { unfold b. rewrite chars_app, length_app. simpl. lia. }
  rewrite Hb. rewrite <- !length_list_ascii_of_string.
  destruct (_ || _).
  - exists (list_ascii_of_string output_folder), (list_ascii_of_string b).
    rewrite chars_app, length_app. repeat split; [done|lia..].
  - exists (list_ascii_of_string output_folder ++ ["/"%char]), (list_ascii_of_string b).
    rewrite !chars_app, <- app_assoc, !length_app. simpl. repeat split; [done|lia..].
Qed.

Lemma xlsx_path_longer output_folder file :
  String.length output_folder < String.length (xlsx_path_of output_folder file).
Proof.
  destruct (xlsx_path_chars output_folder file) as (pre & b & Hp & _ & _ & Hlen).
  by rewrite <- (length_list_ascii_of_string (xlsx_path_of _ _)), Hp.
Qed.

(** What stands above a workbook is not longer than the folder's path. *)
Lemma xlsx_path_parents_short output_folder file a :
  a ∈ path_parents (xlsx_path_of output_folder file) ->
  String.length a <= String.length output_folder.
Proof.
  intros Ha. apply path_parents_spec in Ha as (rest & Hp).
  destruct (xlsx_path_chars output_folder file) as (pre & b & Hq & Hfree & Hpre & _).
  rewrite Hq in Hp. symmetry in Hp.
  apply before_sep_shorter in Hp; [|done].
  rewrite <- (length_list_ascii_of_string a). lia.
Qed.

Lemma existsb_ext {A} (f g : A -> bool) (l : list A) :
  (forall a, a ∈ l -> f a = g a) -> existsb f l = existsb g l.
Proof.
  induction l as [|x l IH]; intros H; simpl; [done|].
  rewrite (H x) by constructor. f_equal. apply IH. intros a Ha. apply H. by constructor.
Qed.

(* ===================================================================== *)
(** * Two runs of the batch                                               *)
(* ===================================================================== *)

Section BatchFiles.

Variables (E : env) (ds : gset string) (output_folder : string).

Lemma xlsx_named_lookup_pdf S root file :
  xlsx_named output_folder S -> is_pdf_name file = true ->
  S !! pdf_path_of root file = None.
Proof.
  intros HS Hpdf. destruct (S !! pdf_path_of root file) eqn:Hl; [|done].
  destruct (HS _ (mk_is_Some _ _ Hl)) as (file' & Heq).
  by apply pdf_path_not_xlsx in Heq.
Qed.

Lemma xlsx_named_insert S file wb :
  xlsx_named output_folder S ->
  xlsx_named output_folder (<[xlsx_path_of output_folder file := wb]> S).
Proof.
  intros HS k [v Hk]. destruct (decide (k = xlsx_path_of output_folder file)) as [->|Hne].
  - by eexists.
  - rewrite lookup_insert_ne in Hk by done. by apply HS.
Qed.

Lemma xlsx_named_union S T :
  xlsx_named output_folder S -> xlsx_named output_folder T ->
  xlsx_named output_folder (S ∪ T).
Proof.
  intros HS HT k [v Hk]. apply lookup_union_Some_raw in Hk as [Hk|[_ Hk]].
  - by apply HS.
  - by apply HT.
Qed.

Lemma xlsx_named_folder S :
  xlsx_named output_folder S -> S !! output_folder = None.
Proof.
  intros HS. destruct (S !! output_folder) eqn:Hl; [|done].
  destruct (HS _ (mk_is_Some _ _ Hl)) as (file' & Heq).
  symmetry in Heq. by apply xlsx_path_not_folder in Heq.
Qed.

(** Nothing a batch wrote stands above the output folder or above one of
    its workbooks. *)
Lemma xlsx_named_short S a :
  xlsx_named output_folder S -> String.length a <= String.length output_folder ->
  S !! a = None.
Proof.
  intros HS Ha. destruct (S !! a) eqn:Hl; [|done].
  destruct (HS _ (mk_is_Some _ _ Hl)) as (file' & ->).
  pose proof (xlsx_path_longer output_folder file'). lia.
Qed.

Lemma is_file_union_short S fs0 a :
  xlsx_named output_folder S -> String.length a <= String.length output_folder ->
  is_file (S ∪ fs0) a = is_file fs0 a.
Proof.
  intros HS Ha. unfold is_file. rewrite lookup_union_r; [done|].
  by apply xlsx_named_short.
Qed.

(** Whether a workbook's path can be opened does not depend on the
    workbooks already written. *)
Lemma open_wb_error_stable S fs0 file :
  xlsx_named output_folder S ->
  open_wb_error (S ∪ fs0) ds (xlsx_path_of output_folder file)
  = open_wb_error fs0 ds (xlsx_path_of output_folder file).
Proof.
  intros HS. unfold open_wb_error.
  rewrite (existsb_ext (is_file (S ∪ fs0)) (is_file fs0)); [done|].
  intros a Ha. apply is_file_union_short; [done|].
  by apply path_parents_leaf, xlsx_path_parents_short in Ha.
Qed.

(** Nor does the creation of the output folder. *)
Lemma makedirs_error_stable S fs0 :
  xlsx_named output_folder S ->
  makedirs_error E (S ∪ fs0) output_folder = makedirs_error E fs0 output_folder.
Proof.
  intros HS. unfold makedirs_error.
  rewrite (existsb_ext (is_file (S ∪ fs0)) (is_file fs0)).
  - rewrite (is_file_union_short S fs0 (path_leaf output_folder)); [done..|].
    apply path_leaf_length.
  - intros a Ha. apply is_file_union_short; [done|].
    apply path_parents_leaf, path_parents_shorter in Ha. lia.
Qed.

(** The files a batch writes and the failures it records depend only on
    the files that were there before any batch wrote its workbooks: on top
    of [fs0] with any workbooks [S] of earlier batches, it records the
    same failures and writes the same workbooks [T]; and a path is
    recorded only if the pipeline raises on what [fs0] holds there. *)
Lemma batch_outcome_stable jobs fs0 failed :
  exists failed' T,
    xlsx_named output_folder T /\
    (forall S, xlsx_named output_folder S ->
       batch_outcome E ds output_folder jobs (S ∪ fs0) failed = (failed', T ∪ (S ∪ fs0))) /\
    (forall q, q ∈ failed' ->
       q ∈ failed \/
       exists opening o e, fst (pdf_outcome E q (fs0 !! q) opening o) = Raise e).
Proof.
  revert failed. induction jobs as [|[root file] jobs IH]; intros failed.
  - exists failed, ∅. split; [|split].
    + intros k [v Hk]. by rewrite lookup_empty in Hk.
    + intros S _. simpl. by rewrite (left_id ∅ (∪)).
    + auto.
  - cbn [batch_outcome]. destruct (is_pdf_name file) eqn:Hpdf; [|apply IH].
    set (p := pdf_path_of root file). set (o := xlsx_path_of output_folder file).
    set (oc := pdf_outcome E p (fs0 !! p) (open_wb_error fs0 ds o) o).
    destruct (IH (match fst oc with Ret _ => failed | Raise _ => failed ++ [p] end))
      as (failed' & T & HT & Hrun & Hfailed).
    assert (Hlook : forall S, xlsx_named output_folder S -> (S ∪ fs0) !! p = fs0 !! p).
    { intros S HS. rewrite lookup_union_r; [done|]. by apply xlsx_named_lookup_pdf. }
    assert (Hopen : forall S, xlsx_named output_folder S ->
              open_wb_error (S ∪ fs0) ds o = open_wb_error fs0 ds o).
    { intros S HS. by apply open_wb_error_stable. }
    assert (Hq : forall q, q ∈ failed' ->
              q ∈ failed \/
              exists opening o e, fst (pdf_outcome E q (fs0 !! q) opening o) = Raise e).
    { intros q Hq. destruct (Hfailed q Hq) as [Hin|Hex]; [|by right].
      destruct (fst oc) as [u|e] eqn:Hoc; [by left|].
      apply elem_of_app in Hin as [Hin|Hin]; [by left|].
      apply list_elem_of_singleton in Hin as ->. right.
      by exists (open_wb_error fs0 ds o), o, e. }
    destruct (snd oc) as [wb|] eqn:Hsaved.
    + exists failed', (T ∪ {[o := wb]}). split; [|split; [|done]].
      * apply xlsx_named_union; [done|].
        intros k [v Hk]. apply lookup_singleton_Some in Hk as [<- _]. by eexists.
      * intros S HS. rewrite (Hlook S HS), (Hopen S HS). fold oc. rewrite Hsaved.
        cbn [save_to]. rewrite insert_union_l.
        rewrite (Hrun (<[o := wb]> S)) by (by apply xlsx_named_insert).
        f_equal. rewrite <- (assoc_L (∪)). f_equal.
        rewrite <- insert_union_l. by rewrite insert_union_singleton_l.
    + exists failed', T. split; [done|]. split; [|done].
      intros S HS. rewrite (Hlook S HS), (Hopen S HS). fold oc. rewrite Hsaved.
      cbn [save_to].
      by apply Hrun.
Qed.

End BatchFiles.

(* ===================================================================== *)
(** * The field extractors: schema, size, purity                          *)
(* ===================================================================== *)

Lemma undersized_incoming d :
  length (rows d) < 70 \/ length (columns d) < 11 -> incoming_undersized d = true.
Proof.
  unfold incoming_undersized. intros [H|H].
  - apply Nat.ltb_lt in H. rewrite H. by rewrite orb_true_r.
  - apply Nat.ltb_lt in H. rewrite H. by rewrite orb_true_r.
Qed.

Lemma undersized_outgoing d :
  length (rows d) < 85 \/ length (columns d) < 12 -> outgoing_undersized d = true.
Proof.
  unfold outgoing_undersized. intros [H|H].
  - apply Nat.ltb_lt in H. rewrite H. by rewrite orb_true_r.
  - apply Nat.ltb_lt in H. rewrite H. by rewrite orb_true_r.
Qed.

Lemma location_table_rows d : length (rows (location_table d)) = 29.
Proof. reflexivity. Qed.

Lemma location_table_labels d :
  map (fun r => cell_of r 0) (rows (location_table d)) = location_components.
Proof. reflexivity. Qed.

Lemma incoming_table_columns d : columns (incoming_table d) = incoming_columns.
Proof. unfold incoming_table. by destruct (incoming_undersized d). Qed.

Lemma outgoing_table_columns d : columns (outgoing_table d) = outgoing_columns.
Proof. unfold outgoing_table. by destruct (outgoing_undersized d). Qed.

Lemma sample_grid_rectangular n m v : rectangular (sample_grid n m v).
Proof.
  unfold rectangular, sample_grid. simpl. apply Forall_replicate.
  by rewrite length_replicate, length_map, length_seq.
Qed.

(** C1 (as amended): on a grid smaller than its bounds, each pipe
    extractor prints its warning and returns a new table with its column
    schema and no rows, without raising; [extract_location_data] checks no
    bounds, prints nothing and returns its 29 rows. *)
Theorem undersized_grid_tables (w : world) (l : loc) (d : DataFrame) :
  frames w !! l = Some d ->
  (length (rows d) < 70 \/ length (columns d) < 11 ->
   extract_incoming_pipes l w =
   (Ret (length (frames w)),
    mkWorld (frames w ++ [mkDataFrame incoming_columns []]) (files w) (dirs w)
      (stdout w ++ [incoming_warning]) (trace w)))
  /\ (length (rows d) < 85 \/ length (columns d) < 12 ->
      extract_outgoing_pipes l w =
      (Ret (length (frames w)),
       mkWorld (frames w ++ [mkDataFrame outgoing_columns []]) (files w) (dirs w)
         (stdout w ++ [outgoing_warning]) (trace w)))
  /\ (rectangular d ->
      exists t,
        extract_location_data l w =
        (Ret (length (frames w)),
         mkWorld (frames w ++ [t]) (files w) (dirs w) (stdout w) (trace w))
        /\ columns t = location_columns /\ length (rows t) = 29).
Proof.
  destruct w as [h fs ds out tr]. simpl. intros Hl. split; [|split].
  - intros H. eapply extract_incoming_small; [exact Hl | by apply undersized_incoming].
  - intros H. eapply extract_outgoing_small; [exact Hl | by apply undersized_outgoing].
  - intros Hd. exists (location_table d).
    by rewrite (extract_location_data_spec _ _ _ _ _ _ _ Hl Hd).
Qed.

(** C5: whatever the grid, every extractor returns a table whose columns
    are its fixed schema, in that order. *)
Theorem extractors_fixed_schema (w : world) (l : loc) (d : DataFrame) :
  frames w !! l = Some d -> rectangular d ->
  (exists l' w' t,
     extract_incoming_pipes l w = (Ret l', w') /\ frames w' !! l' = Some t /\
     columns t = incoming_columns)
  /\ (exists l' w' t,
        extract_outgoing_pipes l w = (Ret l', w') /\ frames w' !! l' = Some t /\
        columns t = outgoing_columns)
  /\ (exists l' w' t,
        extract_location_data l w = (Ret l', w') /\ frames w' !! l' = Some t /\
        columns t = location_columns).
Proof.
  destruct w as [h fs ds out tr]. simpl. intros Hl Hd. split; [|split].
  - destruct (extract_incoming_pipes_spec h fs ds out tr l d Hl Hd) as (pre & ->).
    do 3 eexists. split; [done|]. simpl. split; [apply lookup_snoc|].
    apply incoming_table_columns.
  - destruct (extract_outgoing_pipes_spec h fs ds out tr l d Hl Hd) as (pre & ->).
    do 3 eexists. split; [done|]. simpl. split; [apply lookup_snoc|].
    apply outgoing_table_columns.
  - rewrite (extract_location_data_spec _ _ _ _ _ _ _ Hl Hd).
    do 3 eexists. split; [done|]. simpl. split; [apply lookup_snoc|]. done.
Qed.

(** C9: no extractor changes the grid it is given, or any other table that
    existed before the call; the table it returns is a new object. *)
Theorem extractors_do_not_mutate (w : world) (l : loc) (d : DataFrame) :
  frames w !! l = Some d -> rectangular d ->
  (exists l' w', extract_incoming_pipes l w = (Ret l', w') /\
      only_allocates w w' l' /\ frames w' !! l = Some d)
  /\ (exists l' w', extract_outgoing_pipes l w = (Ret l', w') /\
      only_allocates w w' l' /\ frames w' !! l = Some d)
  /\ (exists l' w', extract_location_data l w = (Ret l', w') /\
      only_allocates w w' l' /\ frames w' !! l = Some d).
Proof.
  destruct w as [h fs ds out tr]. unfold only_allocates. simpl. intros Hl Hd.
  split; [|split].
  - destruct (extract_incoming_pipes_spec h fs ds out tr l d Hl Hd) as (pre & ->).
    do 2 eexists. split; [done|]. simpl. rewrite <- app_assoc.
    split; [|by apply lookup_app_l_Some].
    split; [by eexists|]. rewrite !length_app. simpl. split; [lia | done].
  - destruct (extract_outgoing_pipes_spec h fs ds out tr l d Hl Hd) as (pre & ->).
    do 2 eexists. split; [done|]. simpl. rewrite <- app_assoc.
    split; [|by apply lookup_app_l_Some].
    split; [by eexists|]. rewrite !length_app. simpl. split; [lia | done].
  - rewrite (extract_location_data_spec _ _ _ _ _ _ _ Hl Hd).
    do 2 eexists. split; [done|]. simpl.
    split; [|by apply lookup_app_l_Some].
    split; [by eexists|]. rewrite !length_app. simpl. split; [lia | done].
Qed.

(* ===================================================================== *)
(** * The location table                                                  *)
(* ===================================================================== *)

Lemma val_at_out_of_bounds d row col :
  out_of_bounds d (row, col) -> val_at d row col = "".
Proof.
  unfold out_of_bounds, val_at. simpl. intros [H|H].
  - apply Nat.ltb_ge in H. by rewrite H.
  - apply Nat.ltb_ge in H. rewrite H. by rewrite andb_false_r.
Qed.

Lemma range_at_out_of_bounds d row col end_col :
  rectangular d -> out_of_bounds d (row, col) -> range_at d row col end_col = "".
Proof.
  unfold out_of_bounds, range_at. simpl. intros Hd [H|H].
  - apply Nat.leb_le in H. by rewrite H.
  - destruct (Nat.leb_spec (length (rows d)) row) as [|Hr]; [done|].
    destruct (lookup_lt_is_Some_2 _ _ Hr) as [r Hrow].
    rewrite (nth_lookup_Some _ _ [] _ Hrow).
    pose proof (Forall_lookup_1 _ _ _ _ Hd Hrow) as Hlen. simpl in Hlen.
    assert (Hdrop : drop col r = []) by (apply drop_ge; lia).
    unfold slice, slice_from. rewrite Hdrop. destruct end_col; by rewrite ?take_nil.
Qed.

Lemma location_values_out_of_bounds d k srcs v :
  rectangular d ->
  location_sources !! k = Some srcs ->
  Forall (out_of_bounds d) srcs ->
  location_values d !! k = Some v ->
  v = "".
Proof.
  intros Hd Hs Hoob Hv. unfold location_sources, location_values in *.
  do 29 (destruct k as [|k];
         [ cbn [lookup list_lookup] in Hs, Hv;
           injection Hs as <-; injection Hv as <-;
           repeat match goal with
                  | H : Forall _ (_ :: _) |- _ => inversion H; subst; clear H
                  end;
           rewrite ?val_at_out_of_bounds, ?range_at_out_of_bounds by done;
           reflexivity
         | ]).
  done.
Qed.

Lemma location_table_row d k r :
  rows (location_table d) !! k = Some r ->
  exists label v,
    r = [label; v] /\ location_components !! k = Some label /\
    location_values d !! k = Some v.
Proof.
  unfold location_table. cbn [rows]. intros H.
  apply lookup_zip_with_Some in H as (label & v & -> & Hl & Hv). eauto.
Qed.

(** C10: for every grid, the empty one included, [extract_location_data]
    returns 29 (label, value) rows, the labels being the fixed sequence
    [location_components]; a value all of whose grid positions lie outside
    the grid is the empty string. *)
Theorem location_data_always_29_rows (w : world) (l : loc) (d : DataFrame) :
  frames w !! l = Some d -> rectangular d ->
  exists l' w' t,
    extract_location_data l w = (Ret l', w') /\ frames w' !! l' = Some t /\
    length (rows t) = 29 /\
    map (fun r => cell_of r 0) (rows t) = location_components /\
    Forall (fun r => length r = 2) (rows t) /\
    (forall k srcs r,
       location_sources !! k = Some srcs ->
       Forall (out_of_bounds d) srcs ->
       rows t !! k = Some r -> cell_of r 1 = "").
Proof.
  destruct w as [h fs ds out tr]. simpl. intros Hl Hd.
  rewrite (extract_location_data_spec _ _ _ _ _ _ _ Hl Hd).
  eexists (length h), _, (location_table d). split; [done|].
  simpl. split; [apply lookup_snoc|]. split; [done|]. split; [done|].
  split.
  - apply Forall_forall. intros r Hr. apply list_elem_of_lookup in Hr as [k Hk].
    by apply location_table_row in Hk as (label & v & -> & _).
  - intros k srcs r Hs Hoob Hr.
    apply location_table_row in Hr as (label & v & -> & _ & Hv).
    simpl. eapply location_values_out_of_bounds; eauto.
Qed.

(** The coordinate rows of the table. *)
Lemma location_table_coordinates d :
  rows (location_table d) !! 1 =
    Some ["Coordinates X"; fst (coordinates (val_at d 9 2))] /\
  rows (location_table d) !! 2 =
    Some ["Coordinates Y"; snd (coordinates (val_at d 9 2))].
Proof. done. Qed.

(** C3 (as amended): the coordinate pair is read off the trimmed text of
    the cell in row 10, column 3: X is the trimmed text before the first
    comma and Y the trimmed text between the first comma and the next one
    (or the end of the text); with exactly one comma this is the text cut
    at its first comma, both halves trimmed; without a comma both are
    empty; "123456, 654321" gives "123456" and "654321". *)
Theorem coordinates_first_two_fields (w : world) (l : loc) (d : DataFrame) :
  frames w !! l = Some d -> rectangular d ->
  let text := val_at d 9 2 in
  (exists l' w' t,
     extract_location_data l w = (Ret l', w') /\ frames w' !! l' = Some t /\
     rows t !! 1 = Some ["Coordinates X"; fst (first_two_fields text)] /\
     rows t !! 2 = Some ["Coordinates Y"; snd (first_two_fields text)])
  /\ (existsb (Ascii.eqb ",") (after_comma (list_ascii_of_string text)) = false ->
      first_two_fields text = split_first_comma text)
  /\ (Py.contains_char "," text = false -> first_two_fields text = ("", ""))
  /\ coordinates "123456, 654321" = ("123456", "654321")
  /\ coordinates "no-comma-text" = ("", "").
Proof.
  destruct w as [h fs ds out tr]. simpl. intros Hl Hd.
  split; [|split; [|split; [|split]]].
  - rewrite (extract_location_data_spec _ _ _ _ _ _ _ Hl Hd).
    eexists (length h), _, (location_table d). split; [done|].
    simpl. split; [apply lookup_snoc|].
    rewrite <- coordinates_first_two. apply location_table_coordinates.
  - intros H. rewrite <- coordinates_first_two. by apply coordinates_one_comma.
  - intros H. rewrite <- coordinates_first_two. by apply coordinates_no_comma.
  - reflexivity.
  - reflexivity.
Qed.

(* ===================================================================== *)
(** * The grids the raw extractor builds                                  *)
(* ===================================================================== *)

Lemma split_ws_go_tokens s cur :
  Forall (fun c => Py.is_space c = false) cur ->
  Forall (fun t => t <> [] /\ Forall (fun c => Py.is_space c = false) t)
         (Py.split_ws_go cur s).
Proof.
  revert cur. induction s as [|c s IH]; intros cur Hcur; simpl.
  - destruct cur as [|x cur]; [constructor|].
    constructor; [|constructor]. split.
    + simpl. by destruct (rev cur).
    + by apply Forall_rev.
  - destruct (Py.is_space c) eqn:Hc.
    + destruct cur as [|x cur]; [by apply IH|].
      constructor; [|by apply IH]. split.
      * simpl. by destruct (rev cur).
      * by apply Forall_rev.
    + apply IH. by constructor.
Qed.

Lemma no_space_trimmed (t : list ascii) :
  Forall (fun c => Py.is_space c = false) t -> trimmed t.
Proof.
  intros H. split.
  - by destruct H.
  - apply Forall_rev in H. by destruct H.
Qed.

Lemma split_ws_solid s : Forall solid (Py.split_ws s).
Proof.
  unfold Py.split_ws. apply Forall_map.
  eapply Forall_impl; [apply (split_ws_go_tokens _ []); constructor|].
  intros t [Hne Hns]. split.
  - by rewrite of_chars_nil.
  - unfold Py.strip. rewrite list_ascii_of_string_of_list_ascii.
    by rewrite strip_chars_id by (by apply no_space_trimmed).
Qed.

Lemma page_rows_solid pages acc data :
  Forall (Forall solid) acc ->
  page_rows pages acc = Ret data -> Forall (Forall solid) data.
Proof.
  revert acc. induction pages as [|[text|e] pages IH]; intros acc Hacc; simpl.
  - by intros [= <-].
  - destruct (Py.truthy text); [|by apply IH].
    apply IH. apply Forall_app. split; [done|].
    apply Forall_map, Forall_forall. intros line _. apply split_ws_solid.
  - done.
Qed.

Lemma fill_padded_row (x : list string) (k : nat) :
  map (default "") (map Some x ++ replicate k None) = x ++ replicate k "".
Proof.
  induction x as [|v x IH]; simpl.
  - induction k as [|k IH]; simpl; [done | by rewrite IH].
  - by rewrite IH.
Qed.

(** Every row of a raw grid is made of tokens followed by padding. *)
Lemma raw_table_rows_padded path f :
  Forall padded_tokens (rows (raw_table path f)).
Proof.
  unfold raw_table, raw_rows.
  destruct (open_pdf path f) as [pages|e]; [|constructor].
  destruct (page_rows pages []) as [[|r rs]|e] eqn:Hrows;
    [constructor | | constructor].
  apply page_rows_solid in Hrows; [|constructor].
  cbn [rows]. set (data := r :: rs) in *. clearbody data.
  unfold fillna_cells, frame_of_rows. rewrite map_map.
  apply Forall_map. eapply Forall_impl; [exact Hrows|].
  intros x Hx. cbv beta. rewrite fill_padded_row. by eexists _, _.
Qed.

(** In such a row an empty cell is followed by empty cells only. *)
Lemma padded_tokens_no_gap r i j :
  padded_tokens r -> i <= j ->
  Py.strip (cell_of r i) = "" -> Py.strip (cell_of r j) = "".
Proof.
  intros (toks & n & -> & Htoks) Hij Hi. unfold cell_of in *.
  destruct (decide (i < length toks)) as [Hlt|Hge].
  - rewrite app_nth1 in Hi by done.
    destruct (lookup_lt_is_Some_2 toks i Hlt) as [t Ht].
    rewrite (nth_lookup_Some _ _ "" _ Ht) in Hi.
    destruct (Forall_lookup_1 _ _ _ _ Htoks Ht) as [Hne Hst]. congruence.
  - rewrite app_nth2 by lia.
    assert (Hnth : forall k, nth k (replicate n "") "" = "").
    { clear. induction n as [|n IH]; intros [|k]; simpl; auto. }
    by rewrite Hnth.
Qed.

Lemma raw_table_pipe_size path f src :
  src ∈ rows (raw_table path f) ->
  pipe_size_field (cell_of src 3) (cell_of src 4) (cell_of src 5) =
  spec_pipe_size (cell_of src 3) (cell_of src 4) (cell_of src 5).
Proof.
  intros Hsrc. apply pipe_size_field_spec. intros (_ & H4 & H5).
  apply H5. eapply (padded_tokens_no_gap src 4 5); [|lia|done].
  by apply (proj1 (Forall_forall _ _) (raw_table_rows_padded path f)).
Qed.

(* ===================================================================== *)
(** * The pipe-size column                                                *)
(* ===================================================================== *)

Lemma lookup_map {A B} (f : A -> B) (l : list A) (i : nat) :
  map f l !! i = f <$> (l !! i).
Proof. exact (list_lookup_fmap f l i). Qed.

Lemma cell_of_take (r : list string) (n j : nat) :
  j < n -> cell_of (take n r) j = cell_of r j.
Proof.
  unfold cell_of. revert n j. induction r as [|x r IH]; intros n j Hj.
  - by rewrite take_nil.
  - destruct n as [|n]; [lia|]. destruct j as [|j]; [done|].
    simpl. apply IH. lia.
Qed.

Lemma cell_of_slice0 (r : list string) (n j : nat) :
  j < n -> cell_of (slice 0 n r) j = cell_of r j.
Proof. intros H. unfold slice. rewrite drop_0, Nat.sub_0_r. by apply cell_of_take. Qed.

(** A row of a block is a row of the grid. *)
Lemma block_row_source (d : DataFrame) (r0 r1 n i : nat) (f : list string -> list string) r :
  map f (map (slice 0 n) (slice r0 r1 (rows d))) !! i = Some r ->
  exists src, rows d !! (r0 + i) = Some src /\ r = f (slice 0 n src).
Proof.
  rewrite map_map, lookup_map. unfold slice at 2.
  destruct (take (r1 - r0) (drop r0 (rows d)) !! i) as [src|] eqn:Hs; [|done].
  intros [= <-]. exists src. split; [|done].
  apply lookup_take_Some in Hs as [Hs _]. by rewrite lookup_drop in Hs.
Qed.

Lemma pipe_size_cell_intro a b c : pipe_size_cell a b c (pipe_size_field a b c).
Proof.
  split; [done|]. split; [apply pipe_size_field_trimmed|].
  apply pipe_size_field_spec.
Qed.

(** C2 (as amended): in both pipe tables the "PIPE SIZE (mm)" cell of a row
    is made of columns 4 to 6 of its source row: each is trimmed, they are
    joined by single spaces and the result is trimmed.  It has no leading
    or trailing white space, and unless an empty second component stands
    between a non-empty first and third, it is the non-empty components
    separated by single spaces, which is always so on a grid built by the
    raw extractor, where empty cells are padding at the end of a row;
    "300", "x", "450" give "300 x 450" and "", "mm", "" give "mm". *)
Theorem pipe_size_of_components (w : world) (l : loc) (d : DataFrame) :
  frames w !! l = Some d -> rectangular d ->
  (70 <= length (rows d) -> 11 <= length (columns d) ->
   exists l' w' t,
     extract_incoming_pipes l w = (Ret l', w') /\ frames w' !! l' = Some t /\
     length (rows t) = 7 /\
     forall i r, rows t !! i = Some r ->
       exists src, rows d !! (63 + i) = Some src /\
         pipe_size_cell (cell_of src 3) (cell_of src 4) (cell_of src 5) (cell_of r 3))
  /\ (85 <= length (rows d) -> 12 <= length (columns d) ->
      exists l' w' t,
        extract_outgoing_pipes l w = (Ret l', w') /\ frames w' !! l' = Some t /\
        length (rows t) = 2 /\
        forall i r, rows t !! i = Some r ->
          exists src, rows d !! (83 + i) = Some src /\
            pipe_size_cell (cell_of src 3) (cell_of src 4) (cell_of src 5) (cell_of r 3))
  /\ (forall path f src,
        src ∈ rows (raw_table path f) ->
        pipe_size_field (cell_of src 3) (cell_of src 4) (cell_of src 5) =
        spec_pipe_size (cell_of src 3) (cell_of src 4) (cell_of src 5))
  /\ pipe_size_field "300" "x" "450" = "300 x 450"
  /\ pipe_size_field "" "mm" "" = "mm".
Proof.
  destruct w as [h fs ds out tr]. simpl. intros Hl Hd.
  split; [|split; [|split; [apply raw_table_pipe_size | split; reflexivity]]].
  - intros Hr Hc.
    assert (Hs : incoming_undersized d = false).
    { unfold incoming_undersized, is_empty.
      destruct (Nat.ltb_spec (length (rows d)) 70); [lia|].
      destruct (Nat.ltb_spec (length (columns d)) 11); [lia|].
      destruct (length (rows d)); [lia|]. by destruct (length (columns d)); [lia|]. }
    rewrite (extract_incoming_big _ _ _ _ _ _ _ Hl Hd Hs).
    eexists _, _, (incoming_table d). split; [done|]. simpl.
    split; [by rewrite lookup_app_plus|].
    unfold incoming_table. rewrite Hs. cbn [rows]. split.
    + rewrite !length_map, length_slice; lia.
    + intros i r Hi. apply block_row_source in Hi as (src & Hsrc & ->).
      exists src. split; [done|]. unfold incoming_row, cell_of at 4. cbn [nth].
      rewrite !cell_of_slice0 by lia. apply pipe_size_cell_intro.
  - intros Hr Hc.
    assert (Hs : outgoing_undersized d = false).
    { unfold outgoing_undersized, is_empty.
      destruct (Nat.ltb_spec (length (rows d)) 85); [lia|].
      destruct (Nat.ltb_spec (length (columns d)) 12); [lia|].
      destruct (length (rows d)); [lia|]. by destruct (length (columns d)); [lia|]. }
    rewrite (extract_outgoing_big _ _ _ _ _ _ _ Hl Hd Hs).
    eexists _, _, (outgoing_table d). split; [done|]. simpl.
    split; [by rewrite lookup_app_plus|].
    unfold outgoing_table. rewrite Hs. cbn [rows]. split.
    + rewrite !length_map, length_slice; lia.
    + intros i r Hi. apply block_row_source in Hi as (src & Hsrc & ->).
      exists src. split; [done|]. unfold outgoing_row, cell_of at 4. cbn [nth].
      rewrite !cell_of_slice0 by lia. apply pipe_size_cell_intro.
Qed.

(* ===================================================================== *)
(** * The per-file pipeline and the batch: skipping, failing, repeating   *)
(* ===================================================================== *)

Section Runs.

Variables (E : env).

Lemma os_makedirs_spec path h fs ds out tr :
  os_makedirs E path (mkWorld h fs ds out tr) =
  match makedirs_error E fs path with
  | Some e => (Raise e, mkWorld h fs ds out (tr ++ [EvMakedirs path]))
  | None => (Ret tt, mkWorld h fs (made_dirs path ∪ ds) out (tr ++ [EvMakedirs path]))
  end.
Proof.
  unfold os_makedirs, bind, log_event. simpl. by destruct (makedirs_error E fs path).
Qed.



Lemma yields_empty_grid_raw path w :
  yields_empty_grid path w -> is_empty (raw_table path (files w !! path)) = true.
Proof.
  destruct w as [h fs ds out tr]. cbn [files]. intros (l & w1 & d & Hrun & Hl & Hd).
  rewrite extract_raw_data_spec in Hrun. injection Hrun as <- <-.
  simpl in Hl. rewrite lookup_snoc in Hl. by injection Hl as ->.
Qed.

Lemma raw_table_yields_empty_grid path w :
  is_empty (raw_table path (files w !! path)) = true -> yields_empty_grid path w.
Proof.
  destruct w as [h fs ds out tr]. cbn [files]. intros Hemp.
  eexists _, _, _. split; [apply extract_raw_data_spec|].
  split; [apply lookup_snoc | exact Hemp].
Qed.

(** A document that cannot be read yields an empty grid, and so does one
    without text on any page. *)
Lemma unreadable_pdf_yields_empty_grid path w e :
  open_pdf path (files w !! path) = Raise e -> yields_empty_grid path w.
Proof.
  intros H. apply raw_table_yields_empty_grid. unfold raw_table, raw_rows.
  by rewrite H.
Qed.

Lemma textless_pdf_yields_empty_grid path w pages :
  files w !! path = Some (FilePdf pages) ->
  Forall (fun p => p = PageText "") pages ->
  yields_empty_grid path w.
Proof.
  intros Hf Hpages. apply raw_table_yields_empty_grid.
  unfold raw_table, raw_rows. rewrite Hf. cbn [open_pdf].
  assert (Hrows : page_rows pages [] = Ret []).
  { clear Hf. induction Hpages as [|p pages -> _ IH]; [done | exact IH]. }
  by rewrite Hrows.
Qed.

(** With an empty grid the pipeline stops after the raw extractor. *)
Lemma process_pdf_empty path output_excel h fs ds out tr :
  is_empty (raw_table path (fs !! path)) = true ->
  process_pdf E path output_excel (mkWorld h fs ds out tr) =
  (Ret tt,
   mkWorld (h ++ [raw_table path (fs !! path)]) fs ds
     ((out ++ raw_messages path (fs !! path))
        ++ ["Skipping " +:+ path +:+ ": No raw data extracted."])
     (tr ++ [EvOpenPdf path])).
Proof.
  intros Hemp. unfold process_pdf.
  mstep ltac:(apply extract_raw_data_spec).
  mstep ltac:(apply df_empty_spec, lookup_snoc).
  rewrite Hemp. apply print_spec.
Qed.

(** Without a node reference at its position the pipeline raises before
    it writes anything. *)
Lemma process_pdf_missing_node path output_excel w :
  is_empty (raw_table path (files w !! path)) = false ->
  node_reference_cell (raw_table path (files w !! path)) = "" ->
  exists w',
    process_pdf E path output_excel w =
    (Raise (fallback_error path (files w !! path)), w') /\ files w' = files w.
Proof.
  destruct w as [h fs ds out tr]. cbn [files]. intros Hemp Hnode.
  destruct (process_pdf_spec E path output_excel h fs ds out tr)
    as (new & msgs & evs & Hrun & _).
  unfold pdf_outcome in Hrun. rewrite Hemp, Hnode in Hrun.
  cbn in Hrun. eexists. split; [exact Hrun|]. done.
Qed.

(** The batch, once the output directory is there. *)
Lemma run_processing_batch_spec input_folder output_folder h fs ds out tr :
  makedirs_error E fs output_folder = None ->
  let ds1 := made_dirs output_folder ∪ ds in
  let w1 := mkWorld h fs ds1 out (tr ++ [EvMakedirs output_folder]) in
  let bo := batch_outcome E ds1 output_folder (walk_files (os_walk E input_folder)) fs [] in
  exists new msgs evs,
    let w' := mkWorld (h ++ new) (snd bo) ds1 (out ++ msgs)
                ((tr ++ [EvMakedirs output_folder]) ++ evs) in
    run_processing_batch E input_folder output_folder (mkWorld h fs ds out tr)
    = (Ret (fst bo), w')
    /\ Forall is_file_event evs
    /\ runs_batch E output_folder (walk_files (os_walk E input_folder)) w1 [] (fst bo) w'.
Proof.
  intros Hnone ds1 w1 bo.
  destruct (batch_walk_spec E output_folder (os_walk E input_folder) [] h fs
              ds1 out (tr ++ [EvMakedirs output_folder]))
    as (new & msgs & evs & Hrun & Hevs & Hrel).
  exists new, msgs, evs. split; [|done].
  unfold run_processing_batch.
  erewrite bind_ret_eq; [exact Hrun|]. rewrite os_makedirs_spec. by rewrite Hnone.
Qed.

(** An error of [os.makedirs] ends the batch before any file is taken. *)
Lemma run_processing_batch_blocked input_folder output_folder h fs ds out tr e :
  makedirs_error E fs output_folder = Some e ->
  run_processing_batch E input_folder output_folder (mkWorld h fs ds out tr)
  = (Raise e, mkWorld h fs ds out (tr ++ [EvMakedirs output_folder])).
Proof.
  intros Hsome. unfold run_processing_batch.
  erewrite bind_raise_eq; [reflexivity|]. rewrite os_makedirs_spec. by rewrite Hsome.
Qed.

(** C6: when the raw extractor finds no grid in a PDF, [process_pdf]
    returns without saving a workbook, and a batch does not list the
    file as failed. *)
Theorem empty_grid_is_skipped (w : world) (path output_excel : string) :
  yields_empty_grid path w ->
  (exists w',
     process_pdf E path output_excel w = (Ret tt, w') /\
     files w' = files w /\ trace w' = trace w ++ [EvOpenPdf path])
  /\ (forall input_folder output_folder failed w',
        run_processing_batch E input_folder output_folder w = (Ret failed, w') ->
        path ∉ failed).
Proof.
  intros Hemp. apply yields_empty_grid_raw in Hemp.
  destruct w as [h fs ds out tr]. cbn [files trace] in *. split.
  - rewrite (process_pdf_empty _ _ _ _ _ _ _ Hemp). by eexists.
  - intros input_folder output_folder failed w' Hrun Hin.
    destruct (makedirs_error E fs output_folder) as [e|] eqn:Hout.
    { by rewrite (run_processing_batch_blocked _ _ _ _ _ _ _ _ Hout) in Hrun. }
    destruct (run_processing_batch_spec input_folder output_folder h fs ds out tr Hout)
      as (new & msgs & evs & Hspec & _).
    rewrite Hspec in Hrun. injection Hrun as <- _.
    destruct (batch_outcome_stable E (made_dirs output_folder ∪ ds) output_folder
                (walk_files (os_walk E input_folder)) fs [])
      as (failed' & T & HT & Hstable & Hfailed).
    assert (Hempty : xlsx_named output_folder (∅ : gmap string file)).
    { intros k [v Hk]. by rewrite lookup_empty in Hk. }
    specialize (Hstable ∅ Hempty). rewrite (left_id ∅ (∪)) in Hstable.
    rewrite Hstable in Hin. cbn [fst] in Hin.
    destruct (Hfailed path Hin) as [Hnil|(opening & o & e & Hraise)].
    + by apply elem_of_nil in Hnil.
    + unfold pdf_outcome in Hraise. by rewrite Hemp in Hraise.
Qed.


(** C8: a second run of the batch over the same input listing, into the
    same output directory, returns what the first run returned and leaves
    the file system as the first run left it: the same workbooks under the
    same names, with the same cells. *)
Theorem batch_twice_same_outputs (input_folder output_folder : string) (w : world) :
  let run := run_processing_batch E input_folder output_folder in
  fst (run (snd (run w))) = fst (run w) /\
  files (snd (run (snd (run w)))) = files (snd (run w)).
Proof.
  destruct w as [h fs ds out tr]. cbn zeta.
  destruct (makedirs_error E fs output_folder) as [e|] eqn:Hout.
  - rewrite (run_processing_batch_blocked _ _ _ _ _ _ _ _ Hout). cbn [fst snd].
    by rewrite (run_processing_batch_blocked _ _ _ _ _ _ _ _ Hout).
  - destruct (run_processing_batch_spec input_folder output_folder h fs ds out tr Hout)
      as (new & msgs & evs & -> & _).
    cbn [fst snd files].
    set (ds1 := made_dirs output_folder ∪ ds).
    destruct (batch_outcome_stable E ds1 output_folder
                (walk_files (os_walk E input_folder)) fs [])
      as (failed' & T & HT & Hstable & _).
    assert (Hempty : xlsx_named output_folder (∅ : gmap string file)).
    { intros k [v Hk]. by rewrite lookup_empty in Hk. }
    pose proof (Hstable ∅ Hempty) as H1. rewrite (left_id ∅ (∪)) in H1.
    pose proof (Hstable T HT) as H2.
    rewrite (assoc_L (∪)), (idemp_L (∪)) in H2.
    rewrite H1. cbn [fst snd].
    assert (Hout2 : makedirs_error E (T ∪ fs) output_folder = None).
    { by rewrite makedirs_error_stable. }
    destruct (run_processing_batch_spec input_folder output_folder (h ++ new)
                (T ∪ fs) ds1 (out ++ msgs)
                ((tr ++ [EvMakedirs output_folder]) ++ evs) Hout2)
      as (new2 & msgs2 & evs2 & -> & _).
    cbn [fst snd files].
    replace (made_dirs output_folder ∪ ds1) with ds1
      by (unfold ds1; by rewrite (assoc_L (∪)), (idemp_L (∪))).
    by rewrite H2.
Qed.

End Runs.

(* ===================================================================== *)
(** * The statements at sample inputs                                     *)
(* ===================================================================== *)

Lemma small_grid_rectangular : rectangular small_grid.
Proof. unfold rectangular. simpl. repeat constructor. Defined.

Lemma full_grid_rectangular : rectangular full_grid.
Proof. unfold rectangular. simpl. repeat constructor. Defined.

Lemma empty_grid_rectangular : rectangular empty_grid.
Proof. constructor. Defined.

(** C1, at the empty grid: [extract_location_data] returns its 29 rows
    and prints nothing; it does not return a table with zero rows, and
    there is no warning. *)
Lemma location_data_on_empty_grid :
  exists l w' t,
    extract_location_data 0 (sample_world empty_grid) = (Ret l, w') /\
    frames w' !! l = Some t /\
    length (rows t) = 29 /\ rows t <> [] /\
    stdout w' = stdout (sample_world empty_grid).
Proof.
  eexists _, _, _. split; [vm_compute; reflexivity|].
  split; [vm_compute; reflexivity|]. split; [reflexivity|].
  split; [discriminate | reflexivity].
Qed.

(** C1 on a grid of 2 rows and 3 columns. *)
Lemma undersized_grid_tables_witness :
  frames (sample_world small_grid) !! 0 = Some small_grid /\
  (length (rows small_grid) < 70 \/ length (columns small_grid) < 11) /\
  (length (rows small_grid) < 85 \/ length (columns small_grid) < 12) /\
  rectangular small_grid /\
  fst (extract_incoming_pipes 0 (sample_world small_grid)) = Ret 1 /\
  fst (extract_outgoing_pipes 0 (sample_world small_grid)) = Ret 1 /\
  fst (extract_location_data 0 (sample_world small_grid)) = Ret 1.
Proof.
  assert (Hl : frames (sample_world small_grid) !! 0 = Some small_grid)
    by reflexivity.
  assert (H70 : length (rows small_grid) < 70 \/ length (columns small_grid) < 11)
    by (left; simpl; lia).
  assert (H85 : length (rows small_grid) < 85 \/ length (columns small_grid) < 12)
    by (left; simpl; lia).
  destruct (undersized_grid_tables (sample_world small_grid) 0 small_grid Hl)
    as (Hin & Hout & Hloc).
  destruct (Hloc small_grid_rectangular) as (t & Ht & _).
  rewrite (Hin H70), (Hout H85), Ht.
  repeat split; try assumption. apply small_grid_rectangular.
Defined.

(** C2, at a grid whose size columns hold "300", "" and "450": the cell
    is "300  450", with two spaces, and not the non-empty components
    separated by single spaces. *)
Lemma pipe_size_empty_middle_component :
  exists src l w' t r,
    rows gap_grid !! 63 = Some src /\
    (cell_of src 3, cell_of src 4, cell_of src 5) = ("300", "", "450") /\
    extract_incoming_pipes 0 (sample_world gap_grid) = (Ret l, w') /\
    frames w' !! l = Some t /\ rows t !! 0 = Some r /\
    cell_of r 3 = "300  450" /\
    cell_of r 3 <> spec_pipe_size "300" "" "450".
Proof.
  eexists _, _, _, _, _. split; [vm_compute; reflexivity|].
  split; [vm_compute; reflexivity|]. split; [vm_compute; reflexivity|].
  split; [vm_compute; reflexivity|]. split; [vm_compute; reflexivity|].
  split; [vm_compute; reflexivity|]. vm_compute. discriminate.
Qed.

(** C2 on a grid of 97 rows and 12 columns. *)
Lemma pipe_size_of_components_witness :
  frames (sample_world full_grid) !! 0 = Some full_grid /\
  rectangular full_grid /\
  70 <= length (rows full_grid) /\ 11 <= length (columns full_grid) /\
  85 <= length (rows full_grid) /\ 12 <= length (columns full_grid) /\
  (exists l' w' t,
     extract_incoming_pipes 0 (sample_world full_grid) = (Ret l', w') /\
     frames w' !! l' = Some t /\ length (rows t) = 7) /\
  (exists l' w' t,
     extract_outgoing_pipes 0 (sample_world full_grid) = (Ret l', w') /\
     frames w' !! l' = Some t /\ length (rows t) = 2).
Proof.
  assert (Hl : frames (sample_world full_grid) !! 0 = Some full_grid)
    by reflexivity.
  assert (H70 : 70 <= length (rows full_grid)) by (simpl; lia).
  assert (H11 : 11 <= length (columns full_grid)) by (simpl; lia).
  assert (H85 : 85 <= length (rows full_grid)) by (simpl; lia).
  assert (H12 : 12 <= length (columns full_grid)) by (simpl; lia).
  destruct (pipe_size_of_components (sample_world full_grid) 0 full_grid Hl
              full_grid_rectangular) as (Hin & Hout & _).
  destruct (Hin H70 H11) as (l1 & w1 & t1 & Hr1 & Hf1 & Hn1 & _).
  destruct (Hout H85 H12) as (l2 & w2 & t2 & Hr2 & Hf2 & Hn2 & _).
  repeat split; try assumption; try apply full_grid_rectangular.
  - exists l1, w1, t1. auto.
  - exists l2, w2, t2. auto.
Defined.

(** C3, at a grid with "1,2,3" in the coordinate cell: Coordinates Y is
    "2", not the trimmed text after the first comma, "2,3". *)
Lemma coordinates_with_two_commas :
  exists l w' t,
    val_at comma_grid 9 2 = "1,2,3" /\
    extract_location_data 0 (sample_world comma_grid) = (Ret l, w') /\
    frames w' !! l = Some t /\
    rows t !! 2 = Some ["Coordinates Y"; "2"] /\
    snd (split_first_comma "1,2,3") = "2,3" /\
    rows t !! 2 <> Some ["Coordinates Y"; snd (split_first_comma "1,2,3")].
Proof.
  eexists _, _, _. split; [vm_compute; reflexivity|].
  split; [vm_compute; reflexivity|].
  split; [vm_compute; reflexivity|]. split; [vm_compute; reflexivity|].
  split; [vm_compute; reflexivity|]. vm_compute. discriminate.
Qed.

(** C3 on a grid of 97 rows and 12 columns. *)
Lemma coordinates_first_two_fields_witness :
  frames (sample_world full_grid) !! 0 = Some full_grid /\
  rectangular full_grid /\
  exists l' w' t,
    extract_location_data 0 (sample_world full_grid) = (Ret l', w') /\
    frames w' !! l' = Some t /\
    rows t !! 1 = Some ["Coordinates X"; fst (first_two_fields (val_at full_grid 9 2))] /\
    rows t !! 2 = Some ["Coordinates Y"; snd (first_two_fields (val_at full_grid 9 2))].
Proof.
  assert (Hl : frames (sample_world full_grid) !! 0 = Some full_grid)
    by reflexivity.
  destruct (coordinates_first_two_fields (sample_world full_grid) 0 full_grid Hl
              full_grid_rectangular) as (Hrows & _).
  repeat split; try assumption. apply full_grid_rectangular.
Defined.

(** C4: a PDF whose grid has no cell in row 9, column 3.  Its first page
    reads "... NODE REFERENCE MH1234", and the pattern would find
    "MH1234"; but the module never imports [re], so the look-up raises
    [NameError], no workbook is written, and the batch lists the file as
    failed. *)
Theorem process_pdf_missing_node_raises :
  re_search_node_reference "MANHOLE SURVEY NODE REFERENCE MH1234" = Some "MH1234" /\
  (exists w',
     process_pdf sample_env "in/a.pdf" "out/a.xlsx" pdf_world
     = (Raise (NameError "re"), w') /\ files w' = files pdf_world) /\
  fst (run_processing_batch sample_env "in" "out" pdf_world) = Ret ["in/a.pdf"].
Proof.
  split; [vm_compute; reflexivity|]. split.
  - eexists. split; [vm_compute; reflexivity|]. vm_compute. reflexivity.
  - vm_compute. reflexivity.
Qed.

(** C5 on a grid of 97 rows and 12 columns. *)
Lemma extractors_fixed_schema_witness :
  frames (sample_world full_grid) !! 0 = Some full_grid /\
  rectangular full_grid /\
  (exists l' w' t,
     extract_incoming_pipes 0 (sample_world full_grid) = (Ret l', w') /\
     frames w' !! l' = Some t /\ columns t = incoming_columns) /\
  (exists l' w' t,
     extract_outgoing_pipes 0 (sample_world full_grid) = (Ret l', w') /\
     frames w' !! l' = Some t /\ columns t = outgoing_columns) /\
  (exists l' w' t,
     extract_location_data 0 (sample_world full_grid) = (Ret l', w') /\
     frames w' !! l' = Some t /\ columns t = location_columns).
Proof.
  assert (Hl : frames (sample_world full_grid) !! 0 = Some full_grid)
    by reflexivity.
  split; [exact Hl|]. split; [apply full_grid_rectangular|].
  exact (extractors_fixed_schema (sample_world full_grid) 0 full_grid Hl
           full_grid_rectangular).
Defined.

(** A PDF whose only page has no text yields an empty grid. *)
Lemma blank_pdf_yields_empty_grid : yields_empty_grid "in/a.pdf" blank_world.
Proof.
  eexists _, _, _. split; [vm_compute; reflexivity|].
  split; [vm_compute; reflexivity|]. reflexivity.
Defined.

(** C6 on that PDF. *)
Lemma empty_grid_is_skipped_witness :
  yields_empty_grid "in/a.pdf" blank_world /\
  (exists w',
     process_pdf sample_env "in/a.pdf" "out/a.xlsx" blank_world = (Ret tt, w') /\
     files w' = files blank_world /\
     trace w' = trace blank_world ++ [EvOpenPdf "in/a.pdf"]) /\
  (forall failed w',
     run_processing_batch sample_env "in" "out" blank_world = (Ret failed, w') ->
     "in/a.pdf" ∉ failed).
Proof.
  split; [apply blank_pdf_yields_empty_grid|].
  destruct (empty_grid_is_skipped sample_env blank_world "in/a.pdf" "out/a.xlsx"
              blank_pdf_yields_empty_grid) as (Hskip & Hbatch).
  split; [exact Hskip|]. intros failed w'. apply Hbatch.
Defined.



(** C9 on a grid of 97 rows and 12 columns. *)
Lemma extractors_do_not_mutate_witness :
  frames (sample_world full_grid) !! 0 = Some full_grid /\
  rectangular full_grid /\
  (exists l' w', extract_incoming_pipes 0 (sample_world full_grid) = (Ret l', w') /\
      only_allocates (sample_world full_grid) w' l' /\ frames w' !! 0 = Some full_grid) /\
  (exists l' w', extract_outgoing_pipes 0 (sample_world full_grid) = (Ret l', w') /\
      only_allocates (sample_world full_grid) w' l' /\ frames w' !! 0 = Some full_grid) /\
  (exists l' w', extract_location_data 0 (sample_world full_grid) = (Ret l', w') /\
      only_allocates (sample_world full_grid) w' l' /\ frames w' !! 0 = Some full_grid).
Proof.
  assert (Hl : frames (sample_world full_grid) !! 0 = Some full_grid)
    by reflexivity.
  split; [exact Hl|]. split; [apply full_grid_rectangular|].
  exact (extractors_do_not_mutate (sample_world full_grid) 0 full_grid Hl
           full_grid_rectangular).
Defined.

(** C10 on the empty grid. *)
Lemma location_data_always_29_rows_witness :
  frames (sample_world empty_grid) !! 0 = Some empty_grid /\
  rectangular empty_grid /\
  exists l' w' t,
    extract_location_data 0 (sample_world empty_grid) = (Ret l', w') /\
    frames w' !! l' = Some t /\
    length (rows t) = 29 /\
    map (fun r => cell_of r 0) (rows t) = location_components.
Proof.
  assert (Hl : frames (sample_world empty_grid) !! 0 = Some empty_grid)
    by reflexivity.
  split; [exact Hl|]. split; [apply empty_grid_rectangular|].
  destruct (location_data_always_29_rows (sample_world empty_grid) 0 empty_grid Hl
              empty_grid_rectangular) as (l' & w' & t & Hrun & Hf & Hn & Hlab & _).
  exists l', w', t. auto.
Defined.

(* ===================================================================== *)
(** * The raw extractor                                                   *)
(* ===================================================================== *)

Lemma raw_table_columns path f :
  columns (raw_table path f) = col_labels (length (columns (raw_table path f))).
Proof.
  unfold raw_table. destruct (raw_rows path f) as [[|r rs]|e]; try done.
  cbn [columns]. unfold col_labels. by rewrite length_map, length_seq.
Qed.

(** X1: the raw extractor never raises, whatever is at the path; it changes no
    file and no table, allocates exactly one table, and that table is
    rectangular with the labels [Col1], ..., [Coln]. *)
Theorem raw_extractor_total (path : string) (w : world) :
  exists d msgs,
    extract_raw_data path w =
    (Ret (length (frames w)),
     mkWorld (frames w ++ [d]) (files w) (dirs w) (stdout w ++ msgs)
       (trace w ++ [EvOpenPdf path]))
    /\ rectangular d
    /\ columns d = col_labels (length (columns d)).
Proof.
  destruct w as [h fs ds out tr]. cbn [frames files dirs stdout trace].
  exists (raw_table path (fs !! path)), (raw_messages path (fs !! path)).
  split; [apply extract_raw_data_spec|].
  split; [apply raw_table_rectangular | apply raw_table_columns].
Qed.

(** X2: every row of the raw grid is the tokens of a line followed by empty
    strings: the tokens are not empty and hold no white space at either
    end, and no empty cell comes before a token. *)
Theorem raw_rows_are_padded_tokens (path : string) (w : world) :
  exists l w' d,
    extract_raw_data path w = (Ret l, w') /\ frames w' !! l = Some d /\
    Forall padded_tokens (rows d).
Proof.
  destruct w as [h fs ds out tr]. rewrite extract_raw_data_spec.
  eexists _, _, _. split; [done|]. cbn [frames].
  split; [apply lookup_snoc | apply raw_table_rows_padded].
Qed.

Lemma page_rows_texts texts acc :
  page_rows (map PageText texts) acc = Ret (acc ++ text_rows texts).
Proof.
  revert acc. induction texts as [|text texts IH]; intros acc; simpl.
  - by rewrite app_nil_r.
  - unfold text_rows. simpl. fold (text_rows texts). rewrite app_assoc.
    destruct (Py.truthy text) eqn:Ht; [apply IH|].
    assert (text = "") as -> by (by destruct text).
    rewrite IH. by rewrite app_nil_r.
Qed.

Lemma filter_padded (toks : list string) (n : nat) :
  Forall solid toks ->
  List.filter Py.truthy (toks ++ replicate n "") = toks.
Proof.
  intros H. rewrite List.filter_app.
  assert (H1 : List.filter Py.truthy toks = toks).
  { induction H as [|t toks [Hne _] _ IH]; simpl; [done|].
    destruct t; [done|]. simpl. by rewrite IH. }
  assert (H2 : List.filter Py.truthy (replicate n "") = []).
  { induction n as [|n IH]; simpl; done. }
  by rewrite H1, H2, app_nil_r.
Qed.

Lemma text_rows_solid texts : Forall (Forall solid) (text_rows texts).
Proof.
  apply (page_rows_solid (map PageText texts) []); [constructor|].
  by rewrite page_rows_texts.
Qed.

Lemma raw_table_texts path texts :
  map (List.filter Py.truthy) (rows (raw_table path (Some (FilePdf (map PageText texts)))))
  = text_rows texts
  /\ length (columns (raw_table path (Some (FilePdf (map PageText texts)))))
     = max_list (map length (text_rows texts)).
Proof.
  unfold raw_table, raw_rows. cbn [open_pdf]. rewrite page_rows_texts.
  rewrite app_nil_l. pose proof (text_rows_solid texts) as Hs.
  destruct (text_rows texts) as [|r rs] eqn:Hrows; [done|].
  cbn [rows columns]. split; [|by rewrite length_map, length_seq].
  set (data := r :: rs) in *. clearbody data.
  unfold fillna_cells, frame_of_rows. rewrite !map_map.
  generalize (map (fun i => "Col" +:+ Py.str_of_nat (i + 1))
                (seq 0 (max_list (map length data)))).
  intros cols. clear Hrows.
  induction Hs as [|x data Hx _ IH]; [done|]. cbn [map].
  rewrite fill_padded_row, (filter_padded _ _ Hx). by f_equal.
Qed.

(** X3: padding loses nothing: for a document all of whose pages give text, the
    grid has one row per line, in page and line order; the non-empty cells
    of a row are the tokens of its line, and the number of columns is the
    largest number of tokens on a line. *)
Theorem raw_grid_keeps_tokens (path : string) (texts : list string) (w : world) :
  files w !! path = Some (FilePdf (map PageText texts)) ->
  exists l w' d,
    extract_raw_data path w = (Ret l, w') /\ frames w' !! l = Some d /\
    map (List.filter Py.truthy) (rows d) = text_rows texts /\
    length (rows d) = length (text_rows texts) /\
    length (columns d) = max_list (map length (text_rows texts)).
Proof.
  destruct w as [h fs ds out tr]. cbn [files]. intros Hf.
  rewrite extract_raw_data_spec, Hf.
  destruct (raw_table_texts path texts) as [Hrows Hcols].
  eexists _, _, _. split; [done|]. cbn [frames].
  split; [apply lookup_snoc|]. split; [done|]. split; [|done].
  by rewrite <- Hrows, length_map.
Qed.



(** X5: the grid of a readable document is empty exactly when no line of it
    has a token: a document of blank lines is skipped like one without
    text. *)
Theorem raw_grid_empty_iff_no_token (path : string) (texts : list string) (w : world) :
  files w !! path = Some (FilePdf (map PageText texts)) ->
  yields_empty_grid path w <-> concat (text_rows texts) = [].
Proof.
  intros Hf. split.
  - intros H. apply yields_empty_grid_raw in H. rewrite Hf in H.
    destruct (raw_table_texts path texts) as [Hrows Hcols].
    unfold is_empty in H. apply orb_true_iff in H as [H|H]; apply Nat.eqb_eq in H.
    + apply length_zero_iff_nil in H. rewrite H in Hrows. by rewrite <- Hrows.
    + rewrite Hcols in H. clear -H.
      induction (text_rows texts) as [|r rs IH]; [done|]. simpl in *.
      assert (length r = 0) by lia. assert (max_list (map length rs) = 0) by lia.
      destruct r; [|done]. simpl. by apply IH.
  - intros H. apply raw_table_yields_empty_grid. rewrite Hf.
    destruct (raw_table_texts path texts) as [Hrows Hcols].
    unfold is_empty. rewrite Hcols.
    assert (max_list (map length (text_rows texts)) = 0) as ->.
    { clear -H. induction (text_rows texts) as [|r rs IH]; [done|]. simpl in *.
      apply app_eq_nil in H as [-> H]. simpl. by apply IH. }
    by rewrite orb_true_r.
Qed.

(* ===================================================================== *)
(** * The tables of the field extractors                                  *)
(* ===================================================================== *)

Lemma not_undersized_incoming d :
  70 <= length (rows d) -> 11 <= length (columns d) -> incoming_undersized d = false.
Proof.
  intros Hr Hc. unfold incoming_undersized, is_empty.
  destruct (Nat.ltb_spec (length (rows d)) 70); [lia|].
  destruct (Nat.ltb_spec (length (columns d)) 11); [lia|].
  destruct (length (rows d)); [lia|]. by destruct (length (columns d)); [lia|].
Qed.

Lemma not_undersized_outgoing d :
  85 <= length (rows d) -> 12 <= length (columns d) -> outgoing_undersized d = false.
Proof.
  intros Hr Hc. unfold outgoing_undersized, is_empty.
  destruct (Nat.ltb_spec (length (rows d)) 85); [lia|].
  destruct (Nat.ltb_spec (length (columns d)) 12); [lia|].
  destruct (length (rows d)); [lia|]. by destruct (length (columns d)); [lia|].
Qed.

(** X6: on a grid that is large enough, the pipe tables are rectangular, of 7
    rows by 9 columns and 2 rows by 10 columns; row [i] comes from row
    [63 + i] (resp. [83 + i]) of the grid, and apart from the pipe size its
    cells are copies, as they are, of the cells [incoming_copies] (resp.
    [outgoing_copies]) names. *)
Theorem pipe_tables_copy_cells (w : world) (l : loc) (d : DataFrame) :
  frames w !! l = Some d -> rectangular d ->
  (70 <= length (rows d) -> 11 <= length (columns d) ->
   exists l' w' t,
     extract_incoming_pipes l w = (Ret l', w') /\ frames w' !! l' = Some t /\
     rectangular t /\ length (rows t) = 7 /\ length (columns t) = 9 /\
     stdout w' = stdout w /\
     forall i r, rows t !! i = Some r ->
       exists src, rows d !! (63 + i) = Some src /\
         Forall (fun jk => cell_of r (fst jk) = cell_of src (snd jk)) incoming_copies)
  /\ (85 <= length (rows d) -> 12 <= length (columns d) ->
      exists l' w' t,
        extract_outgoing_pipes l w = (Ret l', w') /\ frames w' !! l' = Some t /\
        rectangular t /\ length (rows t) = 2 /\ length (columns t) = 10 /\
        stdout w' = stdout w /\
        forall i r, rows t !! i = Some r ->
          exists src, rows d !! (83 + i) = Some src /\
            Forall (fun jk => cell_of r (fst jk) = cell_of src (snd jk)) outgoing_copies).
Proof.
  destruct w as [h fs ds out tr]. cbn [frames stdout]. intros Hl Hd. split.
  - intros Hr Hc. pose proof (not_undersized_incoming d Hr Hc) as Hs.
    rewrite (extract_incoming_big _ _ _ _ _ _ _ Hl Hd Hs).
    eexists _, _, (incoming_table d). split; [done|]. cbn [frames stdout].
    split; [by rewrite lookup_app_plus|].
    unfold incoming_table. rewrite Hs. unfold rectangular. cbn [rows columns].
    split; [by apply Forall_map, Forall_forall|].
    split; [rewrite !length_map, length_slice; lia|]. split; [done|]. split; [done|].
    intros i r Hi. apply block_row_source in Hi as (src & Hsrc & ->).
    exists src. split; [done|]. unfold incoming_copies, incoming_row.
    repeat constructor; cbn [fst snd]; unfold cell_of at 1; cbn [nth];
      by rewrite cell_of_slice0 by lia.
  - intros Hr Hc. pose proof (not_undersized_outgoing d Hr Hc) as Hs.
    rewrite (extract_outgoing_big _ _ _ _ _ _ _ Hl Hd Hs).
    eexists _, _, (outgoing_table d). split; [done|]. cbn [frames stdout].
    split; [by rewrite lookup_app_plus|].
    unfold outgoing_table. rewrite Hs. unfold rectangular. cbn [rows columns].
    split; [by apply Forall_map, Forall_forall|].
    split; [rewrite !length_map, length_slice; lia|]. split; [done|]. split; [done|].
    intros i r Hi. apply block_row_source in Hi as (src & Hsrc & ->).
    exists src. split; [done|]. unfold outgoing_copies, outgoing_row.
    repeat constructor; cbn [fst snd]; unfold cell_of at 1; cbn [nth];
      by rewrite cell_of_slice0 by lia.
Qed.

(** ** Trimmed values *)

Lemma solid_chars s :
  solid s -> list_ascii_of_string s <> [] /\ trimmed (list_ascii_of_string s).
Proof.
  intros [Hne Hst]. split.
  - intros H. apply Hne. by rewrite <- (string_of_list_ascii_of_string s), H.
  - rewrite <- Hst. apply trimmed_strip.
Qed.

Lemma trimmed_strip_id s :
  trimmed (list_ascii_of_string s) -> Py.strip s = s.
Proof.
  intros H. unfold Py.strip. rewrite strip_chars_id by done.
  apply string_of_list_ascii_of_string.
Qed.

(** Joining tokens by single spaces gives a text with no white space at
    either end. *)
Lemma join_solid_trimmed (pieces : list string) :
  Forall solid pieces ->
  trimmed (list_ascii_of_string (Py.join " " pieces)) /\
  (pieces <> [] -> list_ascii_of_string (Py.join " " pieces) <> []).
Proof.
  induction 1 as [|p pieces Hp Hps [IHt IHn]]; [done|].
  destruct (solid_chars p Hp) as [Hpn Hpt].
  destruct pieces as [|q pieces]; [done|].
  change (Py.join " " (p :: q :: pieces)) with (p +:+ " " +:+ Py.join " " (q :: pieces)).
  rewrite !chars_app. split.
  - apply trimmed_app; try done. by apply IHn.
  - intros _ H. apply app_eq_nil in H as [H _]. done.
Qed.

Lemma strip_solid_or_empty x :
  Py.truthy (Py.strip x) = true -> solid (Py.strip x).
Proof.
  intros H. split; [|apply strip_idemp].
  intros Hx. by rewrite Hx in H.
Qed.

Lemma range_at_trimmed d row col e :
  Py.strip (range_at d row col e) = range_at d row col e.
Proof.
  unfold range_at. destruct (_ <=? _); [done|].
  apply trimmed_strip_id, join_solid_trimmed.
  apply Forall_map, Forall_forall. intros x Hx.
  apply list_elem_of_In, filter_In in Hx as [_ Hx]. by apply strip_solid_or_empty.
Qed.

Lemma val_at_trimmed d row col : Py.strip (val_at d row col) = val_at d row col.
Proof. unfold val_at. destruct (_ && _); [apply strip_idemp | done]. Qed.

Lemma coordinates_trimmed text :
  Py.strip (fst (coordinates text)) = fst (coordinates text) /\
  Py.strip (snd (coordinates text)) = snd (coordinates text).
Proof.
  unfold coordinates. destruct (Py.contains_char _ _); [|done].
  destruct (_ <=? _); [|done]. cbn [fst snd]. split; apply strip_idemp.
Qed.

Lemma location_values_trimmed d :
  Forall (fun v => Py.strip v = v) (location_values d).
Proof.
  unfold location_values.
  repeat constructor;
    first [ apply val_at_trimmed | apply range_at_trimmed
          | apply (proj1 (coordinates_trimmed _))
          | apply (proj2 (coordinates_trimmed _)) | apply strip_idemp ].
Qed.

(** X7: every value of the location table is trimmed: no VALUE cell begins or
    ends with white space, whatever the grid holds. *)
Theorem location_values_are_trimmed (w : world) (l : loc) (d : DataFrame) :
  frames w !! l = Some d -> rectangular d ->
  exists l' w' t,
    extract_location_data l w = (Ret l', w') /\ frames w' !! l' = Some t /\
    Forall (fun r => Py.strip (cell_of r 1) = cell_of r 1) (rows t).
Proof.
  destruct w as [h fs ds out tr]. cbn [frames]. intros Hl Hd.
  rewrite (extract_location_data_spec _ _ _ _ _ _ _ Hl Hd).
  eexists _, _, (location_table d). split; [done|]. cbn [frames].
  split; [apply lookup_snoc|].
  apply Forall_forall. intros r Hr. apply list_elem_of_lookup in Hr as [k Hk].
  apply location_table_row in Hk as (label & v & -> & _ & Hv).
  exact (Forall_lookup_1 _ _ _ _ (location_values_trimmed d) Hv).
Qed.

(* ===================================================================== *)
(** * The per-file pipeline                                               *)
(* ===================================================================== *)

Lemma padded_tokens_cell_trimmed r j :
  padded_tokens r -> Py.strip (cell_of r j) = cell_of r j.
Proof.
  intros (toks & n & -> & Htoks). unfold cell_of.
  destruct (decide (j < length toks)) as [Hlt|Hge].
  - rewrite app_nth1 by done.
    destruct (lookup_lt_is_Some_2 toks j Hlt) as [t Ht].
    rewrite (nth_lookup_Some _ _ "" _ Ht).
    by destruct (Forall_lookup_1 _ _ _ _ Htoks Ht).
  - rewrite app_nth2 by lia.
    assert (Hnth : forall k, nth k (replicate n "") "" = "").
    { clear. induction n as [|n IH]; intros [|k]; simpl; auto. }
    by rewrite Hnth.
Qed.

(** In a raw grid the cell the sheets' header is read from is the value
    of the "Node Reference" row of the location table. *)
Lemma raw_table_node_reference path f :
  val_at (raw_table path f) 8 2 = node_reference_cell (raw_table path f).
Proof.
  unfold val_at, node_reference_cell.
  destruct (_ && _) eqn:Hb; [|done].
  apply andb_true_iff in Hb as [Hr _]. apply Nat.ltb_lt in Hr.
  destruct (lookup_lt_is_Some_2 _ _ Hr) as [r Hrow].
  rewrite (nth_lookup_Some _ _ [] _ Hrow).
  apply padded_tokens_cell_trimmed.
  exact (Forall_lookup_1 _ _ _ _ (raw_table_rows_padded path f) Hrow).
Qed.

Lemma extract_raw_data_result path w l w1 raw :
  extract_raw_data path w = (Ret l, w1) -> frames w1 !! l = Some raw ->
  raw = raw_table path (files w !! path).
Proof.
  destruct w as [h fs ds out tr]. cbn [files]. rewrite extract_raw_data_spec.
  intros [= <- <-]. cbn [frames]. rewrite lookup_snoc. by intros [= <-].
Qed.

Section PerFile.

Variables (E : env).

(** X8: when the grid is not empty and holds a node reference at row 9,
    column 3, when [output_excel] can be opened for writing (it names an
    entry of a directory that is there) and pandas and xlsxwriter write the
    workbook without an error, [process_pdf] returns after writing one
    workbook at [output_excel]: the raw grid, then the location, incoming
    and outgoing tables of that grid, the three of them under the node
    reference; the reference is the value of the location table's first
    row. *)
Theorem process_pdf_writes_workbook (path output_excel : string) (w w1 : world)
    (l : loc) (raw : DataFrame) :
  extract_raw_data path w = (Ret l, w1) -> frames w1 !! l = Some raw ->
  is_empty raw = false ->
  node_reference_cell raw <> "" ->
  open_wb_error (files w) (dirs w) output_excel = None ->
  xlsx_save_error E output_excel
    (workbook_of raw (location_table raw) (incoming_table raw) (outgoing_table raw)
       (node_reference_cell raw)) = None ->
  exists w' wb,
    process_pdf E path output_excel w = (Ret tt, w') /\
    files w' = <[output_excel := FileXlsx wb]> (files w) /\
    wb = workbook_of raw (location_table raw) (incoming_table raw) (outgoing_table raw)
           (node_reference_cell raw) /\
    map ws_name wb = ["Raw Data"; "Location Details"; "Incoming Pipes"; "Outgoing Pipes"] /\
    rows (location_table raw) !! 0 = Some ["Node Reference"; node_reference_cell raw].
Proof.
  intros Hraw Hl Hemp Hnode Hopen Hsave.
  pose proof (extract_raw_data_result _ _ _ _ _ Hraw Hl) as ->.
  destruct w as [h fs ds out tr]. cbn [files dirs] in *.
  destruct (process_pdf_spec E path output_excel h fs ds out tr)
    as (new & msgs & evs & Hrun & _).
  unfold pdf_outcome in Hrun. rewrite Hemp in Hrun.
  assert (Ht : Py.truthy (node_reference_cell (raw_table path (fs !! path))) = true).
  { destruct (node_reference_cell _); [done | reflexivity]. }
  rewrite Ht, Hopen, Hsave in Hrun. cbn [negb fst snd save_to] in Hrun.
  eexists _, _. split; [exact Hrun|]. cbn [files].
  split; [done|]. split; [done|]. split; [done|].
  rewrite <- raw_table_node_reference. reflexivity.
Qed.

(** X9: whatever it does, [process_pdf] changes no file but the one at
    [output_excel], creates no directory, and changes no table that
    existed before the call. *)
Theorem process_pdf_touches_only_output (path output_excel : string) (w : world) :
  delete output_excel (files (snd (process_pdf E path output_excel w)))
    = delete output_excel (files w)
  /\ dirs (snd (process_pdf E path output_excel w)) = dirs w
  /\ exists new, frames (snd (process_pdf E path output_excel w)) = frames w ++ new.
Proof.
  destruct w as [h fs ds out tr].
  destruct (process_pdf_spec E path output_excel h fs ds out tr)
    as (new & msgs & evs & -> & _).
  cbn [snd files dirs frames]. split; [|split; [done | by eexists]].
  destruct (snd (pdf_outcome E path (fs !! path) _ output_excel)); cbn [save_to];
    [apply delete_insert_eq | done].
Qed.

End PerFile.

(* ===================================================================== *)
(** * The batch runner                                                    *)
(* ===================================================================== *)

Lemma xlsx_named_not_x output_folder (T : gmap string file) k :
  xlsx_named output_folder T -> last_char k <> Some "x"%char -> T !! k = None.
Proof.
  intros HT Hk. destruct (T !! k) eqn:Hl; [|done].
  destruct (HT _ (mk_is_Some _ _ Hl)) as (file' & ->).
  by rewrite xlsx_path_last in Hk.
Qed.

Lemma xlsx_named_empty output_folder : xlsx_named output_folder (∅ : gmap string file).
Proof. intros k [v Hk]. by rewrite lookup_empty in Hk. Qed.

Section BatchExtras.

Variables (E : env).

(** The files after a run, in both cases of [os.makedirs]. *)
Lemma run_processing_batch_files input_folder output_folder w :
  exists T,
    xlsx_named output_folder T /\
    files (snd (run_processing_batch E input_folder output_folder w)) = T ∪ files w.
Proof.
  destruct w as [h fs ds out tr]. cbn [files].
  destruct (makedirs_error E fs output_folder) as [e|] eqn:Hout.
  - rewrite (run_processing_batch_blocked _ _ _ _ _ _ _ _ _ Hout). cbn [snd files].
    exists ∅. split; [apply xlsx_named_empty | by rewrite (left_id ∅ (∪))].
  - destruct (run_processing_batch_spec E input_folder output_folder h fs ds out tr Hout)
      as (new & msgs & evs & -> & _).
    cbn [snd files].
    destruct (batch_outcome_stable E (made_dirs output_folder ∪ ds) output_folder
                (walk_files (os_walk E input_folder)) fs [])
      as (failed' & T & HT & Hstable & _).
    specialize (Hstable ∅ (xlsx_named_empty _)). rewrite (left_id ∅ (∪)) in Hstable.
    rewrite Hstable. by exists T.
Qed.

(** X10: a run of the batch changes no file whose name does not end in the
    letter x; in particular it changes none of the PDFs it reads, and it
    puts no file at the output folder's own path. *)
Theorem batch_touches_only_workbooks (input_folder output_folder : string) (w : world) :
  (forall k, last_char k <> Some "x"%char ->
     files (snd (run_processing_batch E input_folder output_folder w)) !! k
     = files w !! k)
  /\ (forall root file, is_pdf_name file = true ->
        files (snd (run_processing_batch E input_folder output_folder w))
          !! pdf_path_of root file
        = files w !! pdf_path_of root file)
  /\ files (snd (run_processing_batch E input_folder output_folder w)) !! output_folder
     = files w !! output_folder.
Proof.
  destruct (run_processing_batch_files input_folder output_folder w) as (T & HT & ->).
  split; [|split].
  - intros k Hk. apply lookup_union_r. by apply (xlsx_named_not_x output_folder).
  - intros root file Hpdf. apply lookup_union_r.
    by apply (xlsx_named_lookup_pdf output_folder).
  - apply lookup_union_r. by apply xlsx_named_folder.
Qed.

Lemma batch_outcome_failed ds output_folder jobs fs acc :
  exists s,
    fst (batch_outcome E ds output_folder jobs fs acc) = acc ++ s /\
    s `sublist_of` map (fun rf => pdf_path_of (fst rf) (snd rf))
                     (List.filter (fun rf => is_pdf_name (snd rf)) jobs).
Proof.
  revert fs acc. induction jobs as [|[root file] jobs IH]; intros fs acc.
  - exists []. by rewrite app_nil_r.
  - cbn [batch_outcome List.filter snd]. destruct (is_pdf_name file); [|apply IH].
    cbn [map fst snd].
    set (oc := pdf_outcome E _ _ _ _).
    destruct (fst oc).
    + destruct (IH (save_to (xlsx_path_of output_folder file) (snd oc) fs) acc)
        as (s & -> & Hs).
      exists s. split; [done|]. by apply sublist_cons.
    + destruct (IH (save_to (xlsx_path_of output_folder file) (snd oc) fs)
                  (acc ++ [pdf_path_of root file])) as (s & -> & Hs).
      exists (pdf_path_of root file :: s). split; [by rewrite <- app_assoc|].
      by apply sublist_skip.
Qed.

(** X11: the failure list holds paths of PDFs of the listing only, each at most
    as often as it is listed, in the order of the listing. *)
Theorem batch_failures_are_listed_pdfs (input_folder output_folder : string)
    (w w' : world) (failed : list string) :
  run_processing_batch E input_folder output_folder w = (Ret failed, w') ->
  failed `sublist_of` listed_pdfs (os_walk E input_folder).
Proof.
  destruct w as [h fs ds out tr]. intros Hrun.
  destruct (makedirs_error E fs output_folder) as [e|] eqn:Hout.
  { by rewrite (run_processing_batch_blocked _ _ _ _ _ _ _ _ _ Hout) in Hrun. }
  destruct (run_processing_batch_spec E input_folder output_folder h fs ds out tr Hout)
    as (new & msgs & evs & Hspec & _).
  rewrite Hspec in Hrun. injection Hrun as <- _.
  destruct (batch_outcome_failed (made_dirs output_folder ∪ ds) output_folder
              (walk_files (os_walk E input_folder)) fs []) as (s & -> & Hs).
  exact Hs.
Qed.



End BatchExtras.

(* ===================================================================== *)
(** * The name of the workbook                                            *)
(* ===================================================================== *)

Lemma rfind_char_none c t :
  Forall (fun x => Ascii.eqb x c = false) t -> rfind_char c t = None.
Proof. induction 1 as [|x t Hx _ IH]; simpl; [done|]. by rewrite IH, Hx. Qed.

Lemma rfind_char_last c l t :
  rfind_char c t = None -> rfind_char c (l ++ c :: t) = Some (length l).
Proof.
  intros Ht. induction l as [|x l IH]; simpl.
  - by rewrite Ht, Ascii.eqb_refl.
  - by rewrite IH.
Qed.

Lemma split_chars_plain l :
  Forall (fun c => Ascii.eqb c "/" = false) l -> Py.split_chars "/" l = [l].
Proof.
  induction 1 as [|c l Hc _ IH]; [done|].
  cbn [Py.split_chars]. by rewrite Hc, IH.
Qed.

Lemma path_name_plain file : plain_name file -> path_name file = file.
Proof.
  intros H. unfold path_name. rewrite (split_chars_plain _ H). simpl.
  apply string_of_list_ascii_of_string.
Qed.

Lemma lower_char_dot c : Py.lower_char c = "."%char -> c = "."%char.
Proof. destruct c as [[] [] [] [] [] [] [] []]; vm_compute; congruence. Qed.

Lemma lower_char_letter_not_dot c x :
  Py.lower_char c = x -> x <> "."%char -> Ascii.eqb c "." = false.
Proof.
  intros Hc Hx. destruct (Ascii.eqb_spec c "."%char) as [->|]; [|done].
  by vm_compute in Hc.
Qed.

(** A name that ends in .pdf, in any case: a base, a dot and three
    letters. *)
Lemma is_pdf_name_split file :
  is_pdf_name file = true ->
  exists base c2 c3 c4,
    list_ascii_of_string file = base ++ ["."%char; c2; c3; c4] /\
    map Py.lower_char [c2; c3; c4] = ["p"; "d"; "f"]%char.
Proof.
  unfold is_pdf_name, Py.endswith. rewrite chars_lower.
  set (l := list_ascii_of_string file).
  change (rev (list_ascii_of_string ".pdf")) with ["f"; "d"; "p"; "."]%char.
  rewrite <- map_rev. intros H.
  destruct (rev l) as [|c4 [|c3 [|c2 [|c1 r]]]] eqn:Hr; cbn [map Py.prefix_chars] in H;
    rewrite ?andb_false_r in H; try done.
  repeat (apply andb_true_iff in H as [?%Ascii.eqb_eq H]).
  apply (f_equal (@rev _)) in Hr. rewrite rev_involutive in Hr. simpl in Hr.
  rewrite <- !app_assoc in Hr. simpl in Hr.
  exists (rev r), c2, c3, c4. split.
  - rewrite Hr. f_equal. f_equal. by apply lower_char_dot.
  - simpl. congruence.
Qed.

Lemma pdf_stem_is_base_name (file : string) :
  plain_name file -> is_pdf_name file = true ->
  exists base ext,
    file = base +:+ ext /\ Py.lower ext = ".pdf" /\
    (base <> "" -> path_stem file = base) /\
    (base = "" -> path_stem file = file).
Proof.
  intros Hplain Hpdf.
  destruct (is_pdf_name_split file Hpdf) as (b & c2 & c3 & c4 & Hchars & Hlow).
  injection Hlow as H2 H3 H4.
  exists (string_of_list_ascii b), (string_of_list_ascii ["."%char; c2; c3; c4]).
  assert (Hfile : file = string_of_list_ascii b +:+ string_of_list_ascii ["."%char; c2; c3; c4]).
  { by rewrite <- of_chars_app, <- Hchars, string_of_list_ascii_of_string. }
  split; [exact Hfile|]. split.
  { unfold Py.lower. rewrite list_ascii_of_string_of_list_ascii. simpl.
    by rewrite H2, H3, H4. }
  assert (Hfind : rfind_char "." (list_ascii_of_string file) = Some (length b)).
  { rewrite Hchars. apply rfind_char_last, rfind_char_none.
    repeat constructor; eapply lower_char_letter_not_dot; eauto; discriminate. }
  unfold path_stem. rewrite (path_name_plain _ Hplain), Hfind.
  assert (Hlen : length (list_ascii_of_string file) = length b + 4).
  { rewrite Hchars, length_app. simpl. lia. }
  rewrite Hlen. split.
  - intros Hb. destruct b as [|x b]; [done|].
    replace ((0 <? length (x :: b)) && (length (x :: b) <? length (x :: b) + 4 - 1))
      with true.
    + by rewrite Hchars, take_app_length.
    + symmetry. apply andb_true_iff. split; apply Nat.ltb_lt; simpl; lia.
  - intros Hb. apply of_chars_nil in Hb. subst b. simpl.
    apply string_of_list_ascii_of_string.
Qed.

(** X13: the workbook keeps the PDF's base name: a file name without path
    separator that does not begin with a dot and ends in .pdf (in any
    case) is its stem followed by that extension, and its workbook is
    [stem.xlsx] in the output folder, wherever the PDF was found. *)
Theorem workbook_named_after_pdf (file : string) :
  plain_name file -> is_pdf_name file = true -> Py.startswith file "." = false ->
  exists ext,
    file = path_stem file +:+ ext /\ Py.lower ext = ".pdf" /\
    path_stem file <> "" /\
    forall output_folder,
      xlsx_path_of output_folder file
      = os_path_join output_folder (path_stem file +:+ ".xlsx").
Proof.
  intros Hplain Hpdf Hdot.
  destruct (pdf_stem_is_base_name file Hplain Hpdf) as (base & ext & Hfile & Hext & Hstem & _).
  assert (Hbase : base <> "").
  { intros ->. simpl in Hfile. subst file.
    destruct ext as [|c ext]; [done|].
    assert (c = "."%char) as ->.
    { apply lower_char_dot. unfold Py.lower in Hext. simpl in Hext. congruence. }
    unfold Py.startswith in Hdot. cbn in Hdot. discriminate Hdot. }
  exists ext. unfold xlsx_path_of. rewrite (Hstem Hbase). done.
Qed.

(* ===================================================================== *)
(** * The sheets of the workbook                                          *)
(* ===================================================================== *)

Lemma elem_of_concat {A} (x : A) (ls : list (list A)) :
  x ∈ concat ls <-> exists l, l ∈ ls /\ x ∈ l.
Proof.
  rewrite list_elem_of_In, in_concat. split; intros (l & H1 & H2); exists l;
    by rewrite ?list_elem_of_In in *.
Qed.

(** The column of a label is the column at the label's position. *)
Lemma df_column_at (df : DataFrame) (j : nat) (c : string) :
  NoDup (columns df) -> columns df !! j = Some c ->
  df_column df c = map (fun r => nth j r "") (rows df).
Proof.
  intros Hnd Hj. unfold df_column.
  assert (Hfind : list_find (fun x => x = c) (columns df) = Some (j, c)).
  { apply list_find_Some. split; [done|]. split; [done|].
    intros j' y Hj' Hlt ->. pose proof (NoDup_lookup _ _ _ _ Hnd Hj Hj'). lia. }
  by rewrite Hfind.
Qed.

Lemma column_cell (df : DataFrame) (i j : nat) (v : string) :
  rectangular df -> j < length (columns df) ->
  map (fun r => nth j r "") (rows df) !! i = Some v <->
  exists r, rows df !! i = Some r /\ r !! j = Some v.
Proof.
  intros Hd Hj. rewrite lookup_map. split.
  - destruct (rows df !! i) as [r|] eqn:Hr; [|done]. intros [= <-].
    exists r. split; [done|].
    pose proof (Forall_lookup_1 _ _ _ _ Hd Hr) as Hlen. simpl in Hlen.
    assert (Hjr : j < length r) by lia.
    destruct (lookup_lt_is_Some_2 _ _ Hjr) as [v Hv].
    by rewrite (nth_lookup_Some _ _ "" _ Hv).
  - intros (r & -> & Hv). simpl. by rewrite (nth_lookup_Some _ _ "" _ Hv).
Qed.

(** X14: the layout of a sheet with a node reference: "Node Reference" in A1
    (bold) and the reference in B1; the labels of the table in row 3
    (bold); the cell of row [i], column [j] of the table in row [i + 4] of
    the same column; and nothing else, so row 2 stays blank. *)
Theorem node_sheet_layout (sheet_name : string) (df : DataFrame) (node : string)
    (r c : nat) (v : string) (b : bool) :
  rectangular df -> NoDup (columns df) ->
  XlWrite r c v b ∈ ws_ops (node_sheet sheet_name df node) <->
  (r = 0 /\ c = 0 /\ v = "Node Reference" /\ b = true)
  \/ (r = 0 /\ c = 1 /\ v = node /\ b = false)
  \/ (r = 2 /\ columns df !! c = Some v /\ b = true)
  \/ (exists i row, r = i + 3 /\ rows df !! i = Some row /\ row !! c = Some v /\
                    b = false).
Proof.
  intros Hd Hnd. unfold node_sheet. cbn [ws_ops].
  rewrite !elem_of_app, !elem_of_cons, elem_of_concat.
  setoid_rewrite elem_of_lookup_imap. split.
  - intros [[H|[H|H]]|[(l & (j & name & -> & Hj) & Hin)|[(j & name & H & _)|[H|[H|H]]]]];
      try discriminate; try (by apply elem_of_nil in H).
    + injection H as -> -> -> ->. by left.
    + injection H as -> -> -> ->. right. by left.
    + apply elem_of_cons in Hin as [H|Hin].
      * injection H as -> -> -> ->. right. right. by left.
      * apply elem_of_lookup_imap in Hin as (i & x & H & Hi).
        injection H as -> -> -> ->. right. right. right.
        rewrite (df_column_at df j name Hnd Hj) in Hi.
        apply column_cell in Hi as (row & Hrow & Hv);
          [|done|by apply lookup_lt_Some in Hj].
        by exists i, row.
  - intros [(-> & -> & -> & ->)|[(-> & -> & -> & ->)|[(-> & Hc & ->)|(i & row & -> & Hrow & Hv & ->)]]].
    + left. by left.
    + left. right. by left.
    + right. left. eexists. split; [by exists c, v|]. by left.
    + assert (Hc : c < length (columns df)).
      { pose proof (Forall_lookup_1 _ _ _ _ Hd Hrow) as Hlen. simpl in Hlen.
        apply lookup_lt_Some in Hv. lia. }
      destruct (lookup_lt_is_Some_2 _ _ Hc) as [name Hname].
      right. left. eexists. split; [by exists c, name|]. right.
      apply elem_of_lookup_imap. exists i, v. split; [done|].
      rewrite (df_column_at df c name Hnd Hname).
      apply column_cell; [done..|]. by exists row.
Qed.

(** X15: the width the sheet first asks for a column of a table that has rows
    leaves room for the label and for every value of the column, plus
    two; the sheet then ends by setting the widths of columns A and B
    again, from the node reference alone. *)
Theorem node_sheet_widths (sheet_name : string) (df : DataFrame) (node : string)
    (j : nat) (name : string) :
  rectangular df -> NoDup (columns df) -> rows df <> [] ->
  columns df !! j = Some name ->
  exists width,
    XlSetColumn j j (Some width) ∈ ws_ops (node_sheet sheet_name df node) /\
    String.length name + 2 <= width /\
    (forall i row v, rows df !! i = Some row -> row !! j = Some v ->
       String.length v + 2 <= width) /\
    exists before,
      ws_ops (node_sheet sheet_name df node) =
      before ++ [XlSetColumn 0 0 (Some (Nat.max 14 (String.length node) + 2));
                 XlSetColumn 1 1 (Some (String.length node + 2))].
Proof.
  intros Hd Hnd Hrows Hj.
  set (col := map (fun r => nth j r "") (rows df)).
  exists (Nat.max (max_list (map String.length col)) (String.length name) + 2).
  split; [|split; [lia|split]]; cycle 2.
  { unfold node_sheet. cbn [ws_ops]. rewrite !app_assoc. by eexists. }
  - unfold node_sheet. cbn [ws_ops]. rewrite !elem_of_app. right. right. left.
    apply elem_of_lookup_imap. exists j, name. split; [|done].
    unfold astype_str. rewrite (df_column_at df j name Hnd Hj). fold col.
    unfold column_width. destruct col eqn:Hcol; [|done].
    apply (f_equal (@length _)) in Hcol. unfold col in Hcol.
    rewrite length_map in Hcol. by destruct (rows df).
  - intros i row v Hrow Hv.
    assert (Hin : v ∈ col).
    { apply list_elem_of_lookup. exists i. apply column_cell; [done| |by exists row].
      by apply lookup_lt_Some in Hj. }
    assert (String.length v <= max_list (map String.length col)); [|lia].
    apply max_list_elem_of_le, list_elem_of_In, in_map, list_elem_of_In, Hin.
Qed.

(** The tables the extractors return have distinct labels and are
    rectangular, so the two statements above apply to their sheets. *)
Lemma extractor_tables_well_formed (d : DataFrame) :
  (rectangular (incoming_table d) /\ NoDup (columns (incoming_table d))) /\
  (rectangular (outgoing_table d) /\ NoDup (columns (outgoing_table d))) /\
  (rectangular (location_table d) /\ NoDup (columns (location_table d))).
Proof.
  split; [|split]; split.
  - unfold incoming_table, rectangular. destruct (incoming_undersized d); cbn [rows columns];
      [constructor | by apply Forall_map, Forall_forall].
  - rewrite incoming_table_columns. apply (bool_decide_unpack _). by vm_compute.
  - unfold outgoing_table, rectangular. destruct (outgoing_undersized d); cbn [rows columns];
      [constructor | by apply Forall_map, Forall_forall].
  - rewrite outgoing_table_columns. apply (bool_decide_unpack _). by vm_compute.
  - apply Forall_forall. intros r Hr. apply list_elem_of_lookup in Hr as [k Hk].
    by apply location_table_row in Hk as (label & v & -> & _).
  - apply (bool_decide_unpack _). by vm_compute.
Qed.

(* ===================================================================== *)
(** * The example script                                                  *)
(* ===================================================================== *)


Section Script.

Variables (E : env).




End Script.

(* ===================================================================== *)
(** * Further statements at sample inputs                                 *)
(* ===================================================================== *)

(** X3 on a page of nine lines of three tokens. *)
Lemma raw_grid_keeps_tokens_witness :
  files survey_world !! "in/a.pdf" = Some (FilePdf (map PageText [three_token_lines 9])) /\
  exists l w' d,
    extract_raw_data "in/a.pdf" survey_world = (Ret l, w') /\
    frames w' !! l = Some d /\
    map (List.filter Py.truthy) (rows d) = text_rows [three_token_lines 9] /\
    length (rows d) = length (text_rows [three_token_lines 9]) /\
    length (columns d) = max_list (map length (text_rows [three_token_lines 9])).
Proof.
  assert (Hf : files survey_world !! "in/a.pdf"
               = Some (FilePdf (map PageText [three_token_lines 9]))) by reflexivity.
  split; [exact Hf|].
  exact (raw_grid_keeps_tokens "in/a.pdf" [three_token_lines 9] survey_world Hf).
Defined.


(** X5 on a PDF without text. *)
Lemma raw_grid_empty_iff_no_token_witness :
  files blank_world !! "in/a.pdf" = Some (FilePdf (map PageText [""])) /\
  (yields_empty_grid "in/a.pdf" blank_world <-> concat (text_rows [""]) = []).
Proof.
  assert (Hf : files blank_world !! "in/a.pdf" = Some (FilePdf (map PageText [""])))
    by reflexivity.
  split; [exact Hf|].
  exact (raw_grid_empty_iff_no_token "in/a.pdf" [""] blank_world Hf).
Defined.

(** X6 on a grid of 97 rows and 12 columns. *)
Lemma pipe_tables_copy_cells_witness :
  frames (sample_world full_grid) !! 0 = Some full_grid /\
  rectangular full_grid /\
  70 <= length (rows full_grid) /\ 11 <= length (columns full_grid) /\
  85 <= length (rows full_grid) /\ 12 <= length (columns full_grid) /\
  (exists l' w' t,
     extract_incoming_pipes 0 (sample_world full_grid) = (Ret l', w') /\
     frames w' !! l' = Some t /\ rectangular t /\
     length (rows t) = 7 /\ length (columns t) = 9) /\
  (exists l' w' t,
     extract_outgoing_pipes 0 (sample_world full_grid) = (Ret l', w') /\
     frames w' !! l' = Some t /\ rectangular t /\
     length (rows t) = 2 /\ length (columns t) = 10).
Proof.
  assert (Hl : frames (sample_world full_grid) !! 0 = Some full_grid)
    by reflexivity.
  assert (H70 : 70 <= length (rows full_grid)) by (simpl; lia).
  assert (H11 : 11 <= length (columns full_grid)) by (simpl; lia).
  assert (H85 : 85 <= length (rows full_grid)) by (simpl; lia).
  assert (H12 : 12 <= length (columns full_grid)) by (simpl; lia).
  destruct (pipe_tables_copy_cells (sample_world full_grid) 0 full_grid Hl
              full_grid_rectangular) as (Hin & Hout).
  destruct (Hin H70 H11) as (l1 & w1 & t1 & Hr1 & Hf1 & Hd1 & Hn1 & Hc1 & _).
  destruct (Hout H85 H12) as (l2 & w2 & t2 & Hr2 & Hf2 & Hd2 & Hn2 & Hc2 & _).
  split; [exact Hl|]. split; [apply full_grid_rectangular|].
  split; [exact H70|]. split; [exact H11|].
  split; [exact H85|]. split; [exact H12|].
  split.
  - exists l1, w1, t1. auto.
  - exists l2, w2, t2. auto.
Defined.

(** X7 on the same grid. *)
Lemma location_values_are_trimmed_witness :
  frames (sample_world full_grid) !! 0 = Some full_grid /\
  rectangular full_grid /\
  exists l' w' t,
    extract_location_data 0 (sample_world full_grid) = (Ret l', w') /\
    frames w' !! l' = Some t /\
    Forall (fun r => Py.strip (cell_of r 1) = cell_of r 1) (rows t).
Proof.
  assert (Hl : frames (sample_world full_grid) !! 0 = Some full_grid)
    by reflexivity.
  split; [exact Hl|]. split; [apply full_grid_rectangular|].
  exact (location_values_are_trimmed (sample_world full_grid) 0 full_grid Hl
           full_grid_rectangular).
Defined.

(** X8 on a PDF of 97 lines of twelve tokens, the output folder being
    there. *)
Lemma process_pdf_writes_workbook_witness :
  extract_raw_data "in/a.pdf" sheet_world
    = (Ret 0, snd (extract_raw_data "in/a.pdf" sheet_world)) /\
  frames (snd (extract_raw_data "in/a.pdf" sheet_world)) !! 0 = Some sheet_grid /\
  is_empty sheet_grid = false /\
  node_reference_cell sheet_grid <> "" /\
  open_wb_error (files sheet_world) (dirs sheet_world) "out/a.xlsx" = None /\
  exists w' wb,
    process_pdf sample_env "in/a.pdf" "out/a.xlsx" sheet_world = (Ret tt, w') /\
    files w' = <["out/a.xlsx" := FileXlsx wb]> (files sheet_world) /\
    map ws_name wb = ["Raw Data"; "Location Details"; "Incoming Pipes"; "Outgoing Pipes"].
Proof.
  assert (H1 : extract_raw_data "in/a.pdf" sheet_world
               = (Ret 0, snd (extract_raw_data "in/a.pdf" sheet_world)))
    by (vm_compute; reflexivity).
  assert (H2 : frames (snd (extract_raw_data "in/a.pdf" sheet_world)) !! 0
               = Some sheet_grid) by (vm_compute; reflexivity).
  assert (H3 : is_empty sheet_grid = false) by (vm_compute; reflexivity).
  assert (H4 : node_reference_cell sheet_grid <> "") by (vm_compute; discriminate).
  assert (H5 : open_wb_error (files sheet_world) (dirs sheet_world) "out/a.xlsx" = None)
    by (vm_compute; reflexivity).
  destruct (process_pdf_writes_workbook sample_env "in/a.pdf" "out/a.xlsx" sheet_world
              _ 0 sheet_grid H1 H2 H3 H4 H5 eq_refl)
    as (w' & wb & Hrun & Hfiles & _ & Hnames & _).
  split; [exact H1|]. split; [exact H2|]. split; [exact H3|]. split; [exact H4|].
  split; [exact H5|].
  exists w', wb. auto.
Defined.

(** X10 on a folder with one PDF. *)
Lemma batch_touches_only_workbooks_witness :
  last_char "in/a.pdf" <> Some "x"%char /\
  is_pdf_name "a.pdf" = true /\
  files (snd (run_processing_batch sample_env "in" "out" survey_world)) !! "in/a.pdf"
    = files survey_world !! "in/a.pdf" /\
  files (snd (run_processing_batch sample_env "in" "out" survey_world))
    !! pdf_path_of "in" "a.pdf"
    = files survey_world !! pdf_path_of "in" "a.pdf".
Proof.
  assert (H1 : last_char "in/a.pdf" <> Some "x"%char) by (vm_compute; discriminate).
  assert (H2 : is_pdf_name "a.pdf" = true) by reflexivity.
  destruct (batch_touches_only_workbooks sample_env "in" "out" survey_world)
    as (Hk & Hpdf & _).
  split; [exact H1|]. split; [exact H2|]. split.
  - exact (Hk "in/a.pdf" H1).
  - exact (Hpdf "in" "a.pdf" H2).
Defined.

(** X11 on a folder with one PDF that has no
    node reference. *)
Lemma batch_failures_are_listed_pdfs_witness :
  run_processing_batch sample_env "in" "out" pdf_world
    = (Ret ["in/a.pdf"], snd (run_processing_batch sample_env "in" "out" pdf_world)) /\
  ["in/a.pdf"] `sublist_of` listed_pdfs (os_walk sample_env "in").
Proof.
  assert (H : run_processing_batch sample_env "in" "out" pdf_world
              = (Ret ["in/a.pdf"],
                 snd (run_processing_batch sample_env "in" "out" pdf_world)))
    by (vm_compute; reflexivity).
  split; [exact H|].
  exact (batch_failures_are_listed_pdfs sample_env "in" "out" pdf_world _ _ H).
Defined.



(** X13 on "Report.v2.PDF". *)
Lemma workbook_named_after_pdf_witness :
  plain_name "Report.v2.PDF" /\ is_pdf_name "Report.v2.PDF" = true /\
  Py.startswith "Report.v2.PDF" "." = false /\
  exists ext,
    "Report.v2.PDF" = path_stem "Report.v2.PDF" +:+ ext /\ Py.lower ext = ".pdf".
Proof.
  assert (H1 : plain_name "Report.v2.PDF") by (unfold plain_name; simpl; repeat constructor).
  assert (H2 : is_pdf_name "Report.v2.PDF" = true) by reflexivity.
  assert (H3 : Py.startswith "Report.v2.PDF" "." = false) by reflexivity.
  destruct (workbook_named_after_pdf "Report.v2.PDF" H1 H2 H3) as (ext & Hf & Hext & _).
  split; [exact H1|]. split; [exact H2|]. split; [exact H3|].
  exists ext. auto.
Defined.

Lemma location_table_empty_nodup : NoDup (columns (location_table empty_grid)).
Proof. apply (bool_decide_unpack _). by vm_compute. Defined.

Lemma location_table_empty_rectangular : rectangular (location_table empty_grid).
Proof. unfold rectangular. simpl. repeat constructor. Defined.

(** X14 on the location sheet of the empty grid: its
    first label stands in row 3. *)
Lemma node_sheet_layout_witness :
  rectangular (location_table empty_grid) /\
  NoDup (columns (location_table empty_grid)) /\
  (XlWrite 2 0 "COMPONENTS" true
     ∈ ws_ops (node_sheet "Location Details" (location_table empty_grid) "MH1") <->
   (2 = 0 /\ 0 = 0 /\ "COMPONENTS" = "Node Reference" /\ true = true)
   \/ (2 = 0 /\ 0 = 1 /\ "COMPONENTS" = "MH1" /\ true = false)
   \/ (2 = 2 /\ columns (location_table empty_grid) !! 0 = Some "COMPONENTS" /\ true = true)
   \/ (exists i row, 2 = i + 3 /\ rows (location_table empty_grid) !! i = Some row /\
                     row !! 0 = Some "COMPONENTS" /\ true = false)).
Proof.
  split; [apply location_table_empty_rectangular|].
  split; [apply location_table_empty_nodup|].
  exact (node_sheet_layout "Location Details" (location_table empty_grid) "MH1"
           2 0 "COMPONENTS" true location_table_empty_rectangular
           location_table_empty_nodup).
Defined.

(** X15 on the VALUE column of that sheet. *)
Lemma node_sheet_widths_witness :
  rectangular (location_table empty_grid) /\
  NoDup (columns (location_table empty_grid)) /\
  rows (location_table empty_grid) <> [] /\
  columns (location_table empty_grid) !! 1 = Some "VALUE" /\
  exists width,
    XlSetColumn 1 1 (Some width)
      ∈ ws_ops (node_sheet "Location Details" (location_table empty_grid) "MH1") /\
    String.length "VALUE" + 2 <= width.
Proof.
  assert (H3 : rows (location_table empty_grid) <> []) by discriminate.
  assert (H4 : columns (location_table empty_grid) !! 1 = Some "VALUE") by reflexivity.
  destruct (node_sheet_widths "Location Details" (location_table empty_grid) "MH1"
              1 "VALUE" location_table_empty_rectangular location_table_empty_nodup
              H3 H4) as (width & Hin & Hname & _).
  split; [apply location_table_empty_rectangular|].
  split; [apply location_table_empty_nodup|].
  split; [exact H3|]. split; [exact H4|].
  exists width. auto.
Defined.

